(** * Pi_Qualytics sample-data generators: a shallow embedding

    The repository holds two scripts, [Sampledata.py] (banking data with
    intentional data-quality defects) and
    [scripts/generate_pure_sample_data.py] (the same schemas without
    defects).  Both are sequences of record-construction loops driven by
    Python's process-wide pseudo-random generator, followed by a CSV
    serialisation step.

    The embedding keeps the shape of the scripts:
    - the pseudo-random generator is an explicit source of draws, threaded
      through every generator by a state-and-exception monad;
    - Python exceptions ([IndexError], [ValueError], [OverflowError]) are
      results of the monad;
    - Python floats are IEEE-754 binary64 values with round-to-nearest-even,
      kept as exact integer multiples of 2^-1074;
    - dates are proleptic Gregorian ordinals, as in [datetime];
    - each script is a [Module] with its own copies of the pools and
      generators, as in the source. *)

From Stdlib Require Import ZArith NArith Nnat List Bool Lia Ascii String.
From Stdlib Require Import Numbers.DecimalString Numbers.DecimalN.
From Stdlib Require Numbers.DecimalPos Numbers.DecimalFacts.
Import ListNotations.

Local Open Scope string_scope.
Local Open Scope Z_scope.

(** ** Python strings: [str(int)], [zfill], [lower] *)

Module PyStr.

(** [str(n)] for an integer. *)
Definition str (n : Z) : string :=
  if n <? 0
  then String "-" (NilEmpty.string_of_uint (N.to_uint (Z.to_N (- n))))
  else NilEmpty.string_of_uint (N.to_uint (Z.to_N n)).

Fixpoint zeros (k : nat) : string :=
  match k with
  | O => EmptyString
  | S k' => String "0" (zeros k')
  end.

(** [s.zfill(width)]: left-pad with zeros, after a leading sign. *)
Definition zfill (width : nat) (s : string) : string :=
  let pad := zeros (width - String.length s) in
  match s with
  | String c rest =>
      if (Ascii.eqb c "-" || Ascii.eqb c "+")%bool
      then String c (pad ++ rest)
      else pad ++ s
  | EmptyString => pad
  end.

Definition is_upper (c : ascii) : bool :=
  let n := nat_of_ascii c in (Nat.leb 65 n && Nat.leb n 90)%bool.

Definition lower_char (c : ascii) : ascii :=
  if is_upper c then ascii_of_nat (nat_of_ascii c + 32) else c.

(** [s.lower()] on ASCII text. *)
Fixpoint lower (s : string) : string :=
  match s with
  | EmptyString => EmptyString
  | String c rest => String (lower_char c) (lower rest)
  end.

Definition is_digit (c : ascii) : bool :=
  let n := nat_of_ascii c in (Nat.leb 48 n && Nat.leb n 57)%bool.

Fixpoint all_digits (s : string) : bool :=
  match s with
  | EmptyString => true
  | String c rest => (is_digit c && all_digits rest)%bool
  end.

(** Reading back a run of decimal digits. *)
Definition int_of_digits (s : string) : option Z :=
  option_map (fun d => Z.of_N (N.of_uint d)) (NilEmpty.uint_of_string s).

End PyStr.

(** ** Python floats

    A Python float is an IEEE-754 binary64 value.  Every finite binary64
    value is an integer multiple of 2^-1074, so a finite float is kept as a
    sign and a magnitude [u] counted in that unit; the sign is kept on zero
    too, because formatting shows it.  Arithmetic computes the exact result
    and rounds it to 53 significant bits, ties to even. *)

Module PyFloat.

Definition W : Z := 2 ^ 1074.

Inductive pyfloat : Type :=
| FNan
| FInf (neg : bool)
| FFin (neg : bool) (u : Z).

(** The quotient [num / den] rounded to the nearest integer, ties to even. *)
Definition div_half_even (num den : Z) : Z :=
  let q := num / den in
  let r := num mod den in
  if 2 * r <? den then q
  else if den <? 2 * r then q + 1
  else if Z.even q then q else q + 1.

(** Exponent of the last place kept when [num / den] units are rounded to
    53 bits; 0 in the subnormal range and the first binade. *)
Definition ulp_exp (num den : Z) : Z := Z.max (Z.log2 (num / den) - 52) 0.

(** 2^1024, the overflow threshold, counted in units. *)
Definition huge : Z := 2 ^ 2098.

(** Round the exact magnitude [num / den] (in units) to binary64. *)
Definition round (neg : bool) (num den : Z) : pyfloat :=
  let k := ulp_exp num den in
  let u := div_half_even num (den * 2 ^ k) * 2 ^ k in
  if u <? huge then FFin neg u else FInf neg.

Definition signed (neg : bool) (u : Z) : Z := if neg then - u else u.

Definition opp (x : pyfloat) : pyfloat :=
  match x with
  | FNan => FNan
  | FInf s => FInf (negb s)
  | FFin s u => FFin (negb s) u
  end.

Definition add (x y : pyfloat) : pyfloat :=
  match x, y with
  | FNan, _ => FNan
  | _, FNan => FNan
  | FInf a, FInf b => if Bool.eqb a b then FInf a else FNan
  | FInf a, FFin _ _ => FInf a
  | FFin _ _, FInf b => FInf b
  | FFin a u, FFin b v =>
      let s := signed a u + signed b v in
      if s =? 0 then FFin (a && b) 0
      else round (s <? 0) (Z.abs s) 1
  end.

Definition sub (x y : pyfloat) : pyfloat := add x (opp y).

Definition mul (x y : pyfloat) : pyfloat :=
  match x, y with
  | FNan, _ => FNan
  | _, FNan => FNan
  | FInf a, FInf b => FInf (xorb a b)
  | FInf a, FFin b v => if v =? 0 then FNan else FInf (xorb a b)
  | FFin a u, FInf b => if u =? 0 then FNan else FInf (xorb a b)
  | FFin a u, FFin b v => round (xorb a b) (u * v) W
  end.

(** [x < y] and [x > y]; every comparison with nan is false. *)
Definition ltb (x y : pyfloat) : bool :=
  match x, y with
  | FNan, _ => false
  | _, FNan => false
  | FInf a, FInf b => (a && negb b)%bool
  | FInf a, FFin _ _ => a
  | FFin _ _, FInf b => negb b
  | FFin a u, FFin b v => signed a u <? signed b v
  end.

Definition gtb (x y : pyfloat) : bool := ltb y x.

(** The float nearest to the decimal [digits * 10^-scale]: a float literal
    of the source, or an exact integer when [scale] is 0. *)
Definition of_decimal (neg : bool) (digits : Z) (scale : nat) : pyfloat :=
  round neg (digits * W) (10 ^ Z.of_nat scale).

(** [float(n)] for an integer; [None] is Python's [OverflowError]. *)
Definition of_int (n : Z) : option pyfloat :=
  match round (n <? 0) (Z.abs n * W) 1 with
  | FInf _ => None
  | x => Some x
  end.

Definition is_finite (x : pyfloat) : bool :=
  match x with
  | FFin _ _ => true
  | _ => false
  end.

(** Truncation toward zero, the numeric part of [int(x)]. *)
Definition trunc (x : pyfloat) : option Z :=
  match x with
  | FFin s u => Some (signed s (u / W))
  | _ => None
  end.

(** [f"{x:.pf}"]: fixed-point text with [p] decimals ([p] > 0), correctly
    rounded, ties to even. *)
Definition format_f (p : nat) (x : pyfloat) : string :=
  match x with
  | FNan => "nan"
  | FInf s => if s then "-inf" else "inf"
  | FFin s u =>
      let n := div_half_even (u * 10 ^ Z.of_nat p) W in
      let ip := n / 10 ^ Z.of_nat p in
      let fp := n mod 10 ^ Z.of_nat p in
      ((if s then "-" else "") ++ PyStr.str ip ++ "."
         ++ PyStr.zfill p (PyStr.str fp))%string
  end.

(** Splitting decimal text at its first point. *)
Fixpoint split_point (s : string) : string * option string :=
  match s with
  | EmptyString => (EmptyString, None)
  | String c rest =>
      if Ascii.eqb c "." then (EmptyString, Some rest)
      else let '(a, b) := split_point rest in (String c a, b)
  end.

(** Blanks that [float] strips from both ends of its argument; the
    characters of a string are code points below 256. *)
Definition is_space (c : ascii) : bool :=
  let n := nat_of_ascii c in
  ((Nat.leb 9 n && Nat.leb n 13) || Nat.eqb n 32 || Nat.eqb n 133
   || Nat.eqb n 160)%bool.

Fixpoint lstrip (s : string) : string :=
  match s with
  | EmptyString => EmptyString
  | String c rest => if is_space c then lstrip rest else s
  end.

Fixpoint rstrip (s : string) : string :=
  match s with
  | EmptyString => EmptyString
  | String c rest =>
      match rstrip rest with
      | EmptyString => if is_space c then EmptyString else String c EmptyString
      | kept => String c kept
      end
  end.

Definition strip (s : string) : string := rstrip (lstrip s).

(** Splitting at the exponent marker, [e] or [E]. *)
Fixpoint split_exp (s : string) : string * option string :=
  match s with
  | EmptyString => (EmptyString, None)
  | String c rest =>
      if (Ascii.eqb c "e" || Ascii.eqb c "E")%bool then (EmptyString, Some rest)
      else let '(a, b) := split_exp rest in (String c a, b)
  end.

(** What may follow a digit inside a [digitpart]: digits, each
    optionally preceded by one underscore. *)
Fixpoint digitpart_tail (s : string) : bool :=
  match s with
  | EmptyString => true
  | String c rest =>
      if PyStr.is_digit c then digitpart_tail rest
      else if Ascii.eqb c "_"
           then match rest with
                | String d rest' => (PyStr.is_digit d && digitpart_tail rest')%bool
                | EmptyString => false
                end
           else false
  end.

Definition digitpart (s : string) : bool :=
  match s with
  | String c rest => (PyStr.is_digit c && digitpart_tail rest)%bool
  | EmptyString => false
  end.

Fixpoint remove_underscores (s : string) : string :=
  match s with
  | EmptyString => EmptyString
  | String c rest =>
      if Ascii.eqb c "_" then remove_underscores rest
      else String c (remove_underscores rest)
  end.

(** The digits of a [digitpart]. *)
Definition digits_of (s : string) : option string :=
  if digitpart s then Some (remove_underscores s) else None.

(** [number]: the digits before and after the point, as one integer and
    the number of digits after the point. *)
Definition parse_number (m : string) : option (Z * nat) :=
  let '(ip, fp) := split_point m in
  let whole := match ip with
               | EmptyString => Some EmptyString
               | _ => digits_of ip
               end in
  let fraction := match fp with
                  | None => Some EmptyString
                  | Some EmptyString => Some EmptyString
                  | Some f => digits_of f
                  end in
  match whole, fraction with
  | Some w, Some f =>
      if ((String.length w + String.length f)%nat =? 0)%nat then None
      else option_map (fun n => (n, String.length f)) (PyStr.int_of_digits (w ++ f))
  | _, _ => None
  end.

(** [exponent], without its marker. *)
Definition parse_exponent (e : option string) : option Z :=
  match e with
  | None => Some 0
  | Some x =>
      let '(neg, body) :=
        match x with
        | String "-" rest => (true, rest)
        | String "+" rest => (false, rest)
        | _ => (false, x)
        end in
      match digits_of body with
      | Some d => option_map (signed neg) (PyStr.int_of_digits d)
      | None => None
      end
  end.

(** The float nearest to [n * 10^k]. *)
Definition of_scaled (neg : bool) (n k : Z) : pyfloat :=
  if k <? 0 then round neg (n * W) (10 ^ (- k))
  else round neg (n * 10 ^ k * W) 1.

(** [absfloatvalue]: "inf", "infinity" and "nan" in any case, or a
    number with an optional exponent. *)
Definition parse_unsigned (neg : bool) (s : string) : option pyfloat :=
  let name := PyStr.lower s in
  if (String.eqb name "inf" || String.eqb name "infinity")%bool
  then Some (FInf neg)
  else if String.eqb name "nan" then Some FNan
  else
    let '(m, e) := split_exp s in
    match parse_number m, parse_exponent e with
    | Some (n, scale), Some k => Some (of_scaled neg n (k - Z.of_nat scale))
    | _, _ => None
    end.

(** [float(s)] for a string: blanks stripped, an optional sign, then the
    grammar of the language reference (digits with single underscores
    between them, an optional point, an optional exponent, or a named
    value); the result is correctly rounded, and too large a number is
    an infinity.  [None] is [ValueError]. *)
Definition float_of_string (s : string) : option pyfloat :=
  match strip s with
  | String "-" rest => parse_unsigned true rest
  | String "+" rest => parse_unsigned false rest
  | t => parse_unsigned false t
  end.

End PyFloat.

(** ** Dates: [datetime], [timedelta(days=n)] and [strftime("%Y-%m-%d")]

    Only the calendar date of a [datetime] matters to the scripts (every
    time of day is midnight).  Arithmetic goes through the proleptic
    Gregorian ordinal, day 1 being 0001-01-01, as [datetime] does. *)

Module PyDate.

Record datetime : Type := mk_datetime { year : Z; month : Z; day : Z }.

Definition MAXORDINAL : Z := 3652059.

Definition is_leap (y : Z) : bool :=
  ((y mod 4 =? 0) && (negb (y mod 100 =? 0) || (y mod 400 =? 0)))%bool.

Definition DAYS_IN_MONTH : list Z :=
  [31; 28; 31; 30; 31; 30; 31; 31; 30; 31; 30; 31].

Definition DAYS_BEFORE_MONTH : list Z :=
  [0; 31; 59; 90; 120; 151; 181; 212; 243; 273; 304; 334].

(** Table lookup by month number, 1 to 12. *)
Definition by_month (table : list Z) (m : Z) : Z :=
  nth (Z.to_nat (m - 1)) table 0.

Definition days_before_year (y : Z) : Z :=
  (y - 1) * 365 + (y - 1) / 4 - (y - 1) / 100 + (y - 1) / 400.

Definition days_before_month (y m : Z) : Z :=
  by_month DAYS_BEFORE_MONTH m + (if ((2 <? m) && is_leap y)%bool then 1 else 0).

Definition toordinal (d : datetime) : Z :=
  days_before_year (year d) + days_before_month (year d) (month d) + day d.

Definition fromordinal (n : Z) : datetime :=
  let n := n - 1 in
  let n400 := n / 146097 in
  let n := n mod 146097 in
  let n100 := n / 36524 in
  let n := n mod 36524 in
  let n4 := n / 1461 in
  let n := n mod 1461 in
  let n1 := n / 365 in
  let n := n mod 365 in
  let y := n400 * 400 + 1 + n100 * 100 + n4 * 4 + n1 in
  if ((n1 =? 4) || (n100 =? 4))%bool then mk_datetime (y - 1) 12 31
  else
    let leapyear := ((n1 =? 3) && (negb (n4 =? 24) || (n100 =? 3)))%bool in
    let m := (n + 50) / 32 in
    let preceding :=
      by_month DAYS_BEFORE_MONTH m
      + (if ((2 <? m) && leapyear)%bool then 1 else 0) in
    if n <? preceding
    then
      let m' := m - 1 in
      let preceding' :=
        preceding - (by_month DAYS_IN_MONTH m'
                     + (if ((m' =? 2) && leapyear)%bool then 1 else 0)) in
      mk_datetime y m' (n - preceding' + 1)
    else mk_datetime y m (n - preceding + 1).

(** [d + timedelta(days=n)]; [None] is [OverflowError]. *)
Definition add_days (d : datetime) (n : Z) : option datetime :=
  let o := toordinal d + n in
  if ((0 <? o) && (o <=? MAXORDINAL))%bool then Some (fromordinal o) else None.

(** [d.strftime("%Y-%m-%d")], as CPython 3.11 prints it through the C
    library on Linux: month and day in two digits, the year without
    padding, so a year below 1000 has fewer than four digits. *)
Definition strftime (d : datetime) : string :=
  (PyStr.str (year d) ++ "-"
     ++ PyStr.zfill 2 (PyStr.str (month d)) ++ "-"
     ++ PyStr.zfill 2 (PyStr.str (day d)))%string.

End PyDate.

(** ** The pseudo-random generator and the monad of the generators

    The scripts draw from the process-wide generator of module [random].
    Here the generator is an explicit source: an infinite sequence of raw
    draws and a cursor.  Each call of [random.random], [random.choice],
    [random.randint] and [random.uniform] consumes exactly one draw, and
    every outcome the call can have is produced by some draw. *)

Module PyRandom.

Import PyFloat.

Inductive exn : Type := IndexError | ValueError | OverflowError.

Inductive result (A : Type) : Type :=
| Ok (a : A)
| Raise (e : exn).
Arguments Ok {A} a.
Arguments Raise {A} e.

Record Rng : Type := mk_rng { draws : nat -> Z; pos : nat }.

Definition M (A : Type) : Type := Rng -> result (A * Rng).

Definition ret {A : Type} (a : A) : M A := fun r => Ok (a, r).

Definition bind {A B : Type} (m : M A) (f : A -> M B) : M B :=
  fun r => match m r with
           | Ok (a, r') => f a r'
           | Raise e => Raise e
           end.

Definition raise {A : Type} (e : exn) : M A := fun _ => Raise e.

Definition lift_option {A : Type} (e : exn) (o : option A) : M A :=
  match o with
  | Some a => ret a
  | None => raise e
  end.

Definition advance (r : Rng) : Rng := mk_rng (draws r) (S (pos r)).

Definition next_draw : M Z := fun r => Ok (draws r (pos r), advance r).

(** [random.random()]: a multiple of 2^-53 in [0, 1). *)
Definition unit_float (d : Z) : pyfloat := FFin false ((d mod 2 ^ 53) * 2 ^ 1021).

Definition random : M pyfloat :=
  bind next_draw (fun d => ret (unit_float d)).

Definition randbelow (n : Z) : M Z :=
  bind next_draw (fun d => ret (d mod n)).

(** [random.choice(xs)]. *)
Definition choice {A : Type} (xs : list A) : M A :=
  match xs with
  | [] => raise IndexError
  | x0 :: _ =>
      bind (randbelow (Z.of_nat (List.length xs)))
           (fun i => ret (nth (Z.to_nat i) xs x0))
  end.

(** [random.randint(a, b)], both ends included. *)
Definition randint (a b : Z) : M Z :=
  if b <? a then raise ValueError
  else bind (randbelow (b - a + 1)) (fun i => ret (a + i)).

(** [random.uniform(a, b)], that is [a + (b - a) * random()]. *)
Definition uniform (a b : pyfloat) : M pyfloat :=
  bind random (fun x => ret (add a (mul (sub b a) x))).

(** [for x in xs: body], the loop state passed along. *)
Fixpoint for_each {A S : Type} (body : A -> S -> M S) (xs : list A) (s : S)
  : M S :=
  match xs with
  | [] => ret s
  | x :: xs' => bind (body x s) (for_each body xs')
  end.

Fixpoint range_from (start : Z) (n : nat) : list Z :=
  match n with
  | O => []
  | S n' => start :: range_from (start + 1) n'
  end.

(** [range(n)]; empty when [n] is not positive. *)
Definition range (n : Z) : list Z := range_from 0 (Z.to_nat n).

Definition len {A : Type} (xs : list A) : Z := Z.of_nat (List.length xs).

End PyRandom.

Declare Scope py_scope.
Delimit Scope py_scope with py.
Notation "x <- m ;; k" := (PyRandom.bind m (fun x => k))
  (at level 61, m at next level, right associativity) : py_scope.
Notation "' pat <- m ;; k" :=
  (PyRandom.bind m (fun x => match x with pat => k end))
  (at level 61, pat pattern, m at next level, right associativity) : py_scope.

(** ** The data model

    Every entity is a flat record of strings; the scripts build each one
    as a dict literal with a fixed set of keys.  [to_dict] gives the dict
    itself, keys in the order of the literal, for the CSV writer. *)

Definition dict : Type := list (string * string).

Module Customer.
Record t : Type := mk {
  customer_id : string;
  first_name : string;
  last_name : string;
  email : string;
  phone : string;
  date_of_birth : string;
  country : string;
  kyc_status : string;
  created_date : string;
  last_updated : string
}.
Definition to_dict (c : t) : dict :=
  [("customer_id", customer_id c); ("first_name", first_name c);
   ("last_name", last_name c); ("email", email c); ("phone", phone c);
   ("date_of_birth", date_of_birth c); ("country", country c);
   ("kyc_status", kyc_status c); ("created_date", created_date c);
   ("last_updated", last_updated c)].
End Customer.

Module Account.
Record t : Type := mk {
  account_id : string;
  customer_id : string;
  account_type : string;
  balance : string;
  currency : string;
  status : string;
  opened_date : string;
  last_transaction_date : string
}.
Definition to_dict (a : t) : dict :=
  [("account_id", account_id a); ("customer_id", customer_id a);
   ("account_type", account_type a); ("balance", balance a);
   ("currency", currency a); ("status", status a);
   ("opened_date", opened_date a);
   ("last_transaction_date", last_transaction_date a)].
End Account.

Module Transaction.
Record t : Type := mk {
  transaction_id : string;
  account_id : string;
  transaction_type : string;
  amount : string;
  currency : string;
  transaction_date : string;
  description : string;
  status : string
}.
Definition to_dict (x : t) : dict :=
  [("transaction_id", transaction_id x); ("account_id", account_id x);
   ("transaction_type", transaction_type x); ("amount", amount x);
   ("currency", currency x); ("transaction_date", transaction_date x);
   ("description", description x); ("status", status x)].
End Transaction.

Module DailyBalance.
Record t : Type := mk {
  balance_id : string;
  account_id : string;
  balance_date : string;
  opening_balance : string;
  closing_balance : string;
  currency : string
}.
Definition to_dict (b : t) : dict :=
  [("balance_id", balance_id b); ("account_id", account_id b);
   ("balance_date", balance_date b); ("opening_balance", opening_balance b);
   ("closing_balance", closing_balance b); ("currency", currency b)].
End DailyBalance.

Module FxRate.
Record t : Type := mk {
  rate_id : string;
  from_currency : string;
  to_currency : string;
  exchange_rate : string;
  rate_date : string;
  source : string
}.
Definition to_dict (x : t) : dict :=
  [("rate_id", rate_id x); ("from_currency", from_currency x);
   ("to_currency", to_currency x); ("exchange_rate", exchange_rate x);
   ("rate_date", rate_date x); ("source", source x)].
End FxRate.

(** ** What both scripts share with Python: literals, [int(x)], [csv] *)

Module Py.

Import PyFloat PyRandom.
Local Open Scope py_scope.

(** A float literal of the source: [lit 15 2] is [0.15]. *)
Definition lit (digits : Z) (scale : nat) : pyfloat :=
  of_decimal false digits scale.

(** [int(x)] for a float. *)
Definition int_of_float (x : pyfloat) : M Z :=
  match x with
  | FNan => raise ValueError
  | FInf _ => raise OverflowError
  | FFin _ _ => lift_option ValueError (trunc x)
  end.

(** [n * x] for an integer [n] and a float [x]. *)
Definition int_times_float (n : Z) (x : pyfloat) : M pyfloat :=
  nf <- lift_option OverflowError (of_int n) ;; ret (mul nf x).

(** [b and m]: [m] is not run when [b] is false. *)
Definition and_then (b : bool) (m : M bool) : M bool :=
  if b then m else ret false.

(** *** [csv.DictWriter], excel dialect *)

Definition dquote : ascii := "034"%char.
Definition cr : ascii := "013"%char.
Definition lf : ascii := "010"%char.

Fixpoint needs_quotes (s : string) : bool :=
  match s with
  | EmptyString => false
  | String c rest =>
      (Ascii.eqb c "," || Ascii.eqb c dquote || Ascii.eqb c cr
       || Ascii.eqb c lf || needs_quotes rest)%bool
  end.

Fixpoint double_quotes (s : string) : string :=
  match s with
  | EmptyString => EmptyString
  | String c rest =>
      if Ascii.eqb c dquote
      then String dquote (String dquote (double_quotes rest))
      else String c (double_quotes rest)
  end.

Definition csv_field (s : string) : string :=
  if needs_quotes s
  then (String dquote (double_quotes s) ++ String dquote EmptyString)%string
  else s.

Fixpoint join_fields (fields : list string) : string :=
  match fields with
  | [] => EmptyString
  | [f] => f
  | f :: rest => (f ++ "," ++ join_fields rest)%string
  end.

Definition line_end : string := String cr (String lf EmptyString).

(** One line of the file; a row made of a single empty field is written
    as a pair of quotes. *)
Definition csv_row (fields : list string) : string :=
  match fields with
  | [EmptyString] => String dquote (String dquote line_end)
  | _ => (join_fields (map csv_field fields) ++ line_end)%string
  end.

Fixpoint get (d : dict) (key : string) : option string :=
  match d with
  | [] => None
  | (k, v) :: rest => if String.eqb k key then Some v else get rest key
  end.

Definition mem (keys : list string) (key : string) : bool :=
  existsb (String.eqb key) keys.

(** The fields of a row in the order of [fieldnames]; a missing key gives
    the empty string, a key outside [fieldnames] is a [ValueError]. *)
Definition dict_to_list (fieldnames : list string) (row : dict)
  : result (list string) :=
  if forallb (fun kv => mem fieldnames (fst kv)) row
  then Ok (map (fun key => match get row key with
                           | Some v => v
                           | None => EmptyString
                           end) fieldnames)
  else Raise ValueError.

(** [writer.writerows(data)] appended to the text written so far; at a
    [ValueError] the rows before the offending one have been written. *)
Fixpoint writerows (fieldnames : list string) (data : list dict)
  (written : string) : string * result unit :=
  match data with
  | [] => (written, Ok tt)
  | row :: rest =>
      match dict_to_list fieldnames row with
      | Ok fields =>
          writerows fieldnames rest (written ++ csv_row fields)%string
      | Raise e => (written, Raise e)
      end
  end.

Definition writeheader (fieldnames : list string) : string :=
  csv_row fieldnames.

(** The files of the output directory, by name. *)
Definition files : Type := list (string * string).

(** [open(path, 'w')] followed by writing [text]: the file is created or
    replaced. *)
Definition store (fs : files) (path text : string) : files :=
  (path, text) :: filter (fun f => negb (String.eqb (fst f) path)) fs.

Definition read (fs : files) (path : string) : option string := get fs path.

End Py.

(** ** [Sampledata.py]: data with intentional defects *)

Module Sampledata.

Import PyStr PyFloat PyDate PyRandom Py.
Local Open Scope py_scope.

Definition OUTPUT_DIR : string := "sample_data".
Definition TODAY : datetime := mk_datetime 2026 1 22.

Definition FIRST_NAMES : list string :=
  ["John"; "Jane"; "Michael"; "Sarah"; "David"; "Emma"; "Robert"; "Lisa";
   "William"; "Mary"; "James"; "Patricia"; "Richard"; "Jennifer"; "Thomas";
   "Linda"; "Charles"; "Barbara"].
Definition LAST_NAMES : list string :=
  ["Smith"; "Johnson"; "Williams"; "Brown"; "Jones"; "Garcia"; "Miller";
   "Davis"; "Rodriguez"; "Martinez"; "Hernandez"; "Lopez"; "Gonzalez";
   "Wilson"; "Anderson"; "Thomas"; "Taylor"; "Moore"].
Definition COUNTRIES : list string :=
  ["USA"; "UK"; "Canada"; "Australia"; "Germany"; "France"; "Spain";
   "Italy"; "Japan"; "India"].
Definition KYC_STATUSES : list string :=
  ["VERIFIED"; "PENDING"; "REJECTED"; "EXPIRED"; "NOT_STARTED"].
Definition ACCOUNT_TYPES : list string :=
  ["SAVINGS"; "CHECKING"; "CREDIT"; "INVESTMENT"; "LOAN"].
Definition TRANSACTION_TYPES : list string :=
  ["DEPOSIT"; "WITHDRAWAL"; "TRANSFER"; "PAYMENT"; "FEE"; "INTEREST"].
Definition CURRENCIES : list string :=
  ["USD"; "EUR"; "GBP"; "JPY"; "CAD"; "AUD"; "CHF"; "CNY"].

Definition EMAIL_DOMAINS : list string :=
  ["gmail.com"; "yahoo.com"; "outlook.com"; "company.com"].
Definition ACCOUNT_STATUSES : list string :=
  ["ACTIVE"; "CLOSED"; "SUSPENDED"; "PENDING"].
Definition CHANNELS : list string := ["Online"; "ATM"; "Branch"; "Mobile"].
Definition TRANSACTION_STATUSES : list string :=
  ["COMPLETED"; "PENDING"; "FAILED"; "REVERSED"].
Definition RATE_SOURCES : list string := ["CENTRAL_BANK"; "MARKET"; "MANUAL"].

(** The literal set of the defect branch of [generate_email]. *)
Definition bad_emails (first_name last_name : string) : list string :=
  [lower first_name ++ "@";
   lower first_name ++ "." ++ lower last_name;
   lower first_name ++ "@invalid";
   ""]%string.

Definition good_email (first_name last_name domain : string) : string :=
  (lower first_name ++ "." ++ lower last_name ++ "@" ++ domain)%string.

Definition generate_email (first_name last_name : string) (add_issue : bool)
  : M string :=
  hit <- and_then add_issue (x <- random ;; ret (ltb x (lit 15 2))) ;;
  if hit then choice (bad_emails first_name last_name)
  else domain <- choice EMAIL_DOMAINS ;;
       ret (good_email first_name last_name domain).

Definition bad_phones : list string :=
  ["123"; "12345678901234567890"; "ABC-DEF-GHIJ"; ""].

Definition good_phone (a b c : Z) : string :=
  ("+1-" ++ str a ++ "-" ++ str b ++ "-" ++ str c)%string.

Definition generate_phone (add_issue : bool) : M string :=
  hit <- and_then add_issue (x <- random ;; ret (ltb x (lit 10 2))) ;;
  if hit then choice bad_phones
  else a <- randint 200 999 ;;
       b <- randint 200 999 ;;
       c <- randint 1000 9999 ;;
       ret (good_phone a b c).

Definition bad_dates : list string :=
  ["2026-13-45"; "NOT_A_DATE"; "2099-12-31"; ""].

Definition generate_date (base_date : datetime) (days_range : Z)
  (add_issue : bool) : M string :=
  hit <- and_then add_issue (x <- random ;; ret (ltb x (lit 5 2))) ;;
  if hit then choice bad_dates
  else offset <- randint (- days_range) days_range ;;
       date <- lift_option OverflowError (add_days base_date offset) ;;
       ret (strftime date).

Definition customer_body (i : Z) (customers : list Customer.t)
  : M (list Customer.t) :=
  let customer_id := ("CUST" ++ zfill 6 (str (i + 1)))%string in
  first_name <- choice FIRST_NAMES ;;
  last_name <- choice LAST_NAMES ;;
  x <- random ;;
  let add_issues := ltb x (lit 20 2) in
  x_id <- random ;;
  x_first <- random ;;
  x_last <- random ;;
  email <- generate_email first_name last_name add_issues ;;
  phone <- generate_phone add_issues ;;
  date_of_birth <- generate_date (mk_datetime 1970 1 1) (365 * 40) add_issues ;;
  x_country <- random ;;
  country <- (if gtb x_country (lit 3 2) then choice COUNTRIES else ret "") ;;
  kyc_status <- choice KYC_STATUSES ;;
  created_date <- generate_date TODAY 365 false ;;
  let customer :=
    Customer.mk
      (if gtb x_id (lit 1 2) then customer_id else "")
      (if gtb x_first (lit 5 2) then first_name else "")
      (if gtb x_last (lit 5 2) then last_name else "")
      email phone date_of_birth country kyc_status created_date
      (strftime TODAY) in
  ret (customers ++ [customer])%list.

Definition generate_customers (count : Z) : M (list Customer.t) :=
  for_each customer_body (range count) [].

(** The customer reference of an orphaned account. *)
Definition orphan_id (n : Z) : string := ("CUST" ++ str n)%string.

Definition account_body (customers : list Customer.t) (i : Z)
  (accounts : list Account.t) : M (list Account.t) :=
  x <- random ;;
  customer_id <-
    (if ltb x (lit 5 2)
     then n <- randint 900000 999999 ;; ret (orphan_id n)
     else c <- choice customers ;; ret (Customer.customer_id c)) ;;
  x_id <- random ;;
  account_type <- choice ACCOUNT_TYPES ;;
  b <- uniform (lit 0 0) (lit 100000 0) ;;
  currency <- choice CURRENCIES ;;
  status <- choice ACCOUNT_STATUSES ;;
  opened_date <- generate_date TODAY 730 false ;;
  last_transaction_date <- generate_date TODAY 30 false ;;
  let account :=
    Account.mk
      (if gtb x_id (lit 1 2) then ("ACC" ++ zfill 8 (str (i + 1)))%string
       else "")
      customer_id account_type (format_f 2 b) currency status
      opened_date last_transaction_date in
  ret (accounts ++ [account])%list.

Definition generate_accounts (customers : list Customer.t)
  (avg_accounts_per_customer : pyfloat) : M (list Account.t) :=
  product <- int_times_float (len customers) avg_accounts_per_customer ;;
  count <- int_of_float product ;;
  for_each (account_body customers) (range count) [].

Definition transaction_body (accounts : list Account.t) (i : Z)
  (transactions : list Transaction.t) : M (list Transaction.t) :=
  account <- choice accounts ;;
  x_id <- random ;;
  transaction_type <- choice TRANSACTION_TYPES ;;
  a <- uniform (opp (lit 10000 0)) (lit 10000 0) ;;
  transaction_date <- generate_date TODAY 90 false ;;
  d1 <- choice TRANSACTION_TYPES ;;
  d2 <- choice CHANNELS ;;
  status <- choice TRANSACTION_STATUSES ;;
  let transaction :=
    Transaction.mk
      (if gtb x_id (lit 1 2) then ("TXN" ++ zfill 10 (str (i + 1)))%string
       else "")
      (Account.account_id account) transaction_type (format_f 2 a)
      (Account.currency account) transaction_date
      (d1 ++ " - " ++ d2)%string status in
  ret (transactions ++ [transaction])%list.

Definition generate_transactions (accounts : list Account.t)
  (transactions_per_account : Z) : M (list Transaction.t) :=
  let count := len accounts * transactions_per_account in
  for_each (transaction_body accounts) (range count) [].

(** The inner loop of [generate_daily_balances]; its state is the list of
    all balances so far and the running [base_balance]. *)
Definition balance_body (account : Account.t) (day : Z)
  (st : list DailyBalance.t * pyfloat) : M (list DailyBalance.t * pyfloat) :=
  let '(balances, base_balance) := st in
  date <- lift_option OverflowError (add_days TODAY (- day)) ;;
  daily_change <- uniform (opp (lit 1000 0)) (lit 1000 0) ;;
  let balance :=
    DailyBalance.mk
      ("BAL" ++ zfill 10 (str (len balances + 1)))%string
      (Account.account_id account)
      (strftime date)
      (format_f 2 base_balance)
      (format_f 2 (add base_balance daily_change))
      (Account.currency account) in
  ret ((balances ++ [balance])%list, add base_balance daily_change).

Definition account_balances (days : Z) (account : Account.t)
  (balances : list DailyBalance.t) : M (list DailyBalance.t) :=
  base_balance <- lift_option ValueError
                    (float_of_string (Account.balance account)) ;;
  st <- for_each (balance_body account) (range days) (balances, base_balance) ;;
  ret (fst st).

Definition generate_daily_balances (accounts : list Account.t) (days : Z)
  : M (list DailyBalance.t) :=
  for_each (account_balances days) accounts [].

Definition base_rates : list (string * pyfloat) :=
  [("EUR", lit 110 2); ("GBP", lit 127 2); ("JPY", lit 91 4);
   ("CAD", lit 74 2); ("AUD", lit 66 2); ("CHF", lit 112 2);
   ("CNY", lit 14 2)].

Definition bad_rates : list string := [""; "-1.0"; "999999.0"].

Definition fx_body (date : datetime) (entry : string * pyfloat)
  (rates : list FxRate.t) : M (list FxRate.t) :=
  let '(currency, base_rate) := entry in
  v <- uniform (lit 95 2) (lit 105 2) ;;
  let rate := mul base_rate v in
  x <- random ;;
  let add_issue := ltb x (lit 5 2) in
  exchange_rate <-
    (if negb add_issue then ret (format_f 6 rate) else choice bad_rates) ;;
  source <- choice RATE_SOURCES ;;
  let fx_rate :=
    FxRate.mk ("FX" ++ zfill 8 (str (len rates + 1)))%string
      "USD" currency exchange_rate (strftime date) source in
  ret (rates ++ [fx_rate])%list.

Definition fx_day (day : Z) (rates : list FxRate.t) : M (list FxRate.t) :=
  date <- lift_option OverflowError (add_days TODAY (- day)) ;;
  for_each (fx_body date) base_rates rates.

Definition generate_fx_rates (days : Z) : M (list FxRate.t) :=
  for_each fx_day (range days) [].

Definition write_csv (filename : string) (data : list dict)
  (fieldnames : list string) (fs : files) : files * result unit :=
  let filepath := (OUTPUT_DIR ++ "/" ++ filename)%string in
  let '(text, outcome) := writerows fieldnames data (writeheader fieldnames) in
  (store fs filepath text, outcome).

(** Run [w] unless an earlier step has raised. *)
Definition and_write (st : files * result unit)
  (w : files -> files * result unit) : files * result unit :=
  match snd st with
  | Ok _ => w (fst st)
  | Raise _ => st
  end.

Definition generate_all
  : M (list Customer.t * list Account.t * list Transaction.t
       * list DailyBalance.t * list FxRate.t) :=
  customers <- generate_customers 1000 ;;
  accounts <- generate_accounts customers (lit 15 1) ;;
  transactions <- generate_transactions accounts 10 ;;
  daily_balances <- generate_daily_balances accounts 30 ;;
  fx_rates <- generate_fx_rates 90 ;;
  ret (customers, accounts, transactions, daily_balances, fx_rates).

Definition main (fs : files) (r : Rng) : files * result unit :=
  match generate_all r with
  | Raise e => (fs, Raise e)
  | Ok ((customers, accounts, transactions, daily_balances, fx_rates), _) =>
      and_write (and_write (and_write (and_write
        (write_csv "customer.csv" (map Customer.to_dict customers)
           ["customer_id"; "first_name"; "last_name"; "email"; "phone";
            "date_of_birth"; "country"; "kyc_status"; "created_date";
            "last_updated"] fs)
        (write_csv "account.csv" (map Account.to_dict accounts)
           ["account_id"; "customer_id"; "account_type"; "balance";
            "currency"; "status"; "opened_date"; "last_transaction_date"]))
        (write_csv "transaction.csv" (map Transaction.to_dict transactions)
           ["transaction_id"; "account_id"; "transaction_type"; "amount";
            "currency"; "transaction_date"; "description"; "status"]))
        (write_csv "daily_balance.csv"
           (map DailyBalance.to_dict daily_balances)
           ["balance_id"; "account_id"; "balance_date"; "opening_balance";
            "closing_balance"; "currency"]))
        (write_csv "fx_rate.csv" (map FxRate.to_dict fx_rates)
           ["rate_id"; "from_currency"; "to_currency"; "exchange_rate";
            "rate_date"; "source"])
  end.

End Sampledata.

(** ** [scripts/generate_pure_sample_data.py]: data without defects *)

Module Pure.

Import PyStr PyFloat PyDate PyRandom Py.
Local Open Scope py_scope.

Definition OUTPUT_DIR : string := "pure_sample_data".
Definition TODAY : datetime := mk_datetime 2026 1 22.

Definition FIRST_NAMES : list string :=
  ["John"; "Jane"; "Michael"; "Sarah"; "David"; "Emma"; "Robert"; "Lisa";
   "William"; "Mary"; "James"; "Patricia"; "Richard"; "Jennifer"; "Thomas";
   "Linda"; "Charles"; "Barbara"].
Definition LAST_NAMES : list string :=
  ["Smith"; "Johnson"; "Williams"; "Brown"; "Jones"; "Garcia"; "Miller";
   "Davis"; "Rodriguez"; "Martinez"; "Hernandez"; "Lopez"; "Gonzalez";
   "Wilson"; "Anderson"; "Thomas"; "Taylor"; "Moore"].
Definition COUNTRIES : list string :=
  ["USA"; "UK"; "Canada"; "Australia"; "Germany"; "France"; "Spain";
   "Italy"; "Japan"; "India"].
Definition KYC_STATUSES : list string :=
  ["VERIFIED"; "PENDING"; "REJECTED"; "EXPIRED"; "NOT_STARTED"].
Definition ACCOUNT_TYPES : list string :=
  ["SAVINGS"; "CHECKING"; "CREDIT"; "INVESTMENT"; "LOAN"].
Definition TRANSACTION_TYPES : list string :=
  ["DEPOSIT"; "WITHDRAWAL"; "TRANSFER"; "PAYMENT"; "FEE"; "INTEREST"].
Definition CURRENCIES : list string :=
  ["USD"; "EUR"; "GBP"; "JPY"; "CAD"; "AUD"; "CHF"; "CNY"].

Definition EMAIL_DOMAINS : list string :=
  ["gmail.com"; "yahoo.com"; "outlook.com"; "company.com"].
Definition ACCOUNT_STATUSES : list string :=
  ["ACTIVE"; "CLOSED"; "SUSPENDED"; "PENDING"].
Definition CHANNELS : list string := ["Online"; "ATM"; "Branch"; "Mobile"].
Definition TRANSACTION_STATUSES : list string :=
  ["COMPLETED"; "PENDING"; "FAILED"; "REVERSED"].
Definition RATE_SOURCES : list string := ["CENTRAL_BANK"; "MARKET"; "MANUAL"].

Definition generate_email (first_name last_name : string) : M string :=
  domain <- choice EMAIL_DOMAINS ;;
  ret (lower first_name ++ "." ++ lower last_name ++ "@" ++ domain)%string.

Definition generate_phone : M string :=
  a <- randint 200 999 ;;
  b <- randint 200 999 ;;
  c <- randint 1000 9999 ;;
  ret ("+1-" ++ str a ++ "-" ++ str b ++ "-" ++ str c)%string.

Definition generate_date (base_date : datetime) (days_range : Z) : M string :=
  offset <- randint (- days_range) days_range ;;
  date <- lift_option OverflowError (add_days base_date offset) ;;
  ret (strftime date).

Definition customer_body (i : Z) (customers : list Customer.t)
  : M (list Customer.t) :=
  let customer_id := ("CUST" ++ zfill 6 (str (i + 1)))%string in
  first_name <- choice FIRST_NAMES ;;
  last_name <- choice LAST_NAMES ;;
  email <- generate_email first_name last_name ;;
  phone <- generate_phone ;;
  date_of_birth <- generate_date (mk_datetime 1970 1 1) (365 * 40) ;;
  country <- choice COUNTRIES ;;
  kyc_status <- choice KYC_STATUSES ;;
  created_date <- generate_date TODAY 365 ;;
  let customer :=
    Customer.mk customer_id first_name last_name email phone date_of_birth
      country kyc_status created_date (strftime TODAY) in
  ret (customers ++ [customer])%list.

Definition generate_customers (count : Z) : M (list Customer.t) :=
  for_each customer_body (range count) [].

Definition account_body (customers : list Customer.t) (i : Z)
  (accounts : list Account.t) : M (list Account.t) :=
  c <- choice customers ;;
  let customer_id := Customer.customer_id c in
  account_type <- choice ACCOUNT_TYPES ;;
  b <- uniform (lit 0 0) (lit 100000 0) ;;
  currency <- choice CURRENCIES ;;
  status <- choice ACCOUNT_STATUSES ;;
  opened_date <- generate_date TODAY 730 ;;
  last_transaction_date <- generate_date TODAY 30 ;;
  let account :=
    Account.mk ("ACC" ++ zfill 8 (str (i + 1)))%string
      customer_id account_type (format_f 2 b) currency status
      opened_date last_transaction_date in
  ret (accounts ++ [account])%list.

Definition generate_accounts (customers : list Customer.t)
  (avg_accounts_per_customer : pyfloat) : M (list Account.t) :=
  product <- int_times_float (len customers) avg_accounts_per_customer ;;
  count <- int_of_float product ;;
  for_each (account_body customers) (range count) [].

Definition transaction_body (accounts : list Account.t) (i : Z)
  (transactions : list Transaction.t) : M (list Transaction.t) :=
  account <- choice accounts ;;
  transaction_type <- choice TRANSACTION_TYPES ;;
  a <- uniform (opp (lit 10000 0)) (lit 10000 0) ;;
  transaction_date <- generate_date TODAY 90 ;;
  d1 <- choice TRANSACTION_TYPES ;;
  d2 <- choice CHANNELS ;;
  status <- choice TRANSACTION_STATUSES ;;
  let transaction :=
    Transaction.mk ("TXN" ++ zfill 10 (str (i + 1)))%string
      (Account.account_id account) transaction_type (format_f 2 a)
      (Account.currency account) transaction_date
      (d1 ++ " - " ++ d2)%string status in
  ret (transactions ++ [transaction])%list.

Definition generate_transactions (accounts : list Account.t)
  (transactions_per_account : Z) : M (list Transaction.t) :=
  let count := len accounts * transactions_per_account in
  for_each (transaction_body accounts) (range count) [].

(** The inner loop of [generate_daily_balances]; its state is the list of
    all balances so far and the running [base_balance]. *)
Definition balance_body (account : Account.t) (day : Z)
  (st : list DailyBalance.t * pyfloat) : M (list DailyBalance.t * pyfloat) :=
  let '(balances, base_balance) := st in
  date <- lift_option OverflowError (add_days TODAY (- day)) ;;
  daily_change <- uniform (opp (lit 1000 0)) (lit 1000 0) ;;
  let balance :=
    DailyBalance.mk
      ("BAL" ++ zfill 10 (str (len balances + 1)))%string
      (Account.account_id account)
      (strftime date)
      (format_f 2 base_balance)
      (format_f 2 (add base_balance daily_change))
      (Account.currency account) in
  ret ((balances ++ [balance])%list, add base_balance daily_change).

Definition account_balances (days : Z) (account : Account.t)
  (balances : list DailyBalance.t) : M (list DailyBalance.t) :=
  base_balance <- lift_option ValueError
                    (float_of_string (Account.balance account)) ;;
  st <- for_each (balance_body account) (range days) (balances, base_balance) ;;
  ret (fst st).

Definition generate_daily_balances (accounts : list Account.t) (days : Z)
  : M (list DailyBalance.t) :=
  for_each (account_balances days) accounts [].

Definition base_rates : list (string * pyfloat) :=
  [("EUR", lit 110 2); ("GBP", lit 127 2); ("JPY", lit 91 4);
   ("CAD", lit 74 2); ("AUD", lit 66 2); ("CHF", lit 112 2);
   ("CNY", lit 14 2)].

Definition fx_body (date : datetime) (entry : string * pyfloat)
  (rates : list FxRate.t) : M (list FxRate.t) :=
  let '(currency, base_rate) := entry in
  v <- uniform (lit 95 2) (lit 105 2) ;;
  let rate := mul base_rate v in
  source <- choice RATE_SOURCES ;;
  let fx_rate :=
    FxRate.mk ("FX" ++ zfill 8 (str (len rates + 1)))%string
      "USD" currency (format_f 6 rate) (strftime date) source in
  ret (rates ++ [fx_rate])%list.

Definition fx_day (day : Z) (rates : list FxRate.t) : M (list FxRate.t) :=
  date <- lift_option OverflowError (add_days TODAY (- day)) ;;
  for_each (fx_body date) base_rates rates.

Definition generate_fx_rates (days : Z) : M (list FxRate.t) :=
  for_each fx_day (range days) [].

Definition write_csv (filename : string) (data : list dict)
  (fieldnames : list string) (fs : files) : files * result unit :=
  let filepath := (OUTPUT_DIR ++ "/" ++ filename)%string in
  let '(text, outcome) := writerows fieldnames data (writeheader fieldnames) in
  (store fs filepath text, outcome).

(** Run [w] unless an earlier step has raised. *)
Definition and_write (st : files * result unit)
  (w : files -> files * result unit) : files * result unit :=
  match snd st with
  | Ok _ => w (fst st)
  | Raise _ => st
  end.

Definition generate_all
  : M (list Customer.t * list Account.t * list Transaction.t
       * list DailyBalance.t * list FxRate.t) :=
  customers <- generate_customers 1000 ;;
  accounts <- generate_accounts customers (lit 15 1) ;;
  transactions <- generate_transactions accounts 10 ;;
  daily_balances <- generate_daily_balances accounts 30 ;;
  fx_rates <- generate_fx_rates 90 ;;
  ret (customers, accounts, transactions, daily_balances, fx_rates).

Definition main (fs : files) (r : Rng) : files * result unit :=
  match generate_all r with
  | Raise e => (fs, Raise e)
  | Ok ((customers, accounts, transactions, daily_balances, fx_rates), _) =>
      and_write (and_write (and_write (and_write
        (write_csv "customer.csv" (map Customer.to_dict customers)
           ["customer_id"; "first_name"; "last_name"; "email"; "phone";
            "date_of_birth"; "country"; "kyc_status"; "created_date";
            "last_updated"] fs)
        (write_csv "account.csv" (map Account.to_dict accounts)
           ["account_id"; "customer_id"; "account_type"; "balance";
            "currency"; "status"; "opened_date"; "last_transaction_date"]))
        (write_csv "transaction.csv" (map Transaction.to_dict transactions)
           ["transaction_id"; "account_id"; "transaction_type"; "amount";
            "currency"; "transaction_date"; "description"; "status"]))
        (write_csv "daily_balance.csv"
           (map DailyBalance.to_dict daily_balances)
           ["balance_id"; "account_id"; "balance_date"; "opening_balance";
            "closing_balance"; "currency"]))
        (write_csv "fx_rate.csv" (map FxRate.to_dict fx_rates)
           ["rate_id"; "from_currency"; "to_currency"; "exchange_rate";
            "rate_date"; "source"])
  end.

End Pure.

(** * Verification *)

(** * Reasoning about the generators *)

Module Wp.

Import PyFloat PyRandom.

(** [wp total m Q r]: run from [r], [m] returns a value and a generator
    state that satisfy [Q]; when [total] is false a raised exception is
    accepted too. *)
Definition wp {A : Type} (total : bool) (m : M A) (Q : A -> Rng -> Prop)
  (r : Rng) : Prop :=
  match m r with
  | Ok (a, r') => Q a r'
  | Raise _ => total = false
  end.

Lemma wp_run {A : Type} total (m : M A) Q r a r' :
  wp total m Q r -> m r = Ok (a, r') -> Q a r'.
Proof. unfold wp. intros H E. rewrite E in H. exact H. Qed.

Lemma wp_total_run {A : Type} (m : M A) Q r :
  wp true m Q r -> exists a r', m r = Ok (a, r') /\ Q a r'.
Proof.
  unfold wp. destruct (m r) as [[a r']|e]; intros H.
  - exists a, r'. split; [reflexivity | exact H].
  - discriminate H.
Qed.


Lemma wp_conseq {A : Type} total (m : M A) (Q Q' : A -> Rng -> Prop) r :
  wp total m Q r -> (forall a r', Q a r' -> Q' a r') -> wp total m Q' r.
Proof.
  unfold wp. destruct (m r) as [[a r']|e]; intros H HQ; [apply HQ; exact H | exact H].
Qed.

Lemma wp_and {A : Type} total (m : M A) (Q Q' : A -> Rng -> Prop) r :
  wp total m Q r -> wp false m Q' r -> wp total m (fun a r' => Q a r' /\ Q' a r') r.
Proof.
  unfold wp. destruct (m r) as [[a r']|e]; intros H H'; [split; assumption | exact H].
Qed.

Lemma wp_ret {A : Type} total (a : A) (Q : A -> Rng -> Prop) r :
  Q a r -> wp total (ret a) Q r.
Proof. intros H. exact H. Qed.

Lemma wp_bind {A B : Type} total (m : M A) (f : A -> M B) Q r :
  wp total m (fun a r' => wp total (f a) Q r') r -> wp total (bind m f) Q r.
Proof.
  unfold wp, bind. destruct (m r) as [[a r']|e]; intros H; exact H.
Qed.

Lemma wp_raise_partial {A : Type} e (Q : A -> Rng -> Prop) r :
  wp false (raise e) Q r.
Proof. reflexivity. Qed.

Lemma wp_lift_option {A : Type} total e (o : option A) (Q : A -> Rng -> Prop) r :
  (total = true -> o <> None) ->
  (forall a, o = Some a -> Q a r) ->
  wp total (lift_option e o) Q r.
Proof.
  intros Hs HQ. destruct o as [a|]; simpl.
  - apply HQ. reflexivity.
  - unfold wp, raise. destruct total; [exfalso; apply Hs; reflexivity | reflexivity].
Qed.

Lemma wp_next_draw total (Q : Z -> Rng -> Prop) r :
  Q (draws r (pos r)) (advance r) -> wp total next_draw Q r.
Proof. intros H. exact H. Qed.

(** The values of [random.random()]. *)
Definition is_unit (x : pyfloat) : Prop :=
  exists k, 0 <= k < 2 ^ 53 /\ x = FFin false (k * 2 ^ 1021).

Lemma unit_float_is_unit d : is_unit (unit_float d).
Proof.
  exists (d mod 2 ^ 53). split; [apply Z.mod_pos_bound; lia | reflexivity].
Qed.

Lemma wp_random total (Q : pyfloat -> Rng -> Prop) r :
  Q (unit_float (draws r (pos r))) (advance r) -> wp total random Q r.
Proof. intros H. exact H. Qed.

Lemma wp_uniform total a b (Q : pyfloat -> Rng -> Prop) r :
  Q (add a (mul (sub b a) (unit_float (draws r (pos r))))) (advance r) ->
  wp total (uniform a b) Q r.
Proof. intros H. exact H. Qed.

Lemma nth_In_default {A : Type} (i : nat) (x0 : A) (xs : list A) :
  In (nth i (x0 :: xs) x0) (x0 :: xs).
Proof.
  destruct (Nat.lt_ge_cases i (List.length (x0 :: xs))) as [H|H].
  - apply nth_In. exact H.
  - rewrite nth_overflow by exact H. left. reflexivity.
Qed.

Lemma wp_choice {A : Type} total (xs : list A) (Q : A -> Rng -> Prop) r :
  (total = true -> xs <> []) ->
  (forall x, In x xs -> Q x (advance r)) ->
  wp total (choice xs) Q r.
Proof.
  intros Hne HQ. destruct xs as [|x0 xs].
  - unfold wp. simpl. destruct total; [exfalso; apply Hne; reflexivity | reflexivity].
  - unfold choice. apply wp_bind. unfold randbelow. apply wp_bind.
    apply wp_next_draw. apply wp_ret. apply wp_ret.
    apply HQ. apply nth_In_default.
Qed.

Lemma wp_randint total a b (Q : Z -> Rng -> Prop) r :
  (total = true -> a <= b) ->
  (forall n, a <= n <= b -> Q n (advance r)) ->
  wp total (randint a b) Q r.
Proof.
  intros Hab HQ. unfold randint. destruct (b <? a) eqn:E.
  - unfold wp, raise. destruct total; [apply Z.ltb_lt in E; specialize (Hab eq_refl); lia | reflexivity].
  - apply Z.ltb_ge in E. apply wp_bind. unfold randbelow. apply wp_bind.
    apply wp_next_draw. apply wp_ret. apply wp_ret. apply HQ.
    pose proof (Z.mod_pos_bound (draws r (pos r)) (b - a + 1)). lia.
Qed.

Lemma wp_and_then total (b : bool) (m : M bool) (Q : bool -> Rng -> Prop) r :
  (b = false -> Q false r) ->
  (b = true -> wp total m Q r) ->
  wp total (Py.and_then b m) Q r.
Proof.
  intros H0 H1. destruct b; simpl; [apply H1; reflexivity | apply wp_ret; apply H0; reflexivity].
Qed.

(** Loops: an invariant on what is left of the list, the loop state and
    the generator. *)
Lemma wp_for_each_rng {A S : Type} total (body : A -> S -> M S)
  (Inv : list A -> S -> Rng -> Prop) :
  (forall x xs s r, Inv (x :: xs) s r ->
     wp total (body x s) (fun s' r' => Inv xs s' r') r) ->
  forall xs s r, Inv xs s r ->
    wp total (for_each body xs s) (fun s' r' => Inv [] s' r') r.
Proof.
  intros Hbody xs. induction xs as [|x xs IH]; intros s r HI.
  - apply wp_ret. exact HI.
  - simpl. apply wp_bind. eapply wp_conseq; [apply Hbody; exact HI|].
    intros s' r' HI'. apply IH. exact HI'.
Qed.

Lemma wp_for_each {A S : Type} total (body : A -> S -> M S)
  (Inv : list A -> S -> Prop) :
  (forall x xs s r, Inv (x :: xs) s ->
     wp total (body x s) (fun s' _ => Inv xs s') r) ->
  forall xs s r, Inv xs s ->
    wp total (for_each body xs s) (fun s' _ => Inv [] s') r.
Proof.
  intros Hbody xs s r HI.
  apply (wp_for_each_rng total body (fun xs s _ => Inv xs s)); [|exact HI].
  intros x xs' s' r' HI'. apply Hbody. exact HI'.
Qed.

End Wp.

(** ** Rounding of binary64 values *)

Module FloatFacts.

Import PyFloat.

(** * Rounding *)

Lemma div_half_even_cases num den :
  0 < den ->
  let q := div_half_even num den in
  (q = num / den /\ 2 * (num mod den) <= den)
  \/ (q = num / den + 1 /\ den <= 2 * (num mod den)).
Proof.
  intros Hden. unfold div_half_even.
  destruct (2 * (num mod den) <? den) eqn:E1.
  - left. apply Z.ltb_lt in E1. split; [reflexivity | lia].
  - apply Z.ltb_ge in E1. destruct (den <? 2 * (num mod den)) eqn:E2.
    + right. split; [reflexivity | exact E1].
    + apply Z.ltb_ge in E2. destruct (Z.even (num / den)).
      * left. split; [reflexivity | exact E2].
      * right. split; [reflexivity | exact E1].
Qed.

Lemma div_half_even_error num den :
  0 < den ->
  let q := div_half_even num den in
  2 * num - den <= 2 * (q * den) <= 2 * num + den.
Proof.
  intros Hden q. pose proof (Z.div_mod num den ltac:(lia)) as Hdm.
  pose proof (Z.mod_pos_bound num den Hden) as Hr.
  destruct (div_half_even_cases num den Hden) as [[Hq Hc]|[Hq Hc]];
    fold q in Hq; rewrite Hq; nia.
Qed.

Lemma div_half_even_nonneg num den :
  0 < den -> 0 <= num -> 0 <= div_half_even num den.
Proof.
  intros Hden Hnum. pose proof (Z.div_pos num den Hnum Hden).
  destruct (div_half_even_cases num den Hden) as [[Hq _]|[Hq _]]; rewrite Hq; lia.
Qed.

Lemma div_half_even_le num den b :
  0 < den -> num <= b * den -> div_half_even num den <= b.
Proof.
  intros Hden Hle. pose proof (Z.div_mod num den ltac:(lia)) as Hdm.
  pose proof (Z.mod_pos_bound num den Hden) as Hr.
  destruct (div_half_even_cases num den Hden) as [[Hq Hc]|[Hq Hc]]; rewrite Hq; nia.
Qed.

Lemma div_half_even_near num den b :
  0 < den -> 2 * Z.abs (num - b * den) < den -> div_half_even num den = b.
Proof.
  intros Hden Hnear. pose proof (div_half_even_error num den Hden) as He.
  cbv zeta in He. nia.
Qed.

Lemma div_half_even_exact den b : 0 < den -> div_half_even (b * den) den = b.
Proof. intros Hden. apply div_half_even_near; [exact Hden|]. replace (b * den - b * den) with 0 by ring. simpl. lia. Qed.

(** Magnitude bounds on finite floats, in units of 2^-1074. *)
Definition mag_le (x : pyfloat) (B : Z) : Prop :=
  match x with
  | FFin _ u => 0 <= u <= B
  | _ => False
  end.

(** [B] units is a binary64 magnitude. *)
Definition representable (B : Z) : Prop := B mod 2 ^ ulp_exp B 1 = 0.

Lemma ulp_exp_nonneg num den : 0 <= ulp_exp num den.
Proof. unfold ulp_exp. lia. Qed.

Lemma ulp_exp_mono num den B :
  0 < den -> num <= B * den -> ulp_exp num den <= ulp_exp B 1.
Proof.
  intros Hden Hle. unfold ulp_exp. rewrite Z.div_1_r.
  assert (num / den <= B) by (apply Z.div_le_upper_bound; [exact Hden | lia]).
  pose proof (Z.log2_le_mono _ _ H). lia.
Qed.

Lemma round_le s num den B :
  0 < den -> 0 <= num -> num <= B * den -> B < huge -> representable B ->
  mag_le (round s num den) B.
Proof.
  intros Hden Hnum Hle Hhuge Hrep. unfold round.
  set (k := ulp_exp num den).
  pose proof (ulp_exp_nonneg num den) as Hk0. fold k in Hk0.
  pose proof (ulp_exp_mono num den B Hden Hle) as HkB. fold k in HkB.
  assert (Hpk : 0 < 2 ^ k) by (apply Z.pow_pos_nonneg; lia).
  assert (Hdiv : exists b, B = b * 2 ^ k).
  { unfold representable in Hrep. apply Z.mod_divide in Hrep.
    2:{ apply Z.pow_nonzero; [lia | apply ulp_exp_nonneg]. }
    destruct Hrep as [c Hc]. exists (c * 2 ^ (ulp_exp B 1 - k)).
    rewrite <- Z.mul_assoc, <- Z.pow_add_r by lia.
    replace (ulp_exp B 1 - k + k) with (ulp_exp B 1) by ring. exact Hc. }
  destruct Hdiv as [b Hb].
  assert (Hq : div_half_even num (den * 2 ^ k) <= b).
  { apply div_half_even_le; [nia|]. rewrite Hb in Hle. nia. }
  assert (Hq0 : 0 <= div_half_even num (den * 2 ^ k)).
  { apply div_half_even_nonneg; [nia | exact Hnum]. }
  set (q := div_half_even num (den * 2 ^ k)) in *.
  assert (Hu : 0 <= q * 2 ^ k <= B) by (rewrite Hb; nia).
  destruct (q * 2 ^ k <? huge) eqn:E.
  - simpl. exact Hu.
  - apply Z.ltb_ge in E. lia.
Qed.

Lemma representable_int n : 0 <= n < 2 ^ 53 -> representable (n * W).
Proof.
  intros Hn. unfold representable, ulp_exp. rewrite Z.div_1_r.
  destruct (Z.eq_dec n 0) as [->|Hnz].
  - rewrite Z.mul_0_l. apply Z.mod_0_l. apply Z.pow_nonzero; lia.
  - unfold W. rewrite Z.log2_mul_pow2 by lia.
    assert (Z.log2 n < 53) by (apply Z.log2_lt_pow2; lia).
    pose proof (Z.log2_nonneg n).
    match goal with |- context [Z.max ?e 0] => set (k := Z.max e 0) end.
    assert (0 <= k <= 1074) by lia.
    apply Z.mod_divide; [apply Z.pow_nonzero; lia|].
    exists (n * 2 ^ (1074 - k)). rewrite <- Z.mul_assoc, <- Z.pow_add_r by lia.
    replace (1074 - k + k) with 1074 by ring. reflexivity.
Qed.

Lemma W_pos : 0 < W.
Proof. unfold W. apply Z.pow_pos_nonneg; lia. Qed.

Lemma int_below_huge n : 0 <= n < 2 ^ 53 -> n * W < huge.
Proof.
  intros Hn. unfold huge, W. replace 2098 with (1024 + 1074) by reflexivity.
  rewrite Z.pow_add_r by lia.
  assert (0 < 2 ^ 1074) by (apply Z.pow_pos_nonneg; lia).
  assert (2 ^ 53 <= 2 ^ 1024) by (apply Z.pow_le_mono_r; lia). nia.
Qed.

Lemma mag_le_weaken x B B' : mag_le x B -> B <= B' -> mag_le x B'.
Proof. destruct x; simpl; try tauto. lia. Qed.

Lemma mag_le_finite x B : mag_le x B -> is_finite x = true.
Proof. destruct x; simpl; tauto. Qed.

(** A float scaled by a value of [random.random()] stays within the
    magnitude of the float. *)
Lemma mul_unit_le x y n :
  0 <= n < 2 ^ 53 -> mag_le x (n * W) -> Wp.is_unit y -> mag_le (mul x y) (n * W).
Proof.
  intros Hn Hx [k [Hk ->]]. destruct x as [| |s u]; simpl in Hx; try tauto.
  unfold mul. pose proof W_pos.
  assert (HW : W = 2 ^ 53 * 2 ^ 1021).
  { unfold W. rewrite <- Z.pow_add_r by lia. reflexivity. }
  assert (0 < 2 ^ 1021) by (apply Z.pow_pos_nonneg; lia).
  apply round_le; [lia | nia | | apply int_below_huge; exact Hn | apply representable_int; exact Hn].
  assert (k * 2 ^ 1021 <= W) by (rewrite HW; nia). nia.
Qed.

Lemma add_le x y n m :
  0 <= n + m < 2 ^ 53 -> mag_le x (n * W) -> mag_le y (m * W) ->
  mag_le (add x y) ((n + m) * W).
Proof.
  intros Hnm Hx Hy. destruct x as [| |a u]; simpl in Hx; try tauto.
  destruct y as [| |b v]; simpl in Hy; try tauto.
  unfold add. pose proof W_pos.
  destruct (signed a u + signed b v =? 0) eqn:E.
  - simpl. nia.
  - apply round_le; [lia | lia | | apply int_below_huge; exact Hnm | apply representable_int; exact Hnm].
    unfold signed. destruct a, b; lia.
Qed.

Lemma opp_le x B : mag_le x B -> mag_le (opp x) B.
Proof. destruct x; simpl; tauto. Qed.

Lemma lit_int_le n : 0 <= n < 2 ^ 53 -> mag_le (of_decimal false n 0) (n * W).
Proof.
  intros Hn. unfold of_decimal. pose proof W_pos.
  apply round_le; [reflexivity | nia | simpl; lia | apply int_below_huge; exact Hn | apply representable_int; exact Hn].
Qed.

(** [random.uniform(a, b)] for integer bounds of small magnitude is finite. *)
Lemma uniform_value_le a b x :
  0 <= a < 2 ^ 50 -> 0 <= b < 2 ^ 50 -> Wp.is_unit x ->
  forall sa sb : bool,
  mag_le (add (if sa then opp (of_decimal false a 0) else of_decimal false a 0)
              (mul (sub (if sb then opp (of_decimal false b 0) else of_decimal false b 0)
                        (if sa then opp (of_decimal false a 0) else of_decimal false a 0)) x))
         ((a + (b + a)) * W).
Proof.
  intros Ha Hb Hx sa sb.
  assert (H50 : 2 ^ 53 = 8 * 2 ^ 50) by reflexivity.
  assert (HA : forall s : bool, mag_le (if s then opp (of_decimal false a 0) else of_decimal false a 0) (a * W)).
  { intros s; destruct s; [apply opp_le|]; apply lit_int_le; lia. }
  assert (HB : forall s : bool, mag_le (if s then opp (of_decimal false b 0) else of_decimal false b 0) (b * W)).
  { intros s; destruct s; [apply opp_le|]; apply lit_int_le; lia. }
  apply add_le; [lia | apply HA |].
  apply mul_unit_le; [lia | | exact Hx].
  unfold sub. apply add_le; [lia | apply HB | apply opp_le; apply HA].
Qed.

Lemma mul_le x y n m :
  0 <= n -> 0 <= m -> n * m < 2 ^ 53 ->
  mag_le x (n * W) -> mag_le y (m * W) -> mag_le (mul x y) (n * m * W).
Proof.
  intros Hn Hm Hnm Hx Hy. destruct x as [| |a u]; simpl in Hx; try tauto.
  destruct y as [| |b v]; simpl in Hy; try tauto.
  unfold mul. pose proof W_pos.
  apply round_le; [lia | nia | nia | apply int_below_huge; nia | apply representable_int; nia].
Qed.

(** A literal with a fractional part, bounded by the next integer. *)
Lemma lit_frac_le digits scale n :
  0 <= digits -> digits <= n * 10 ^ Z.of_nat scale -> 0 <= n < 2 ^ 53 ->
  mag_le (of_decimal false digits scale) (n * W).
Proof.
  intros Hd Hle Hn. unfold of_decimal. pose proof W_pos.
  assert (0 < 10 ^ Z.of_nat scale) by (apply Z.pow_pos_nonneg; lia).
  apply round_le; [assumption | nia | nia | apply int_below_huge; exact Hn | apply representable_int; exact Hn].
Qed.

(** ** Exact results *)

Lemma representable_scaled n j :
  0 <= n < 2 ^ 53 -> 0 <= j -> representable (n * 2 ^ j).
Proof.
  intros Hn Hj. unfold representable, ulp_exp. rewrite Z.div_1_r.
  destruct (Z.eq_dec n 0) as [->|Hnz].
  - rewrite Z.mul_0_l. apply Z.mod_0_l. apply Z.pow_nonzero; lia.
  - rewrite Z.log2_mul_pow2 by lia.
    assert (Z.log2 n < 53) by (apply Z.log2_lt_pow2; lia).
    pose proof (Z.log2_nonneg n).
    match goal with |- context [Z.max ?e 0] => set (k := Z.max e 0) end.
    assert (0 <= k <= j) by lia.
    apply Z.mod_divide; [apply Z.pow_nonzero; lia|].
    exists (n * 2 ^ (j - k)). rewrite <- Z.mul_assoc, <- Z.pow_add_r by lia.
    replace (j - k + k) with j by ring. reflexivity.
Qed.

Lemma round_exact s den B :
  0 < den -> 0 <= B < huge -> representable B -> round s (B * den) den = FFin s B.
Proof.
  intros Hden HB Hrep. unfold round.
  assert (Hk : ulp_exp (B * den) den = ulp_exp B 1).
  { unfold ulp_exp. rewrite Z.div_mul by lia. rewrite Z.div_1_r. reflexivity. }
  rewrite Hk. set (k := ulp_exp B 1).
  assert (Hk0 : 0 <= k) by apply ulp_exp_nonneg.
  assert (Hp : 0 < 2 ^ k) by (apply Z.pow_pos_nonneg; lia).
  unfold representable in Hrep. fold k in Hrep.
  apply Z.mod_divide in Hrep; [|lia]. destruct Hrep as [b Hb].
  replace (B * den) with (b * (den * 2 ^ k)) by (rewrite Hb; ring).
  rewrite div_half_even_exact by nia. rewrite <- Hb.
  destruct (B <? huge) eqn:E; [reflexivity | apply Z.ltb_ge in E; lia].
Qed.

Lemma of_int_exact n : 0 <= n < 2 ^ 53 -> of_int n = Some (FFin false (n * W)).
Proof.
  intros Hn. unfold of_int.
  destruct (n <? 0) eqn:E; [apply Z.ltb_lt in E; lia|].
  rewrite Z.abs_eq by lia. replace (n * W) with (n * W * 1) at 1 by ring.
  rewrite round_exact; [reflexivity | lia | | apply representable_int; exact Hn].
  pose proof W_pos. pose proof (int_below_huge n Hn). nia.
Qed.

Lemma mul_exact a u b v :
  0 <= u -> 0 <= v -> (u * v) mod W = 0 ->
  u * v / W < huge -> representable (u * v / W) ->
  mul (FFin a u) (FFin b v) = FFin (xorb a b) (u * v / W).
Proof.
  intros Hu Hv Hmod Hhuge Hrep. unfold mul. pose proof W_pos.
  assert (E : u * v = u * v / W * W).
  { pose proof (Z.div_mod (u * v) W ltac:(lia)). lia. }
  rewrite E at 1. apply round_exact; [assumption | | assumption].
  split; [apply Z.div_pos; nia | assumption].
Qed.

Lemma mul_zero_l b v : mul (FFin false 0) (FFin b v) = FFin (xorb false b) 0.
Proof.
  unfold mul. change (0 * v) with 0. unfold round.
  assert (Hq : div_half_even 0 (W * 2 ^ ulp_exp 0 W) = 0).
  { assert (Hp : 0 < 2 ^ ulp_exp 0 W)
      by (apply Z.pow_pos_nonneg; [lia | apply ulp_exp_nonneg]).
    pose proof W_pos.
    apply (div_half_even_exact (W * 2 ^ ulp_exp 0 W) 0). nia. }
  rewrite Hq. reflexivity.
Qed.

(** ** Values of [random.uniform] between integer bounds *)

(** [within x lo hi]: [x] is finite and [lo <= x <= hi], [lo] and [hi]
    integers. *)
Definition within (x : pyfloat) (lo hi : Z) : Prop :=
  match x with
  | FFin s u => lo * W <= signed s u <= hi * W
  | _ => False
  end.

(** An integer literal of the source, [-n] being [opp] of the literal. *)
Definition int_lit (n : Z) : pyfloat :=
  if n <? 0 then opp (of_decimal false (- n) 0) else of_decimal false n 0.

Lemma round_sign s num den B :
  mag_le (round s num den) B ->
  exists u, round s num den = FFin s u /\ 0 <= u <= B.
Proof.
  unfold round.
  destruct (div_half_even num (den * 2 ^ ulp_exp num den) * 2 ^ ulp_exp num den <? huge);
    simpl; intros H; [|tauto].
  eexists. split; [reflexivity | exact H].
Qed.

Lemma of_decimal_int n : 0 <= n < 2 ^ 53 -> of_decimal false n 0 = FFin false (n * W).
Proof.
  intros Hn. unfold of_decimal. change (10 ^ Z.of_nat 0) with 1.
  replace (n * W) with (n * W * 1) at 1 by ring.
  pose proof W_pos.
  apply round_exact; [lia | split; [nia | apply int_below_huge; exact Hn]
                     | apply representable_int; exact Hn].
Qed.

Lemma int_lit_value n :
  - 2 ^ 53 < n < 2 ^ 53 -> int_lit n = FFin (n <? 0) (Z.abs n * W).
Proof.
  intros Hn. unfold int_lit. destruct (n <? 0) eqn:E.
  - apply Z.ltb_lt in E. rewrite of_decimal_int by lia. simpl. f_equal. f_equal. lia.
  - apply Z.ltb_ge in E. rewrite of_decimal_int by lia. f_equal. f_equal. lia.
Qed.

(** [a + (b - a) * random()] never leaves [[a, b]], whatever the
    rounding, for integers [a <= 0 <= b]. *)
Lemma uniform_within lo hi x :
  - 2 ^ 50 < lo <= 0 -> 0 <= hi < 2 ^ 50 -> Wp.is_unit x ->
  within (add (int_lit lo) (mul (sub (int_lit hi) (int_lit lo)) x)) lo hi.
Proof.
  intros Hlo Hhi Hx.
  assert (H50 : 2 ^ 53 = 8 * 2 ^ 50) by reflexivity.
  pose proof W_pos as HW.
  rewrite !int_lit_value by lia.
  assert (Ehi : (hi <? 0) = false) by (apply Z.ltb_ge; lia). rewrite Ehi.
  assert (Hsub : sub (FFin false (Z.abs hi * W)) (FFin (lo <? 0) (Z.abs lo * W))
                 = FFin false ((hi - lo) * W)).
  { unfold sub, opp, add.
    assert (Es : signed false (Z.abs hi * W) + signed (negb (lo <? 0)) (Z.abs lo * W)
                 = (hi - lo) * W).
    { unfold signed. destruct (lo <? 0) eqn:E; simpl.
      - apply Z.ltb_lt in E. rewrite Z.abs_eq, Z.abs_neq by lia. ring.
      - apply Z.ltb_ge in E. assert (lo = 0) by lia. subst lo.
        rewrite Z.abs_eq by lia. simpl. ring. }
    rewrite Es. destruct ((hi - lo) * W =? 0) eqn:E0.
    - apply Z.eqb_eq in E0. rewrite E0. reflexivity.
    - apply Z.eqb_neq in E0.
      assert (Hpos : 0 < (hi - lo) * W) by nia.
      replace ((hi - lo) * W <? 0) with false by (symmetry; apply Z.ltb_ge; lia).
      rewrite Z.abs_eq by lia.
      replace ((hi - lo) * W) with ((hi - lo) * W * 1) at 1 by ring.
      apply round_exact; [lia | split; [lia | apply int_below_huge; lia]
                         | apply representable_int; lia]. }
  rewrite Hsub.
  assert (Hmul : mag_le (mul (FFin false ((hi - lo) * W)) x) ((hi - lo) * W)).
  { apply mul_unit_le; [lia | simpl; nia | exact Hx]. }
  destruct Hx as [k [Hk ->]]. unfold mul in *. cbn [xorb] in *.
  destruct (round_sign _ _ _ _ Hmul) as [y [-> Hy]].
  unfold add.
  assert (Es : signed (lo <? 0) (Z.abs lo * W) + signed false y = lo * W + y).
  { unfold signed. destruct (lo <? 0) eqn:E.
    - apply Z.ltb_lt in E. rewrite Z.abs_neq by lia. ring.
    - apply Z.ltb_ge in E. rewrite Z.abs_eq by lia. ring. }
  rewrite Es. destruct (lo * W + y =? 0) eqn:E0.
  - rewrite Bool.andb_false_r. simpl. nia.
  - apply Z.eqb_neq in E0. destruct (lo * W + y <? 0) eqn:En.
    + apply Z.ltb_lt in En.
      assert (Hr : mag_le (round true (Z.abs (lo * W + y)) 1) ((- lo) * W)).
      { apply round_le; [lia | lia | lia | apply int_below_huge; lia
                        | apply representable_int; lia]. }
      destruct (round_sign _ _ _ _ Hr) as [u [-> Hu]]. simpl. nia.
    + apply Z.ltb_ge in En.
      assert (Hr : mag_le (round false (Z.abs (lo * W + y)) 1) (hi * W)).
      { apply round_le; [lia | lia | lia | apply int_below_huge; lia
                        | apply representable_int; lia]. }
      destruct (round_sign _ _ _ _ Hr) as [u [-> Hu]]. simpl. nia.
Qed.

Lemma mul_nan_r x : mul x FNan = FNan.
Proof. destruct x; reflexivity. Qed.

Lemma mul_inf_r a u s :
  mul (FFin a u) (FInf s) = if u =? 0 then FNan else FInf (xorb a s).
Proof. reflexivity. Qed.

End FloatFacts.

Import FloatFacts.

(** ** Decimal numerals and padding *)

Module StringFacts.

Import DecimalPos DecimalFacts PyStr.

(** * Decimal text *)

Lemma forallb_range_from (f : Z -> bool) start n :
  forallb f (PyRandom.range_from start n) = true ->
  forall x, start <= x < start + Z.of_nat n -> f x = true.
Proof.
  revert start. induction n as [|n IH]; intros start H x Hx.
  - lia.
  - simpl in H. apply andb_true_iff in H. destruct H as [H0 H1].
    destruct (Z.eq_dec x start) as [->|Hne]; [exact H0|].
    apply (IH (start + 1) H1). lia.
Qed.

Lemma string_app_assoc (a b c : string) : ((a ++ b) ++ c = a ++ (b ++ c))%string.
Proof. induction a as [|x a IH]; simpl; [reflexivity | rewrite IH; reflexivity]. Qed.

Lemma string_app_nil_r (a : string) : (a ++ "" = a)%string.
Proof. induction a as [|x a IH]; simpl; [reflexivity | rewrite IH; reflexivity]. Qed.

Lemma string_app_length (a b : string) :
  String.length (a ++ b) = (String.length a + String.length b)%nat.
Proof. induction a as [|x a IH]; simpl; [reflexivity | rewrite IH; reflexivity]. Qed.

Lemma string_app_inv_head (a b c : string) : (a ++ b = a ++ c)%string -> b = c.
Proof. induction a as [|x a IH]; simpl; intros H; [exact H | injection H as H; apply IH; exact H]. Qed.

Lemma all_digits_app a b :
  all_digits (a ++ b) = (all_digits a && all_digits b)%bool.
Proof.
  induction a as [|c a IH]; simpl; [reflexivity|].
  rewrite IH. rewrite andb_assoc. reflexivity.
Qed.

Lemma all_digits_zeros k : all_digits (zeros k) = true.
Proof. induction k as [|k IH]; simpl; [reflexivity | exact IH]. Qed.

Lemma length_zeros k : String.length (zeros k) = k.
Proof. induction k as [|k IH]; simpl; [reflexivity | rewrite IH; reflexivity]. Qed.

Lemma all_digits_string_of_uint d :
  all_digits (NilEmpty.string_of_uint d) = true.
Proof. induction d; simpl; try exact IHd; reflexivity. Qed.

Lemma to_uint_nonnil (n : N) : N.to_uint n <> Decimal.Nil.
Proof.
  destruct n as [|p]; simpl; [discriminate|].
  apply DecimalPos.Unsigned.to_uint_nonnil.
Qed.

Lemma str_nonneg n :
  0 <= n -> str n = NilEmpty.string_of_uint (N.to_uint (Z.to_N n)).
Proof. intros H. unfold str. destruct (n <? 0) eqn:E; [apply Z.ltb_lt in E; lia | reflexivity]. Qed.

Lemma all_digits_str n : 0 <= n -> all_digits (str n) = true.
Proof. intros H. rewrite str_nonneg by exact H. apply all_digits_string_of_uint. Qed.

Lemma str_nonempty n : 0 <= n -> str n <> "".
Proof.
  intros H E. rewrite str_nonneg in E by exact H.
  pose proof (to_uint_nonnil (Z.to_N n)) as Hn.
  destruct (N.to_uint (Z.to_N n)); simpl in E; try discriminate E. apply Hn; reflexivity.
Qed.

Lemma digit_not_sign c :
  is_digit c = true -> (Ascii.eqb c "-" || Ascii.eqb c "+")%bool = false.
Proof.
  destruct c as [[|] [|] [|] [|] [|] [|] [|] [|]]; intros H; try reflexivity; discriminate H.
Qed.

Lemma digit_not_point c : is_digit c = true -> Ascii.eqb c "." = false.
Proof.
  destruct c as [[|] [|] [|] [|] [|] [|] [|] [|]]; intros H; try reflexivity; discriminate H.
Qed.

Lemma zfill_digits w s :
  all_digits s = true -> zfill w s = (zeros (w - String.length s) ++ s)%string.
Proof.
  intros H. unfold zfill. destruct s as [|c rest].
  - rewrite string_app_nil_r. reflexivity.
  - simpl in H. apply andb_true_iff in H. destruct H as [Hc _].
    rewrite (digit_not_sign c Hc). reflexivity.
Qed.

Lemma all_digits_zfill w s : all_digits s = true -> all_digits (zfill w s) = true.
Proof.
  intros H. rewrite zfill_digits by exact H.
  rewrite all_digits_app, all_digits_zeros, H. reflexivity.
Qed.

Lemma length_zfill w s :
  all_digits s = true -> String.length (zfill w s) = Nat.max w (String.length s).
Proof.
  intros H. rewrite zfill_digits by exact H.
  rewrite string_app_length, length_zeros. lia.
Qed.

(** ** Reading digits back *)

Lemma of_uint_cons d :
  d <> Decimal.Nil ->
  N.of_uint d
  = (DecimalPos.Unsigned.hd d * 10 ^ DecimalPos.Unsigned.usize (DecimalPos.Unsigned.tl d)
     + N.of_uint (DecimalPos.Unsigned.tl d))%N.
Proof.
  intros Hd. unfold N.of_uint.
  rewrite !DecimalPos.Unsigned.of_uint_alt.
  destruct d; try (exfalso; apply Hd; reflexivity);
    unfold Decimal.rev; simpl Decimal.revapp;
    rewrite DecimalPos.Unsigned.of_lu_revapp; simpl DecimalPos.Unsigned.tl;
    simpl DecimalPos.Unsigned.hd; simpl DecimalPos.Unsigned.of_lu; unfold Decimal.rev; lia.
Qed.

Lemma uint_of_string_cons c s d :
  NilEmpty.uint_of_string (String c s) = Some d ->
  exists d', NilEmpty.uint_of_string s = Some d'
    /\ DecimalPos.Unsigned.tl d = d' /\ d <> Decimal.Nil
    /\ forall d'', exists e,
         uint_of_char c (Some d'') = Some e
         /\ DecimalPos.Unsigned.tl e = d''
         /\ DecimalPos.Unsigned.hd e = DecimalPos.Unsigned.hd d /\ e <> Decimal.Nil.
Proof.
  simpl. destruct (NilEmpty.uint_of_string s) as [d'|]; [|intros H; discriminate H].
  intros H. exists d'. split; [reflexivity|].
  apply uint_of_char_spec in H.
  repeat (destruct H as [[-> ->]|H]); try destruct H as [-> ->];
    (split; [reflexivity|]; split; [discriminate|]; intros d''; eexists; split; [reflexivity|];
     split; [reflexivity|]; split; [reflexivity | discriminate]).
Qed.

Lemma usize_parsed s : forall d,
  NilEmpty.uint_of_string s = Some d ->
  DecimalPos.Unsigned.usize d = N.of_nat (String.length s).
Proof.
  induction s as [|c s IH]; intros d H.
  - injection H as <-. reflexivity.
  - destruct (uint_of_string_cons c s d H) as [d' [Hs [Htl [Hnn _]]]].
    specialize (IH d' Hs). cbn [String.length]. rewrite Nat2N.inj_succ, <- IH, <- Htl.
    destruct d; try (exfalso; apply Hnn; reflexivity); reflexivity.
Qed.

Lemma int_of_digits_app s1 : forall s2 v1 v2,
  int_of_digits s1 = Some v1 -> int_of_digits s2 = Some v2 ->
  int_of_digits (s1 ++ s2) = Some (v1 * 10 ^ Z.of_nat (String.length s2) + v2).
Proof.
  unfold int_of_digits.
  induction s1 as [|c s1 IH]; intros s2 v1 v2 H1 H2.
  - simpl in H1. injection H1 as <-. simpl. rewrite H2. reflexivity.
  - destruct (NilEmpty.uint_of_string (String c s1)) as [d|] eqn:E; [|discriminate H1].
    simpl in H1. injection H1 as <-.
    destruct (uint_of_string_cons c s1 d E) as [d' [Hs [Htl [Hnn Hc]]]].
    specialize (IH s2 (Z.of_N (N.of_uint d')) v2). rewrite Hs in IH. specialize (IH eq_refl H2).
    destruct (NilEmpty.uint_of_string (s1 ++ s2)) as [d12|] eqn:E12; [|discriminate IH].
    simpl in IH. injection IH as IH.
    destruct (Hc d12) as [e [He [Hetl [Hehd Henn]]]].
    cbn [append NilEmpty.uint_of_string]. rewrite E12, He. cbn [option_map]. f_equal.
    rewrite (of_uint_cons e Henn), (of_uint_cons d Hnn), Hetl, Hehd, Htl.
    rewrite (usize_parsed _ _ E12), (usize_parsed _ _ Hs), string_app_length.
    rewrite !N2Z.inj_add, !N2Z.inj_mul, !N2Z.inj_pow, IH, !nat_N_Z, Nat2Z.inj_add.
    rewrite Z.pow_add_r by lia. change (Z.of_N 10) with 10. ring.
Qed.

Lemma int_of_digits_str n : 0 <= n -> int_of_digits (str n) = Some n.
Proof.
  intros H. rewrite str_nonneg by exact H. unfold int_of_digits.
  rewrite NilEmpty.usu. cbn [option_map].
  rewrite DecimalN.Unsigned.of_to, Z2N.id by exact H. reflexivity.
Qed.

Lemma int_of_digits_zeros k : int_of_digits (zeros k) = Some 0.
Proof.
  induction k as [|k IH]; [reflexivity|].
  unfold int_of_digits in *. simpl.
  destruct (NilEmpty.uint_of_string (zeros k)) as [d|]; [|discriminate IH].
  simpl in *. injection IH as IH. f_equal.
  change (N.of_uint (Decimal.D0 d)) with (N.of_uint d). exact IH.
Qed.

Lemma int_of_digits_zfill w n : 0 <= n -> int_of_digits (zfill w (str n)) = Some n.
Proof.
  intros H. rewrite zfill_digits by (apply all_digits_str; exact H).
  rewrite (int_of_digits_app _ _ 0 n (int_of_digits_zeros _) (int_of_digits_str n H)).
  reflexivity.
Qed.

Lemma int_of_digits_nonneg s v : int_of_digits s = Some v -> 0 <= v.
Proof.
  unfold int_of_digits. destruct (NilEmpty.uint_of_string s); simpl; intros H; [|discriminate H].
  injection H as <-. lia.
Qed.

End StringFacts.

Import StringFacts.

(** ** Fixed-point text of floats *)

Module DecimalText.

Import DecimalPos DecimalFacts PyStr PyFloat.

(** ** The number of digits of [str n] *)

Lemma to_uint_head_zero n d :
  N.to_uint n = Decimal.D0 d -> d = Decimal.Nil.
Proof.
  intros H. pose proof (DecimalN.Unsigned.to_of (N.to_uint n)) as Hn.
  rewrite DecimalN.Unsigned.of_to, H, unorm_D0 in Hn.
  destruct d; try reflexivity; exfalso;
    match type of Hn with Decimal.D0 ?e = Decimal.unorm ?e =>
      assert (Hne : e <> Decimal.Nil) by discriminate;
      pose proof (nb_digits_unorm e Hne) as Hl
    end;
    rewrite <- Hn in Hl; simpl in Hl; lia.
Qed.

Lemma usize_nb_digits d : DecimalPos.Unsigned.usize d = N.of_nat (Decimal.nb_digits d).
Proof.
  induction d; cbn [DecimalPos.Unsigned.usize Decimal.nb_digits];
    try rewrite IHd; try rewrite Nat2N.inj_succ; reflexivity.
Qed.

Lemma length_string_of_uint d :
  String.length (NilEmpty.string_of_uint d) = Decimal.nb_digits d.
Proof. induction d; simpl; try rewrite IHd; reflexivity. Qed.

Lemma length_str_le n p :
  0 <= n < 10 ^ Z.of_nat p -> (0 < p)%nat -> (String.length (str n) <= p)%nat.
Proof.
  intros Hn Hp. rewrite str_nonneg by lia. rewrite length_string_of_uint.
  remember (N.to_uint (Z.to_N n)) as d eqn:Ed.
  assert (Hval : Z.of_N (N.of_uint d) = n).
  { rewrite Ed, DecimalN.Unsigned.of_to, Z2N.id; lia. }
  assert (Hnn : d <> Decimal.Nil) by (rewrite Ed; apply to_uint_nonnil).
  rewrite (of_uint_cons d Hnn) in Hval.
  assert (Hpow : forall a b : nat, (a < b)%nat <-> 10 ^ Z.of_nat a < 10 ^ Z.of_nat b).
  { intros a b. rewrite <- Z.pow_lt_mono_r_iff by lia. lia. }
  destruct d; try (exfalso; apply Hnn; reflexivity);
    [ symmetry in Ed; apply to_uint_head_zero in Ed; subst; simpl; lia | .. ];
    cbn [DecimalPos.Unsigned.hd DecimalPos.Unsigned.tl Decimal.nb_digits] in *;
    rewrite usize_nb_digits in Hval;
    rewrite N2Z.inj_add, N2Z.inj_mul, N2Z.inj_pow, nat_N_Z in Hval;
    (assert (10 ^ Z.of_nat (Decimal.nb_digits d) < 10 ^ Z.of_nat p)
      by (pose proof (N2Z.is_nonneg (N.of_uint d));
          assert (0 < 10 ^ Z.of_nat (Decimal.nb_digits d)) by (apply Z.pow_pos_nonneg; lia);
          change (Z.of_N 10) with 10 in Hval; nia));
    apply Hpow in H; lia.
Qed.

Lemma length_zfill_str n p :
  0 <= n < 10 ^ Z.of_nat p -> (0 < p)%nat -> String.length (zfill p (str n)) = p.
Proof.
  intros Hn Hp. rewrite length_zfill by (apply all_digits_str; lia).
  pose proof (length_str_le n p Hn Hp). lia.
Qed.

(** ** The shape of fixed-point text *)

Definition unsigned_part (s : string) : string :=
  match s with
  | String c rest => if Ascii.eqb c "-" then rest else s
  | EmptyString => s
  end.

(** Digits, a point, and exactly [p] digits, after an optional minus. *)
Definition is_decimal (p : nat) (s : string) : bool :=
  let '(ip, fp) := split_point (unsigned_part s) in
  match fp with
  | Some f =>
      (all_digits ip && negb (String.length ip =? 0)%nat
       && all_digits f && (String.length f =? p)%nat)%bool
  | None => false
  end.

Lemma split_point_digits a b :
  all_digits a = true -> split_point (a ++ String "." b) = (a, Some b).
Proof.
  induction a as [|c a IH]; intros H.
  - reflexivity.
  - simpl in H. apply andb_true_iff in H. destruct H as [Hc Ha].
    cbn [append split_point]. rewrite (digit_not_point c Hc), (IH Ha). reflexivity.
Qed.

Lemma digit_not_minus c : is_digit c = true -> Ascii.eqb c "-" = false.
Proof.
  destruct c as [[|] [|] [|] [|] [|] [|] [|] [|]]; intros H; try reflexivity; discriminate H.
Qed.

Lemma unsigned_part_digits s : all_digits s = true -> unsigned_part s = s.
Proof.
  destruct s as [|c s]; [reflexivity|]. simpl. intros H.
  apply andb_true_iff in H. destruct H as [Hc _].
  rewrite (digit_not_minus c Hc). reflexivity.
Qed.

Lemma is_decimal_text p (neg : bool) ip fp :
  0 <= ip -> 0 <= fp < 10 ^ Z.of_nat p -> (0 < p)%nat ->
  is_decimal p ((if neg then "-" else "") ++ str ip ++ "." ++ zfill p (str fp)) = true.
Proof.
  intros Hip Hfp Hp. unfold is_decimal.
  assert (Hu : unsigned_part ((if neg then "-" else "") ++ str ip ++ "." ++ zfill p (str fp))
               = (str ip ++ "." ++ zfill p (str fp))%string).
  { destruct neg; [reflexivity|]. cbn [append].
    pose proof (all_digits_str ip Hip) as Hd. pose proof (str_nonempty ip Hip) as Hne.
    destruct (str ip) as [|c r]; [exfalso; apply Hne; reflexivity|].
    simpl in Hd. apply andb_true_iff in Hd. destruct Hd as [Hc _].
    cbn [append unsigned_part]. rewrite (digit_not_minus c Hc). reflexivity. }
  rewrite Hu. cbn [append]. rewrite split_point_digits by (apply all_digits_str; exact Hip).
  rewrite all_digits_str by exact Hip.
  rewrite all_digits_zfill by (apply all_digits_str; lia).
  rewrite length_zfill_str by assumption. rewrite Nat.eqb_refl.
  pose proof (str_nonempty ip Hip) as Hne.
  destruct (str ip); [exfalso; apply Hne; reflexivity | reflexivity].
Qed.

Lemma pow10_pos p : 0 < 10 ^ Z.of_nat p.
Proof. apply Z.pow_pos_nonneg; lia. Qed.

(** A finite float prints as a decimal with [p] places. *)
Lemma format_f_is_decimal p x :
  (0 < p)%nat -> is_finite x = true -> (exists B, mag_le x B) ->
  is_decimal p (format_f p x) = true.
Proof.
  intros Hp Hfin [B HB]. destruct x as [| |s u]; try discriminate Hfin.
  simpl in HB. unfold format_f. pose proof (pow10_pos p). pose proof W_pos.
  apply is_decimal_text; [| apply Z.mod_pos_bound; assumption | exact Hp].
  apply Z.div_pos; [|assumption]. apply div_half_even_nonneg; [assumption | nia].
Qed.

(** ** Reading printed text back *)

Lemma round_finite s num den s' u :
  0 < den ->
  round s num den = FFin s' u ->
  s' = s /\
  let k := ulp_exp num den in
  2 * num - den * 2 ^ k <= 2 * (u * den) <= 2 * num + den * 2 ^ k.
Proof.
  intros Hden. unfold round.
  set (k := ulp_exp num den).
  destruct (div_half_even num (den * 2 ^ k) * 2 ^ k <? huge); intros H; [|discriminate H].
  injection H as <- <-. split; [reflexivity|]. cbv zeta.
  assert (0 < 2 ^ k) by (apply Z.pow_pos_nonneg; [lia | apply ulp_exp_nonneg]).
  pose proof (div_half_even_error num (den * 2 ^ k) ltac:(nia)) as He. cbv zeta in He.
  nia.
Qed.

(** *** Plain decimal text through the grammar of [float] *)

(** A digit or the point. *)
Definition is_plain (c : ascii) : bool := (is_digit c || Ascii.eqb c ".")%bool.

Fixpoint all_plain (s : string) : bool :=
  match s with
  | EmptyString => true
  | String c rest => (is_plain c && all_plain rest)%bool
  end.

Lemma all_plain_app a b : all_plain (a ++ b) = (all_plain a && all_plain b)%bool.
Proof.
  induction a as [|c a IH]; [reflexivity|]. simpl. rewrite IH. apply andb_assoc.
Qed.

Lemma all_digits_plain s : all_digits s = true -> all_plain s = true.
Proof.
  induction s as [|c s IH]; [reflexivity|]. simpl. intros H.
  apply andb_true_iff in H. destruct H as [Hc Hs].
  unfold is_plain. rewrite Hc, (IH Hs). reflexivity.
Qed.

Lemma plain_facts c :
  is_plain c = true ->
  is_space c = false /\ Ascii.eqb c "e" = false /\ Ascii.eqb c "E" = false
  /\ Ascii.eqb c "_" = false /\ Ascii.eqb c "-" = false /\ Ascii.eqb c "+" = false
  /\ lower_char c = c.
Proof.
  destruct c as [[|] [|] [|] [|] [|] [|] [|] [|]]; intros H;
    try discriminate H; repeat split; reflexivity.
Qed.

Lemma lstrip_plain c s : is_plain c = true -> lstrip (String c s) = String c s.
Proof. intros H. simpl. destruct (plain_facts c H) as [-> _]. reflexivity. Qed.

Lemma rstrip_plain s : all_plain s = true -> rstrip s = s.
Proof.
  induction s as [|c s IH]; [reflexivity|]. simpl. intros H.
  apply andb_true_iff in H. destruct H as [Hc Hs]. rewrite (IH Hs).
  destruct (plain_facts c Hc) as [-> _]. destruct s; reflexivity.
Qed.

Lemma split_exp_plain s : all_plain s = true -> split_exp s = (s, None).
Proof.
  induction s as [|c s IH]; [reflexivity|]. simpl. intros H.
  apply andb_true_iff in H. destruct H as [Hc Hs].
  destruct (plain_facts c Hc) as [_ [-> [-> _]]]. simpl. rewrite (IH Hs). reflexivity.
Qed.

Lemma digitpart_tail_digits s : all_digits s = true -> digitpart_tail s = true.
Proof.
  induction s as [|c s IH]; [reflexivity|]. simpl. intros H.
  apply andb_true_iff in H. destruct H as [-> Hs]. apply IH. exact Hs.
Qed.

Lemma remove_underscores_digits s : all_digits s = true -> remove_underscores s = s.
Proof.
  induction s as [|c s IH]; [reflexivity|]. simpl. intros H.
  apply andb_true_iff in H. destruct H as [Hc Hs].
  assert (Hp : is_plain c = true) by (unfold is_plain; rewrite Hc; reflexivity).
  destruct (plain_facts c Hp) as [_ [_ [_ [-> _]]]]. rewrite (IH Hs). reflexivity.
Qed.

Lemma digits_of_digits s :
  all_digits s = true -> s <> EmptyString -> digits_of s = Some s.
Proof.
  intros H Hne. unfold digits_of, digitpart.
  destruct s as [|c s]; [exfalso; apply Hne; reflexivity|].
  pose proof (remove_underscores_digits _ H) as Hr.
  simpl in H. apply andb_true_iff in H. destruct H as [Hc Hs].
  rewrite Hc, (digitpart_tail_digits _ Hs), Hr. reflexivity.
Qed.

Lemma not_a_name c s :
  is_plain c = true ->
  ((String.eqb (lower (String c s)) "inf" || String.eqb (lower (String c s)) "infinity")%bool
   = false)
  /\ String.eqb (lower (String c s)) "nan" = false.
Proof.
  destruct c as [[|] [|] [|] [|] [|] [|] [|] [|]]; intros H;
    try discriminate H; split; reflexivity.
Qed.

(** Digits, a point and digits, with or without a minus sign, read as
    the float nearest to that decimal. *)
Lemma float_of_plain_decimal (neg : bool) d1 d2 n :
  all_digits d1 = true -> d1 <> EmptyString ->
  all_digits d2 = true -> d2 <> EmptyString ->
  int_of_digits (d1 ++ d2) = Some n ->
  float_of_string ((if neg then "-" else "") ++ d1 ++ String "." d2)
  = Some (of_decimal neg n (String.length d2)).
Proof.
  intros H1 Hne1 H2 Hne2 Hn.
  assert (Hbody : all_plain (d1 ++ String "." d2) = true).
  { rewrite all_plain_app. cbn [all_plain]. rewrite !all_digits_plain by assumption.
    reflexivity. }
  assert (Hhead : exists c r, (d1 ++ String "." d2)%string = String c r
                              /\ is_plain c = true).
  { destruct d1 as [|c r]; [exfalso; apply Hne1; reflexivity|].
    exists c, (r ++ String "." d2)%string. split; [reflexivity|].
    simpl in H1. apply andb_true_iff in H1. destruct H1 as [Hc _].
    unfold is_plain. rewrite Hc. reflexivity. }
  assert (Hparse : parse_unsigned neg (d1 ++ String "." d2)
                   = Some (of_decimal neg n (String.length d2))).
  { unfold parse_unsigned.
    destruct Hhead as [c [r [E Hc]]].
    destruct (not_a_name c r Hc) as [Hinf Hnan].
    rewrite E, Hinf, Hnan, <- E. rewrite split_exp_plain by exact Hbody.
    unfold parse_number. rewrite split_point_digits by exact H1.
    rewrite (digits_of_digits d1 H1 Hne1), (digits_of_digits d2 H2 Hne2).
    destruct d1 as [|c1 r1]; [exfalso; apply Hne1; reflexivity|].
    destruct d2 as [|c2 r2]; [exfalso; apply Hne2; reflexivity|].
    cbn [String.length Nat.add Nat.eqb]. rewrite Hn. cbn [option_map parse_exponent].
    unfold of_scaled, of_decimal.
    replace (0 - Z.of_nat (S (String.length r2)) <? 0) with true
      by (symmetry; apply Z.ltb_lt; lia).
    replace (- (0 - Z.of_nat (S (String.length r2)))) with (Z.of_nat (S (String.length r2)))
      by lia.
    reflexivity. }
  unfold float_of_string, strip.
  destruct neg; cbn [append].
  - assert (Hs : rstrip (lstrip (String "-" (d1 ++ String "." d2)))
                 = String "-" (d1 ++ String "." d2)).
    { change (lstrip (String "-" (d1 ++ String "." d2)))
        with (String "-" (d1 ++ String "." d2)).
      cbn [rstrip]. rewrite (rstrip_plain _ Hbody).
      destruct Hhead as [c [r [E _]]]. rewrite E. reflexivity. }
    rewrite Hs. exact Hparse.
  - destruct Hhead as [c [r [E Hc]]]. rewrite E in *.
    rewrite (lstrip_plain c r Hc), (rstrip_plain _ Hbody).
    destruct (plain_facts c Hc) as [_ [_ [_ [_ [Hm [Hp _]]]]]].
    destruct c as [[|] [|] [|] [|] [|] [|] [|] [|]];
      try discriminate Hm; try discriminate Hp; exact Hparse.
Qed.

Lemma float_of_format neg u :
  0 <= u ->
  let n := div_half_even (u * 100) W in
  float_of_string (format_f 2 (FFin neg u)) = Some (of_decimal neg n 2).
Proof.
  intros Hu n. pose proof W_pos.
  assert (Hn : 0 <= n) by (apply div_half_even_nonneg; [assumption | lia]).
  unfold format_f. change (10 ^ Z.of_nat 2) with 100. fold n.
  assert (Hip : 0 <= n / 100) by (apply Z.div_pos; lia).
  assert (Hfp : 0 <= n mod 100 < 100) by (apply Z.mod_pos_bound; lia).
  assert (Hval : n / 100 * 100 + n mod 100 = n)
    by (pose proof (Z.div_mod n 100 ltac:(lia)); lia).
  assert (Hl : String.length (zfill 2 (str (n mod 100))) = 2%nat)
    by (apply length_zfill_str; [change (10 ^ Z.of_nat 2) with 100; lia | lia]).
  change (str (n / 100) ++ "." ++ zfill 2 (str (n mod 100)))%string
    with (str (n / 100) ++ String "." (zfill 2 (str (n mod 100))))%string.
  rewrite (float_of_plain_decimal neg _ _ n).
  - rewrite Hl. reflexivity.
  - apply all_digits_str. exact Hip.
  - apply str_nonempty. exact Hip.
  - apply all_digits_zfill. apply all_digits_str. lia.
  - intros E. rewrite E in Hl. discriminate Hl.
  - rewrite (int_of_digits_app _ _ (n / 100) (n mod 100)
               (int_of_digits_str _ Hip) (int_of_digits_zfill 2 (n mod 100) (proj1 Hfp))).
    rewrite Hl. change (10 ^ Z.of_nat 2) with 100. rewrite Hval. reflexivity.
Qed.

(** Text printed with two decimals from a float below 2^45 in magnitude
    reads back as a float that prints the same. *)
Lemma format_roundtrip x m :
  0 <= m < 2 ^ 45 -> mag_le x (m * W) ->
  exists y, float_of_string (format_f 2 x) = Some y
         /\ format_f 2 y = format_f 2 x
         /\ mag_le y ((m + 1) * W).
Proof.
  intros Hm Hx. destruct x as [| |s u]; simpl in Hx; try tauto.
  pose proof W_pos as HW.
  set (n := div_half_even (u * 100) W).
  assert (Hn0 : 0 <= n) by (apply div_half_even_nonneg; [assumption | lia]).
  assert (Hn1 : n <= 100 * m) by (apply div_half_even_le; [assumption | nia]).
  exists (of_decimal s n 2). split; [apply float_of_format; lia|].
  unfold of_decimal. change (10 ^ Z.of_nat 2) with 100.
  assert (Hle : mag_le (round s (n * W) 100) ((m + 1) * W)).
  { apply round_le; [lia | nia | nia | apply int_below_huge | apply representable_int];
      assert (2 ^ 45 < 2 ^ 53) by (apply Z.pow_lt_mono_r; lia); lia. }
  split; [|exact Hle].
  destruct (round s (n * W) 100) as [| |s' u'] eqn:E; simpl in Hle; try tauto.
  assert (H100 : 0 < 100) by lia.
  destruct (round_finite _ _ _ _ _ H100 E) as [-> Herr]. cbv zeta in Herr.
  assert (Hk : 100 * 2 ^ ulp_exp (n * W) 100 < W).
  { unfold ulp_exp.
    assert (Hq : n * W / 100 <= m * W) by (apply Z.div_le_upper_bound; nia).
    assert (Hq0 : 0 <= n * W / 100) by (apply Z.div_pos; nia).
    assert (Hlog : Z.log2 (n * W / 100) <= 44 + 1074).
    { destruct (Z.eq_dec m 0) as [->|Hmz].
      - replace (n * W / 100) with 0 by lia. simpl. lia.
      - pose proof (Z.log2_le_mono _ _ Hq) as Hl.
        unfold W in Hl at 2. rewrite Z.log2_mul_pow2 in Hl by lia.
        assert (Z.log2 m < 45) by (apply Z.log2_lt_pow2; lia). lia. }
    set (k := Z.max (Z.log2 (n * W / 100) - 52) 0).
    assert (Hkr : 0 <= k <= 1066) by lia.
    assert (2 ^ k <= 2 ^ 1066) by (apply Z.pow_le_mono_r; lia).
    assert (HW2 : W = 2 ^ 8 * 2 ^ 1066) by (unfold W; rewrite <- (Z.pow_add_r 2 8 1066) by lia; reflexivity).
    change (2 ^ 8) with 256 in HW2.
    assert (0 < 2 ^ 1066) by (apply Z.pow_pos_nonneg; lia).
    rewrite HW2. nia. }
  unfold format_f. change (10 ^ Z.of_nat 2) with 100.
  fold n. replace (div_half_even (u' * 100) W) with n; [reflexivity|].
  symmetry. apply div_half_even_near; [assumption|]. lia.
Qed.

End DecimalText.

Import DecimalText.

(** ** Calendar dates and their text *)

Module DateFacts.

Import PyStr PyDate.

(** * Dates *)

Definition days_in_month (y m : Z) : Z :=
  by_month DAYS_IN_MONTH m + (if ((m =? 2) && is_leap y)%bool then 1 else 0).

(** A date of the proleptic Gregorian calendar, years 1 to 9999. *)
Definition valid_date (d : datetime) : Prop :=
  1 <= year d <= 9999 /\ 1 <= month d <= 12
  /\ 1 <= day d <= days_in_month (year d) (month d).

Lemma is_leap_decomposed n400 n100 n4 n1 :
  0 <= n400 -> 0 <= n100 <= 3 -> 0 <= n4 <= 24 -> 0 <= n1 <= 3 ->
  is_leap (n400 * 400 + 1 + n100 * 100 + n4 * 4 + n1)
  = ((n1 =? 3) && (negb (n4 =? 24) || (n100 =? 3)))%bool.
Proof.
  intros H400 H100 H4 H1. unfold is_leap.
  set (y := n400 * 400 + 1 + n100 * 100 + n4 * 4 + n1).
  assert (E4 : y mod 4 = (n1 + 1) mod 4).
  { unfold y. replace (n400 * 400 + 1 + n100 * 100 + n4 * 4 + n1)
      with (n1 + 1 + (n400 * 100 + n100 * 25 + n4) * 4) by ring.
    apply Z.mod_add. lia. }
  assert (E100 : y mod 100 = (n4 * 4 + n1 + 1) mod 100).
  { unfold y. replace (n400 * 400 + 1 + n100 * 100 + n4 * 4 + n1)
      with (n4 * 4 + n1 + 1 + (n400 * 4 + n100) * 100) by ring.
    apply Z.mod_add. lia. }
  assert (E400 : y mod 400 = (n100 * 100 + n4 * 4 + n1 + 1) mod 400).
  { unfold y. replace (n400 * 400 + 1 + n100 * 100 + n4 * 4 + n1)
      with (n100 * 100 + n4 * 4 + n1 + 1 + n400 * 400) by ring.
    apply Z.mod_add. lia. }
  rewrite E4, E100, E400.
  assert (Hc1 : n1 = 0 \/ n1 = 1 \/ n1 = 2 \/ n1 = 3) by lia.
  destruct Hc1 as [-> | [-> | [-> | ->]]]; try reflexivity.
  change ((3 + 1) mod 4 =? 0) with true. cbn [andb Z.eqb].
  destruct (Z.eq_dec n4 24) as [->|Hn4].
  - change (24 =? 24) with true. cbn [negb orb].
    replace ((24 * 4 + 3 + 1) mod 100) with 0 by reflexivity. cbn [Z.eqb negb orb].
    assert (Hc : n100 = 0 \/ n100 = 1 \/ n100 = 2 \/ n100 = 3) by lia.
    destruct Hc as [-> | [-> | [-> | ->]]]; reflexivity.
  - assert (E : (n4 =? 24) = false) by (apply Z.eqb_neq; exact Hn4). rewrite E. cbn [negb orb].
    rewrite Z.mod_small by lia.
    assert (E' : (n4 * 4 + 3 + 1 =? 0) = false) by (apply Z.eqb_neq; lia).
    rewrite E'. reflexivity.
Qed.

Lemma days_before_year_decomposed n400 n100 n4 n1 :
  0 <= n400 -> 0 <= n100 <= 3 -> 0 <= n4 <= 24 -> 0 <= n1 <= 3 ->
  days_before_year (n400 * 400 + 1 + n100 * 100 + n4 * 4 + n1)
  = n400 * 146097 + n100 * 36524 + n4 * 1461 + n1 * 365.
Proof.
  intros H400 H100 H4 H1. unfold days_before_year.
  replace (n400 * 400 + 1 + n100 * 100 + n4 * 4 + n1 - 1)
    with (n400 * 400 + n100 * 100 + n4 * 4 + n1) by ring.
  set (y1 := n400 * 400 + n100 * 100 + n4 * 4 + n1).
  assert (E4 : y1 / 4 = n400 * 100 + n100 * 25 + n4).
  { symmetry. apply (Z.div_unique y1 4 _ n1); [lia | unfold y1; ring]. }
  assert (E100 : y1 / 100 = n400 * 4 + n100).
  { symmetry. apply (Z.div_unique y1 100 _ (n4 * 4 + n1)); [lia | unfold y1; ring]. }
  assert (E400 : y1 / 400 = n400).
  { symmetry. apply (Z.div_unique y1 400 _ (n100 * 100 + n4 * 4 + n1)); [lia | unfold y1; ring]. }
  rewrite E4, E100, E400. unfold y1. ring.
Qed.

Lemma toordinal_mk y m d :
  toordinal (mk_datetime y m d) = days_before_year y + days_before_month y m + d.
Proof. reflexivity. Qed.

Lemma valid_date_mk y m d :
  1 <= y <= 9999 -> 1 <= m <= 12 -> 1 <= d <= days_in_month y m ->
  valid_date (mk_datetime y m d).
Proof. intros. unfold valid_date. simpl. tauto. Qed.

(** The date of an ordinal in range, and back. *)
Lemma fromordinal_spec n :
  1 <= n <= MAXORDINAL ->
  valid_date (fromordinal n) /\ toordinal (fromordinal n) = n.
Proof.
  unfold MAXORDINAL. intros Hn. unfold fromordinal. cbv zeta.
  set (n0 := n - 1).
  pose proof (Z.div_mod n0 146097 ltac:(lia)) as E400.
  pose proof (Z.mod_pos_bound n0 146097 ltac:(lia)) as B400.
  set (n400 := n0 / 146097) in *. set (r400 := n0 mod 146097) in *.
  pose proof (Z.div_mod r400 36524 ltac:(lia)) as E100.
  pose proof (Z.mod_pos_bound r400 36524 ltac:(lia)) as B100.
  set (n100 := r400 / 36524) in *. set (r100 := r400 mod 36524) in *.
  pose proof (Z.div_mod r100 1461 ltac:(lia)) as E4.
  pose proof (Z.mod_pos_bound r100 1461 ltac:(lia)) as B4.
  set (n4 := r100 / 1461) in *. set (r4 := r100 mod 1461) in *.
  pose proof (Z.div_mod r4 365 ltac:(lia)) as E1.
  pose proof (Z.mod_pos_bound r4 365 ltac:(lia)) as B1.
  set (n1 := r4 / 365) in *. set (r1 := r4 mod 365) in *.
  assert (H400 : 0 <= n400 <= 24) by (unfold n0 in *; lia).
  assert (H100 : 0 <= n100 <= 4) by lia.
  assert (H4 : 0 <= n4 <= 24) by lia.
  assert (H1 : 0 <= n1 <= 4) by lia.
  assert (Hn0 : n = n0 + 1) by (unfold n0; ring).
  assert (Hmax : n400 = 24 -> n100 * 36524 + n4 * 1461 + n1 * 365 + r1 <= 145730) by lia.
  clearbody n0 n400 r400 n100 r100 n4 r4 n1 r1.
  destruct ((n1 =? 4) || (n100 =? 4))%bool eqn:Elast.
  - (* the last day of a leap year *)
    assert (Hy : exists a b, 0 <= a <= 3 /\ 0 <= b <= 24 /\ (b <> 24 \/ a = 3)
              /\ n400 * 400 + 1 + n100 * 100 + n4 * 4 + n1 - 1
                 = n400 * 400 + 1 + a * 100 + b * 4 + 3
              /\ n0 = n400 * 146097 + a * 36524 + b * 1461 + 3 * 365 + 365).
    { apply orb_true_iff in Elast. destruct Elast as [E|E]; apply Z.eqb_eq in E.
      - exists n100, n4. repeat split; lia.
      - exists 3, 24. repeat split; lia. }
    destruct Hy as [a [b [Ha [Hb [Hab [Hy Hn0']]]]]]. rewrite Hy.
    split.
    + apply valid_date_mk; [lia | lia |]. unfold days_in_month.
      change (12 =? 2) with false. unfold by_month. simpl. lia.
    + rewrite toordinal_mk, days_before_year_decomposed by lia.
      unfold days_before_month. rewrite is_leap_decomposed by lia.
      change (3 =? 3) with true. change (2 <? 12) with true. cbn [andb].
      assert (El : (negb (b =? 24) || (a =? 3))%bool = true).
      { destruct Hab as [Hb'|Ha']; [apply Z.eqb_neq in Hb'; rewrite Hb'; reflexivity
                                   | apply Z.eqb_eq in Ha'; rewrite Ha'; apply orb_true_r]. }
      rewrite El. unfold by_month. simpl. lia.
  - apply orb_false_iff in Elast. destruct Elast as [En1 En100].
    apply Z.eqb_neq in En1. apply Z.eqb_neq in En100.
    rewrite <- (is_leap_decomposed n400 n100 n4 n1) by lia.
    set (y := n400 * 400 + 1 + n100 * 100 + n4 * 4 + n1).
    assert (Hdby : days_before_year y = n400 * 146097 + n100 * 36524 + n4 * 1461 + n1 * 365)
      by (apply days_before_year_decomposed; lia).
    assert (Hy : 1 <= y <= 9999) by (unfold y; lia).
    pose proof (Z.div_mod (r1 + 50) 32 ltac:(lia)) as Em.
    pose proof (Z.mod_pos_bound (r1 + 50) 32 ltac:(lia)) as Bm.
    set (m := (r1 + 50) / 32) in *.
    assert (Hm : m = 1 \/ m = 2 \/ m = 3 \/ m = 4 \/ m = 5 \/ m = 6 \/ m = 7
                 \/ m = 8 \/ m = 9 \/ m = 10 \/ m = 11 \/ m = 12) by lia.
    clearbody m y.
    assert (Hfeb : forall l : bool, l = is_leap y -> l = true ->
                     n400 = 24 -> n100 = 3 -> n4 = 24 -> n1 = 3 -> r1 <= 364) by (intros; lia).
    destruct (is_leap y) eqn:Eleap;
      repeat (destruct Hm as [Hm|Hm]); subst m;
      unfold days_in_month, days_before_month, by_month; rewrite ?toordinal_mk, ?Eleap; simpl;
      match goal with
      | |- context [r1 <? ?p] => destruct (r1 <? p) eqn:Ecmp;
            [apply Z.ltb_lt in Ecmp | apply Z.ltb_ge in Ecmp]
      end;
      (split; [apply valid_date_mk; [lia | simpl; lia | unfold days_in_month, by_month; simpl; rewrite ?Eleap; simpl; lia]
              | rewrite toordinal_mk, Hdby; unfold days_before_month, by_month; simpl; rewrite ?Eleap; simpl; lia]).
Qed.

(** ** The text of a date *)

Fixpoint take (n : nat) (s : string) : string :=
  match n, s with
  | S n', String c rest => String c (take n' rest)
  | _, _ => EmptyString
  end.

Fixpoint drop (n : nat) (s : string) : string :=
  match n, s with
  | S n', String _ rest => drop n' rest
  | _, _ => s
  end.

(** Reading a date back from [Y-MM-DD], the year having [k] digits. *)
Definition read_date (k : nat) (s : string) : option datetime :=
  match int_of_digits (take k s), take 1 (drop k s),
        int_of_digits (take 2 (drop (k + 1) s)), take 1 (drop (k + 3) s),
        int_of_digits (drop (k + 4) s) with
  | Some y, "-", Some m, "-", Some d => Some (mk_datetime y m d)
  | _, _, _, _, _ => None
  end.

(** Reading [YYYY-MM-DD] back: four digits, two digits, two digits. *)
Definition date_of_text (s : string) : option datetime :=
  if (String.length s =? 10)%nat then read_date 4 s else None.

Definition valid_dateb (d : datetime) : bool :=
  ((1 <=? year d) && (year d <=? 9999) && (1 <=? month d) && (month d <=? 12)
   && (1 <=? day d) && (day d <=? days_in_month (year d) (month d)))%bool.

(** Text of the form [YYYY-MM-DD] that names a calendar date. *)
Definition is_iso_date (s : string) : bool :=
  match date_of_text s with
  | Some d => valid_dateb d
  | None => false
  end.

Lemma valid_dateb_iff d : valid_dateb d = true <-> valid_date d.
Proof.
  unfold valid_dateb, valid_date. rewrite !andb_true_iff, !Z.leb_le. tauto.
Qed.

Lemma take_app a b : take (String.length a) (a ++ b) = a.
Proof. induction a as [|c a IH]; simpl; [destruct b; reflexivity | rewrite IH; reflexivity]. Qed.

Lemma drop_app a b : drop (String.length a) (a ++ b) = b.
Proof. induction a as [|c a IH]; simpl; [reflexivity | exact IH]. Qed.

Lemma take_all a : take (String.length a) a = a.
Proof. induction a as [|c a IH]; simpl; [reflexivity | rewrite IH; reflexivity]. Qed.

Lemma days_in_month_le y m : 1 <= m <= 12 -> 28 <= days_in_month y m <= 31.
Proof.
  intros Hm. unfold days_in_month, by_month.
  assert (Hc : m = 1 \/ m = 2 \/ m = 3 \/ m = 4 \/ m = 5 \/ m = 6 \/ m = 7
               \/ m = 8 \/ m = 9 \/ m = 10 \/ m = 11 \/ m = 12) by lia.
  repeat (destruct Hc as [Hc|Hc]); subst m; simpl; try lia; destruct (is_leap y); lia.
Qed.

Lemma read_date_strftime d :
  valid_date d ->
  read_date (String.length (str (year d))) (strftime d) = Some d.
Proof.
  intros [Hy [Hm Hd]]. pose proof (days_in_month_le (year d) _ Hm) as Hdim.
  destruct d as [y m dd]. cbn [year month day] in *.
  unfold strftime. cbn [year month day].
  set (ys := str y). set (ms := zfill 2 (str m)). set (ds := zfill 2 (str dd)).
  set (k := String.length ys).
  assert (Lm : String.length ms = 2%nat)
    by (apply length_zfill_str; [change (10 ^ Z.of_nat 2) with 100; lia | lia]).
  assert (Ld : String.length ds = 2%nat)
    by (apply length_zfill_str; [change (10 ^ Z.of_nat 2) with 100; lia | lia]).
  assert (Vy : int_of_digits ys = Some y) by (apply int_of_digits_str; lia).
  assert (Vm : int_of_digits ms = Some m) by (apply int_of_digits_zfill; lia).
  assert (Vd : int_of_digits ds = Some dd) by (apply int_of_digits_zfill; lia).
  unfold read_date.
  assert (T4 : take k (ys ++ "-" ++ ms ++ "-" ++ ds) = ys) by apply take_app.
  assert (D4 : drop k (ys ++ "-" ++ ms ++ "-" ++ ds) = ("-" ++ ms ++ "-" ++ ds)%string)
    by apply drop_app.
  assert (D5 : drop (k + 1) (ys ++ "-" ++ ms ++ "-" ++ ds) = (ms ++ "-" ++ ds)%string).
  { replace (ys ++ "-" ++ ms ++ "-" ++ ds)%string
      with ((ys ++ "-") ++ ms ++ "-" ++ ds)%string by (rewrite string_app_assoc; reflexivity).
    replace (k + 1)%nat with (String.length (ys ++ "-"))
      by (rewrite string_app_length; reflexivity).
    apply drop_app. }
  assert (D7 : drop (k + 3) (ys ++ "-" ++ ms ++ "-" ++ ds) = ("-" ++ ds)%string).
  { replace (ys ++ "-" ++ ms ++ "-" ++ ds)%string
      with (((ys ++ "-") ++ ms) ++ "-" ++ ds)%string by (rewrite !string_app_assoc; reflexivity).
    replace (k + 3)%nat with (String.length ((ys ++ "-") ++ ms))
      by (rewrite !string_app_length, Lm; cbn [String.length]; fold k; lia).
    apply drop_app. }
  assert (D8 : drop (k + 4) (ys ++ "-" ++ ms ++ "-" ++ ds) = ds).
  { replace (ys ++ "-" ++ ms ++ "-" ++ ds)%string
      with ((((ys ++ "-") ++ ms) ++ "-") ++ ds)%string by (rewrite !string_app_assoc; reflexivity).
    replace (k + 4)%nat with (String.length (((ys ++ "-") ++ ms) ++ "-"))
      by (rewrite !string_app_length, Lm; cbn [String.length]; fold k; lia).
    apply drop_app. }
  rewrite T4, D4, D5, D7, D8, Vy.
  assert (T2 : take 2 (ms ++ "-" ++ ds) = ms) by (rewrite <- Lm at 1; apply take_app).
  rewrite T2.
  rewrite Vm, Vd. reflexivity.
Qed.

Lemma length_strftime d :
  valid_date d -> String.length (strftime d) = (String.length (str (year d)) + 6)%nat.
Proof.
  intros [Hy [Hm Hd]]. pose proof (days_in_month_le (year d) _ Hm) as Hdim.
  unfold strftime. rewrite !string_app_length. cbn [String.length].
  rewrite (length_zfill_str (month d) 2), (length_zfill_str (day d) 2);
    try (change (10 ^ Z.of_nat 2) with 100); lia.
Qed.

Lemma length_year y : 1000 <= y <= 9999 -> String.length (str y) = 4%nat.
Proof.
  intros H.
  assert (E : forallb (fun a => (String.length (str a) =? 4)%nat)
                      (PyRandom.range_from 1000 (Z.to_nat 9000)) = true)
    by (vm_compute; reflexivity).
  apply Nat.eqb_eq. apply (forallb_range_from _ _ _ E). lia.
Qed.

(** From the year 1000 on the text of a date is [YYYY-MM-DD]. *)
Lemma date_of_text_strftime d :
  valid_date d -> 1000 <= year d -> date_of_text (strftime d) = Some d.
Proof.
  intros V Hy. pose proof V as [Hy' _].
  pose proof (length_year (year d) ltac:(lia)) as L.
  unfold date_of_text. rewrite (length_strftime d V), L. cbn [Nat.add Nat.eqb].
  rewrite <- L. apply read_date_strftime. exact V.
Qed.

Lemma is_iso_date_strftime d :
  valid_date d -> 1000 <= year d -> is_iso_date (strftime d) = true.
Proof.
  intros H Hy. unfold is_iso_date. rewrite (date_of_text_strftime d H Hy).
  apply valid_dateb_iff. exact H.
Qed.

(** Before the year 1000 the text is shorter than [YYYY-MM-DD]. *)
Lemma short_year_not_iso d :
  valid_date d -> year d < 1000 -> is_iso_date (strftime d) = false.
Proof.
  intros V Hy. pose proof V as [Hy' _].
  assert (L : (String.length (str (year d)) <= 3)%nat)
    by (apply length_str_le; [change (10 ^ Z.of_nat 3) with 1000; lia | lia]).
  unfold is_iso_date, date_of_text. rewrite (length_strftime d V).
  destruct (String.length (str (year d)) + 6 =? 10)%nat eqn:E; [|reflexivity].
  apply Nat.eqb_eq in E. lia.
Qed.

Lemma strftime_inj d d' :
  valid_date d -> valid_date d' -> strftime d = strftime d' -> d = d'.
Proof.
  intros V V' E.
  pose proof (read_date_strftime d V) as P.
  pose proof (read_date_strftime d' V') as P'.
  assert (L : String.length (str (year d)) = String.length (str (year d'))).
  { pose proof (length_strftime d V) as L1. pose proof (length_strftime d' V') as L2.
    rewrite E in L1. lia. }
  rewrite E, L, P' in P. injection P as P. symmetry. exact P.
Qed.

Lemma strftime_fromordinal_inj n n' :
  1 <= n <= MAXORDINAL -> 1 <= n' <= MAXORDINAL ->
  strftime (fromordinal n) = strftime (fromordinal n') -> n = n'.
Proof.
  intros Hn Hn' E.
  destruct (fromordinal_spec n Hn) as [V T], (fromordinal_spec n' Hn') as [V' T'].
  rewrite <- T, <- T', (strftime_inj _ _ V V' E). reflexivity.
Qed.

(** The first day of a year comes after every day of the years before. *)
Lemma toordinal_year d :
  valid_date d -> days_before_year (year d) < toordinal d <= days_before_year (year d + 1).
Proof.
  intros [Hy [Hm Hd]]. unfold toordinal, days_before_month, days_in_month, by_month in *.
  assert (Hnext : days_before_year (year d + 1)
                  = days_before_year (year d) + 365 + (if is_leap (year d) then 1 else 0)).
  { unfold days_before_year, is_leap.
    replace (year d + 1 - 1) with (year d) by lia.
    destruct (year d mod 4 =? 0) eqn:E4; destruct (year d mod 100 =? 0) eqn:E100;
      destruct (year d mod 400 =? 0) eqn:E400; cbn [andb orb negb];
      rewrite ?Z.eqb_eq, ?Z.eqb_neq in *; Z.div_mod_to_equations; lia. }
  rewrite Hnext.
  assert (Hc : month d = 1 \/ month d = 2 \/ month d = 3 \/ month d = 4
               \/ month d = 5 \/ month d = 6 \/ month d = 7 \/ month d = 8
               \/ month d = 9 \/ month d = 10 \/ month d = 11 \/ month d = 12) by lia.
  repeat (destruct Hc as [Hc|Hc]); rewrite Hc in *; simpl in *;
    destruct (is_leap (year d)); lia.
Qed.

Lemma days_before_year_mono y y' : y <= y' -> days_before_year y <= days_before_year y'.
Proof.
  intros H. unfold days_before_year.
  assert (H4 : (y - 1) / 4 <= (y' - 1) / 4) by (apply Z.div_le_mono; lia).
  assert (H400 : (y - 1) / 400 <= (y' - 1) / 400) by (apply Z.div_le_mono; lia).
  assert (H100 : (y' - 1) / 100 - (y - 1) / 100 <= y' - y)
    by (Z.div_mod_to_equations; lia).
  lia.
Qed.

(** Ordinal 364878 is 1000-01-01. *)
Lemma year_from_1000 n :
  364878 <= n <= MAXORDINAL -> 1000 <= year (fromordinal n).
Proof.
  intros Hn. destruct (fromordinal_spec n ltac:(lia)) as [V T].
  destruct (Z.lt_ge_cases (year (fromordinal n)) 1000) as [Hlt|Hge]; [|exact Hge].
  exfalso. pose proof (toordinal_year _ V) as [_ Hup]. rewrite T in Hup.
  pose proof (days_before_year_mono (year (fromordinal n) + 1) 1000 ltac:(lia)) as Hm.
  change (days_before_year 1000) with 364877 in Hm. lia.
Qed.

Lemma year_before_1000 n :
  1 <= n < 364878 -> year (fromordinal n) < 1000.
Proof.
  intros Hn. destruct (fromordinal_spec n ltac:(unfold MAXORDINAL; lia)) as [V T].
  destruct (Z.lt_ge_cases (year (fromordinal n)) 1000) as [Hlt|Hge]; [exact Hlt|].
  exfalso. pose proof (toordinal_year _ V) as [Hlow _]. rewrite T in Hlow.
  pose proof (days_before_year_mono 1000 (year (fromordinal n)) Hge) as Hm.
  change (days_before_year 1000) with 364877 in Hm. lia.
Qed.

Lemma add_days_some d n :
  1 <= toordinal d + n <= MAXORDINAL ->
  add_days d n = Some (fromordinal (toordinal d + n)).
Proof.
  intros H. unfold add_days. cbv zeta.
  destruct (0 <? toordinal d + n) eqn:E1; [|apply Z.ltb_ge in E1; lia].
  destruct (toordinal d + n <=? MAXORDINAL) eqn:E2; [|apply Z.leb_gt in E2; lia].
  reflexivity.
Qed.

Lemma add_days_inv d n d' :
  add_days d n = Some d' ->
  1 <= toordinal d + n <= MAXORDINAL /\ d' = fromordinal (toordinal d + n).
Proof.
  unfold add_days. cbv zeta.
  destruct (0 <? toordinal d + n) eqn:E1; [|intros H; discriminate H].
  destruct (toordinal d + n <=? MAXORDINAL) eqn:E2; [|intros H; discriminate H].
  cbn [andb]. intros H. injection H as <-.
  apply Z.ltb_lt in E1. apply Z.leb_le in E2. split; [lia | reflexivity].
Qed.

End DateFacts.

Import DateFacts.

Import PyStr PyFloat PyDate PyRandom Py Wp.

(** * Specifications of the generators *)

Lemma Forall_snoc {A : Type} (P : A -> Prop) xs x :
  Forall P xs -> P x -> Forall P (xs ++ [x])%list.
Proof.
  intros H1 H2. apply Forall_app. split; [exact H1 | constructor; [exact H2 | constructor]].
Qed.

Lemma In_range_from x start n :
  In x (range_from start n) <-> start <= x < start + Z.of_nat n.
Proof.
  revert start. induction n as [|n IH]; intros start.
  - simpl. lia.
  - cbn [range_from In]. rewrite IH. lia.
Qed.

Lemma length_range_from start n : List.length (range_from start n) = n.
Proof. revert start. induction n as [|n IH]; intros start; simpl; [reflexivity | rewrite IH; reflexivity]. Qed.

Lemma toordinal_TODAY : toordinal Sampledata.TODAY = 739638.
Proof. reflexivity. Qed.

Lemma toordinal_epoch : toordinal (mk_datetime 1970 1 1) = 719163.
Proof. reflexivity. Qed.

Lemma add_days_not_none base t n lo hi :
  toordinal base = t -> lo <= n <= hi -> 1 <= t + lo -> t + hi <= MAXORDINAL ->
  add_days base n <> None.
Proof.
  intros Ht Hn Hlo Hhi. rewrite add_days_some by lia. discriminate.
Qed.

(** A date at least 364878 days after 0001-01-01, that is from the year
    1000 on, prints as [YYYY-MM-DD]. *)
Lemma add_days_iso base n d t lo hi :
  add_days base n = Some d -> toordinal base = t -> lo <= n <= hi ->
  364878 <= t + lo ->
  is_iso_date (strftime d) = true.
Proof.
  intros H Ht Hn Hlo. apply add_days_inv in H. destruct H as [Hr ->].
  apply is_iso_date_strftime; [apply (fromordinal_spec _ Hr)|].
  apply year_from_1000. lia.
Qed.

Lemma strftime_TODAY_iso : is_iso_date (strftime Sampledata.TODAY) = true.
Proof. reflexivity. Qed.

Lemma round_zero s den : 0 < den -> round s 0 den = FFin s 0.
Proof.
  intros Hden. unfold round.
  assert (Hq : div_half_even 0 (den * 2 ^ ulp_exp 0 den) = 0).
  { assert (Hp : 0 < 2 ^ ulp_exp 0 den)
      by (apply Z.pow_pos_nonneg; [lia | apply ulp_exp_nonneg]).
    apply (div_half_even_exact (den * 2 ^ ulp_exp 0 den) 0). nia. }
  rewrite Hq. reflexivity.
Qed.

Lemma of_int_zero : of_int 0 = Some (FFin false 0).
Proof. unfold of_int. change (Z.abs 0 * W) with 0. rewrite round_zero by lia. reflexivity. Qed.

(** [int(len(customers) * avg_accounts_per_customer)], when it has a value. *)
Definition account_count (customers : list Customer.t) (ratio : pyfloat)
  : option Z :=
  match of_int (len customers) with
  | Some lf => trunc (mul lf ratio)
  | None => None
  end.

Lemma account_count_empty ratio count :
  account_count [] ratio = Some count -> count = 0.
Proof.
  unfold account_count. change (len []) with 0. rewrite of_int_zero.
  destruct ratio as [| b | b v]; unfold mul.
  - intros H; discriminate H.
  - change (0 =? 0) with true. intros H; discriminate H.
  - change (0 * v) with 0. rewrite round_zero by apply W_pos.
    unfold trunc. rewrite Z.div_0_l by (pose proof W_pos; lia).
    destruct (xorb false b); intros H; injection H as <-; reflexivity.
Qed.




Opaque PyFloat.ltb PyFloat.gtb PyFloat.round PyFloat.add PyFloat.mul
  PyFloat.format_f is_iso_date.

Ltac side_partial := let H := fresh in intros H; discriminate H.

Ltac closed_le := apply Z.leb_le; vm_compute; reflexivity.

Ltac date_is_iso :=
  eapply add_days_iso;
    [ eassumption
    | first [apply toordinal_TODAY | apply toordinal_epoch]
    | eassumption
    | closed_le ].

Ltac side_total :=
  intros _;
  lazymatch goal with
  | |- _ <= _ => first [closed_le | lia]
  | |- add_days _ _ <> None =>
      eapply add_days_not_none;
        [ first [apply toordinal_TODAY | apply toordinal_epoch]
        | eassumption | closed_le | closed_le ]
  | |- _ <> _ => let H := fresh in intro H; discriminate H
  end.

Ltac wp_step side :=
  lazymatch goal with
  | |- wp _ (bind _ _) _ _ => apply wp_bind
  | |- wp _ (ret _) _ _ => apply wp_ret
  | |- wp _ random _ _ => apply wp_random
  | |- wp _ next_draw _ _ => apply wp_next_draw
  | |- wp _ (uniform _ _) _ _ => apply wp_uniform
  | |- wp _ (choice _) _ _ => apply wp_choice; [side | intros ? ?]
  | |- wp _ (randint _ _) _ _ => apply wp_randint; [side | intros ? ?]
  | |- wp _ (lift_option _ _) _ _ => apply wp_lift_option; [side | intros ? ?]
  | |- wp _ (and_then false _) _ _ => apply wp_ret
  | |- wp _ (and_then true ?m) _ _ => change (and_then true m) with m
  | |- wp _ (if true then ?a else _) _ _ => change (if true then a else _) with a
  | |- wp _ (if false then _ else ?b) _ _ => change (if false then _ else b) with b
  | |- wp _ (if ?b then _ else _) _ _ => destruct b eqn:?
  | |- wp _ (match ?p with (_, _) => _ end) _ _ => destruct p
  end.

(** ** Shapes of generated text *)

Definition is_phone (s : string) : bool :=
  ((String.length s =? 15)%nat
   && String.eqb (take 3 s) "+1-"
   && all_digits (take 3 (drop 3 s))
   && String.eqb (take 1 (drop 6 s)) "-"
   && all_digits (take 3 (drop 7 s))
   && String.eqb (take 1 (drop 10 s)) "-"
   && all_digits (drop 11 s))%bool.

Lemma length_str_3 n : 200 <= n <= 999 -> String.length (str n) = 3%nat.
Proof.
  intros H.
  assert (E : forallb (fun a => (String.length (str a) =? 3)%nat) (range_from 200 (Z.to_nat 800)) = true)
    by (vm_compute; reflexivity).
  apply Nat.eqb_eq. apply (forallb_range_from _ _ _ E). lia.
Qed.

Lemma length_str_4 n : 1000 <= n <= 9999 -> String.length (str n) = 4%nat.
Proof.
  intros H.
  assert (E : forallb (fun a => (String.length (str a) =? 4)%nat) (range_from 1000 (Z.to_nat 9000)) = true)
    by (vm_compute; reflexivity).
  apply Nat.eqb_eq. apply (forallb_range_from _ _ _ E). lia.
Qed.

Lemma is_phone_good a b c :
  200 <= a <= 999 -> 200 <= b <= 999 -> 1000 <= c <= 9999 ->
  is_phone (Sampledata.good_phone a b c) = true.
Proof.
  intros Ha Hb Hc. unfold Sampledata.good_phone.
  pose proof (length_str_3 a Ha) as La. pose proof (length_str_3 b Hb) as Lb.
  pose proof (length_str_4 c Hc) as Lc.
  pose proof (all_digits_str a ltac:(lia)) as Da.
  pose proof (all_digits_str b ltac:(lia)) as Db.
  pose proof (all_digits_str c ltac:(lia)) as Dc.
  destruct (str a) as [|a1 [|a2 [|a3 [|? ?]]]]; try discriminate La.
  destruct (str b) as [|b1 [|b2 [|b3 [|? ?]]]]; try discriminate Lb.
  destruct (str c) as [|c1 [|c2 [|c3 [|c4 [|? ?]]]]]; try discriminate Lc.
  unfold is_phone. cbn [append String.length Nat.eqb take drop andb String.eqb Ascii.eqb Bool.eqb].
  rewrite Da, Db, Dc. cbn. reflexivity.
Qed.

Opaque is_phone.

(** ** Loops that append one record per index *)

(** [P k c] for the record [c] at position [k] of the list. *)
Definition indexed {R : Type} (P : Z -> R -> Prop) (cs : list R) : Prop :=
  forall k c, nth_error cs k = Some c -> P (Z.of_nat k) c.

Lemma indexed_nil {R : Type} (P : Z -> R -> Prop) : indexed P [].
Proof. intros k c H. destruct k; discriminate H. Qed.

Lemma indexed_snoc {R : Type} (P : Z -> R -> Prop) cs c :
  indexed P cs -> P (len cs) c -> indexed P (cs ++ [c])%list.
Proof.
  intros Hcs Hc k x Hk.
  destruct (Nat.lt_ge_cases k (List.length cs)) as [Hlt|Hge].
  - rewrite nth_error_app1 in Hk by exact Hlt. apply Hcs. exact Hk.
  - rewrite nth_error_app2 in Hk by exact Hge.
    destruct (k - List.length cs)%nat as [|j] eqn:E.
    + simpl in Hk. injection Hk as <-.
      replace k with (List.length cs) by lia. exact Hc.
    + destruct j; discriminate Hk.
Qed.

Lemma indexed_Forall {R : Type} (P : Z -> R -> Prop) (Q : R -> Prop) cs :
  indexed P cs -> (forall k c, 0 <= k < len cs -> P k c -> Q c) -> Forall Q cs.
Proof.
  intros H HPQ. apply Forall_forall. intros c Hin.
  destruct (In_nth_error _ _ Hin) as [k Hk].
  apply (HPQ (Z.of_nat k)); [|apply H; exact Hk].
  assert (k < List.length cs)%nat by (apply nth_error_Some; rewrite Hk; discriminate).
  unfold len. lia.
Qed.

Lemma len_app {R : Type} (xs ys : list R) : len (xs ++ ys) = len xs + len ys.
Proof. unfold len. rewrite length_app. lia. Qed.

Lemma wp_range_append {R : Type} total (body : Z -> list R -> M (list R))
  (P : Z -> R -> Prop) (n : Z) r :
  (forall i cs r', 0 <= i < n -> len cs = i ->
     wp total (body i cs) (fun cs' _ => exists c, cs' = (cs ++ [c])%list /\ P i c) r') ->
  wp total (for_each body (range n) [])
     (fun cs _ => len cs = Z.max 0 n /\ indexed P cs) r.
Proof.
  intros Hbody.
  pose (Inv := fun (rem : list Z) (cs : list R) =>
     rem = range_from (len cs) (List.length rem)
     /\ len cs + Z.of_nat (List.length rem) = Z.max 0 n /\ indexed P cs).
  eapply wp_conseq.
  - apply (wp_for_each total body Inv).
    + intros i rem cs r' [Hrem [Hlen Hidx]].
      cbn [List.length range_from] in Hrem. injection Hrem as Hi Hrem'.
      eapply wp_conseq.
      * apply Hbody; [|symmetry; exact Hi]. cbn [List.length] in Hlen. unfold len in *. lia.
      * intros cs' _ [c [-> Hc]]. unfold Inv. rewrite len_app. change (len [c]) with 1.
        split; [exact Hrem'|]. split.
        -- cbn [List.length] in Hlen. lia.
        -- apply indexed_snoc; [exact Hidx | rewrite <- Hi; exact Hc].
    + unfold Inv, range. rewrite length_range_from. change (len []) with 0.
      split; [reflexivity|]. split; [lia | apply indexed_nil].
  - intros cs _ [_ [Hlen Hidx]]. cbn [List.length] in Hlen. split; [lia | exact Hidx].
Qed.

(** ** The clean variant: customers *)

Definition pure_customer_ok (i : Z) (c : Customer.t) : Prop :=
  Customer.customer_id c = ("CUST" ++ zfill 6 (str (i + 1)))%string
  /\ In (Customer.first_name c) Pure.FIRST_NAMES
  /\ In (Customer.last_name c) Pure.LAST_NAMES
  /\ (exists d, In d Pure.EMAIL_DOMAINS
        /\ Customer.email c
           = (lower (Customer.first_name c) ++ "." ++ lower (Customer.last_name c)
                ++ "@" ++ d)%string)
  /\ is_phone (Customer.phone c) = true
  /\ is_iso_date (Customer.date_of_birth c) = true
  /\ In (Customer.country c) Pure.COUNTRIES
  /\ In (Customer.kyc_status c) Pure.KYC_STATUSES
  /\ is_iso_date (Customer.created_date c) = true
  /\ is_iso_date (Customer.last_updated c) = true.

Lemma pure_customer_body_spec i cs r :
  wp true (Pure.customer_body i cs)
     (fun cs' _ => exists c, cs' = (cs ++ [c])%list /\ pure_customer_ok i c) r.
Proof.
  unfold Pure.customer_body, Pure.generate_email, Pure.generate_phone, Pure.generate_date.
  repeat wp_step side_total.
  eexists. split; [reflexivity|]. unfold pure_customer_ok. cbn [Customer.customer_id
    Customer.first_name Customer.last_name Customer.email Customer.phone
    Customer.date_of_birth Customer.country Customer.kyc_status
    Customer.created_date Customer.last_updated].
  repeat split; try assumption.
  - eexists. split; [eassumption | reflexivity].
  - apply is_phone_good; assumption.
  - date_is_iso.
  - date_is_iso.
Qed.

Lemma pure_customers_spec count r :
  wp true (Pure.generate_customers count)
     (fun cs _ => len cs = Z.max 0 count /\ indexed pure_customer_ok cs) r.
Proof.
  unfold Pure.generate_customers. apply wp_range_append.
  intros i cs r' _ _. apply pure_customer_body_spec.
Qed.

(** ** Values of [random.uniform] *)

(** A balance drawn by [random.uniform(0, 100000)]. *)
Definition is_balance_draw (b : pyfloat) : Prop :=
  exists x, is_unit x /\ b = add (lit 0 0) (mul (sub (lit 100000 0) (lit 0 0)) x).

(** An amount drawn by [random.uniform(-10000, 10000)]. *)
Definition is_amount_draw (a : pyfloat) : Prop :=
  exists x, is_unit x
    /\ a = add (opp (lit 10000 0)) (mul (sub (lit 10000 0) (opp (lit 10000 0))) x).

(** A daily change drawn by [random.uniform(-1000, 1000)]. *)
Definition is_delta (d : pyfloat) : Prop :=
  exists x, is_unit x
    /\ d = add (opp (lit 1000 0)) (mul (sub (lit 1000 0) (opp (lit 1000 0))) x).

Lemma balance_draw_le b : is_balance_draw b -> mag_le b (100000 * W).
Proof.
  intros [x [Hx ->]].
  apply (uniform_value_le 0 100000 x ltac:(lia) ltac:(lia) Hx false false).
Qed.



(** Two-decimal text of a balance drawn by [generate_accounts]. *)
Definition is_balance_text (s : string) : Prop :=
  exists b, is_balance_draw b /\ s = format_f 2 b.

Lemma mag_le_is_decimal p x B : (0 < p)%nat -> mag_le x B -> is_decimal p (format_f p x) = true.
Proof.
  intros Hp H. apply format_f_is_decimal; [exact Hp | eapply mag_le_finite; exact H | exists B; exact H].
Qed.


Lemma balance_text_roundtrip s :
  is_balance_text s ->
  exists y, float_of_string s = Some y /\ format_f 2 y = s /\ mag_le y (100001 * W).
Proof.
  intros [b [Hb ->]].
  apply (format_roundtrip b 100000); [|apply balance_draw_le; exact Hb].
  split; [lia|]. reflexivity.
Qed.

(** ** Accounts *)

Definition refers_to (customers : list Customer.t) (a : Account.t) : Prop :=
  exists c, In c customers /\ Account.customer_id a = Customer.customer_id c.

Definition account_fields_ok (a : Account.t) : Prop :=
  In (Account.account_type a) Pure.ACCOUNT_TYPES
  /\ is_balance_text (Account.balance a)
  /\ In (Account.currency a) Pure.CURRENCIES
  /\ In (Account.status a) Pure.ACCOUNT_STATUSES
  /\ is_iso_date (Account.opened_date a) = true
  /\ is_iso_date (Account.last_transaction_date a) = true.

Definition pure_account_ok (customers : list Customer.t) (i : Z) (a : Account.t)
  : Prop :=
  Account.account_id a = ("ACC" ++ zfill 8 (str (i + 1)))%string
  /\ refers_to customers a
  /\ account_fields_ok a.

(** What the defect variant keeps: the id is the sequence number or
    empty, the customer is a real one or an orphan id. *)
Definition defect_account_ok (customers : list Customer.t) (i : Z) (a : Account.t)
  : Prop :=
  (Account.account_id a = ("ACC" ++ zfill 8 (str (i + 1)))%string
   \/ Account.account_id a = "")
  /\ (refers_to customers a
      \/ exists n, 900000 <= n <= 999999
           /\ Account.customer_id a = Sampledata.orphan_id n)
  /\ account_fields_ok a.

Ltac unfold_fields :=
  cbn [Customer.customer_id Customer.first_name Customer.last_name Customer.email
       Customer.phone Customer.date_of_birth Customer.country Customer.kyc_status
       Customer.created_date Customer.last_updated
       Account.account_id Account.customer_id Account.account_type Account.balance
       Account.currency Account.status Account.opened_date
       Account.last_transaction_date
       Transaction.transaction_id Transaction.account_id
       Transaction.transaction_type Transaction.amount Transaction.currency
       Transaction.transaction_date Transaction.description Transaction.status
       DailyBalance.balance_id DailyBalance.account_id DailyBalance.balance_date
       DailyBalance.opening_balance DailyBalance.closing_balance
       DailyBalance.currency
       FxRate.rate_id FxRate.from_currency FxRate.to_currency
       FxRate.exchange_rate FxRate.rate_date FxRate.source].

Ltac side_choice_given H := intros _; exact H.

Lemma pure_account_body_spec total customers i accts r :
  (total = true -> customers <> []) ->
  wp total (Pure.account_body customers i accts)
     (fun accts' _ => exists a, accts' = (accts ++ [a])%list
                        /\ pure_account_ok customers i a) r.
Proof.
  intros Hne. unfold Pure.account_body, Pure.generate_date.
  apply wp_bind. apply wp_choice; [exact Hne | intros c Hc].
  repeat wp_step side_total.
  eexists. split; [reflexivity|]. unfold pure_account_ok, account_fields_ok, refers_to.
  unfold_fields.
  repeat split; try assumption.
  - exists c. split; [exact Hc | reflexivity].
  - eexists. split; [|reflexivity]. eexists. split; [apply unit_float_is_unit | reflexivity].
  - date_is_iso.
  - date_is_iso.
Qed.

Lemma defect_account_body_spec total customers i accts r :
  (total = true -> customers <> []) ->
  wp total (Sampledata.account_body customers i accts)
     (fun accts' _ => exists a, accts' = (accts ++ [a])%list
                        /\ defect_account_ok customers i a) r.
Proof.
  intros Hne. unfold Sampledata.account_body, Sampledata.generate_date.
  apply wp_bind. apply wp_random. apply wp_bind.
  match goal with |- wp _ (if ?b then _ else _) _ _ => destruct b end.
  - repeat wp_step side_total.
    all: eexists; (split; [reflexivity|]); unfold defect_account_ok, account_fields_ok;
      unfold_fields.
    all: split; [match goal with |- context [if ?b then _ else _] => destruct b end; tauto|].
    all: split; [right; eexists; split; [eassumption | reflexivity]|].
    all: repeat split; try assumption; try (date_is_iso).
    all: eexists; (split; [|reflexivity]); eexists; (split; [apply unit_float_is_unit | reflexivity]).
  - apply wp_bind. apply wp_choice; [exact Hne | intros c Hc].
    repeat wp_step side_total.
    all: eexists; (split; [reflexivity|]); unfold defect_account_ok, account_fields_ok;
      unfold_fields.
    all: split; [match goal with |- context [if ?b then _ else _] => destruct b end; tauto|].
    all: split; [left; exists c; split; [exact Hc | reflexivity]|].
    all: repeat split; try assumption; try (date_is_iso).
    all: eexists; (split; [|reflexivity]); eexists; (split; [apply unit_float_is_unit | reflexivity]).
Qed.

Lemma wp_account_count total customers ratio (Q : Z -> Rng -> Prop) r :
  (total = true -> account_count customers ratio <> None) ->
  (forall count, account_count customers ratio = Some count -> Q count r) ->
  wp total (product <- int_times_float (len customers) ratio ;; int_of_float product)%py Q r.
Proof.
  intros Hsome HQ. unfold int_times_float, account_count in *.
  destruct (of_int (len customers)) as [lf|].
  - apply wp_bind. apply wp_bind. apply wp_ret. apply wp_ret.
    unfold int_of_float.
    destruct (mul lf ratio) as [| b | b v] eqn:E.
    + unfold wp, raise. destruct total; [exfalso; apply Hsome; reflexivity | reflexivity].
    + unfold wp, raise. destruct total; [exfalso; apply Hsome; reflexivity | reflexivity].
    + apply wp_ret. apply HQ. reflexivity.
  - unfold wp. simpl. destruct total; [exfalso; apply Hsome; reflexivity | reflexivity].
Qed.

Lemma bind_assoc_run {A B C : Type} (m : M A) (f : A -> M B) (g : B -> M C) r :
  bind (bind m f) g r = bind m (fun a => bind (f a) g) r.
Proof. unfold bind. destruct (m r) as [[a r']|e]; reflexivity. Qed.

Lemma pure_accounts_spec total customers ratio r :
  (total = true -> account_count customers ratio <> None) ->
  wp total (Pure.generate_accounts customers ratio)
     (fun accts _ => exists count, account_count customers ratio = Some count
         /\ len accts = Z.max 0 count
         /\ indexed (pure_account_ok customers) accts) r.
Proof.
  intros Hsome. unfold Pure.generate_accounts.
  unfold wp. rewrite <- bind_assoc_run. fold (wp total
    (bind (bind (int_times_float (len customers) ratio) (fun product => int_of_float product))
          (fun count => for_each (Pure.account_body customers) (range count) []))
    (fun accts _ => exists count, account_count customers ratio = Some count
         /\ len accts = Z.max 0 count
         /\ indexed (pure_account_ok customers) accts) r).
  apply wp_bind. apply wp_account_count; [exact Hsome|]. intros count Hcount.
  eapply wp_conseq.
  - apply (wp_range_append total _ (pure_account_ok customers)).
    intros i accts r' Hi _. apply pure_account_body_spec.
    intros _ ->. apply account_count_empty in Hcount. lia.
  - intros accts _ [Hlen Hidx]. exists count. tauto.
Qed.

Lemma defect_accounts_spec total customers ratio r :
  (total = true -> account_count customers ratio <> None) ->
  wp total (Sampledata.generate_accounts customers ratio)
     (fun accts _ => exists count, account_count customers ratio = Some count
         /\ len accts = Z.max 0 count
         /\ indexed (defect_account_ok customers) accts) r.
Proof.
  intros Hsome. unfold Sampledata.generate_accounts.
  unfold wp. rewrite <- bind_assoc_run. fold (wp total
    (bind (bind (int_times_float (len customers) ratio) (fun product => int_of_float product))
          (fun count => for_each (Sampledata.account_body customers) (range count) []))
    (fun accts _ => exists count, account_count customers ratio = Some count
         /\ len accts = Z.max 0 count
         /\ indexed (defect_account_ok customers) accts) r).
  apply wp_bind. apply wp_account_count; [exact Hsome|]. intros count Hcount.
  eapply wp_conseq.
  - apply (wp_range_append total _ (defect_account_ok customers)).
    intros i accts r' Hi _. apply defect_account_body_spec.
    intros _ ->. apply account_count_empty in Hcount. lia.
  - intros accts _ [Hlen Hidx]. exists count. tauto.
Qed.

(** ** Transactions *)

Definition inherits (accounts : list Account.t) (t : Transaction.t) : Prop :=
  exists a, In a accounts
    /\ Transaction.account_id t = Account.account_id a
    /\ Transaction.currency t = Account.currency a.

Definition is_amount_text (s : string) : Prop :=
  exists a, is_amount_draw a /\ s = format_f 2 a.


Definition transaction_fields_ok (t : Transaction.t) : Prop :=
  In (Transaction.transaction_type t) Pure.TRANSACTION_TYPES
  /\ is_amount_text (Transaction.amount t)
  /\ is_iso_date (Transaction.transaction_date t) = true
  /\ (exists d1 d2, In d1 Pure.TRANSACTION_TYPES /\ In d2 Pure.CHANNELS
        /\ Transaction.description t = (d1 ++ " - " ++ d2)%string)
  /\ In (Transaction.status t) Pure.TRANSACTION_STATUSES.

Definition pure_transaction_ok (accounts : list Account.t) (i : Z)
  (t : Transaction.t) : Prop :=
  Transaction.transaction_id t = ("TXN" ++ zfill 10 (str (i + 1)))%string
  /\ inherits accounts t
  /\ transaction_fields_ok t.

Definition defect_transaction_ok (accounts : list Account.t) (i : Z)
  (t : Transaction.t) : Prop :=
  (Transaction.transaction_id t = ("TXN" ++ zfill 10 (str (i + 1)))%string
   \/ Transaction.transaction_id t = "")
  /\ inherits accounts t
  /\ transaction_fields_ok t.

Lemma pure_transaction_body_spec total accounts i txs r :
  (total = true -> accounts <> []) ->
  wp total (Pure.transaction_body accounts i txs)
     (fun txs' _ => exists t, txs' = (txs ++ [t])%list
                      /\ pure_transaction_ok accounts i t) r.
Proof.
  intros Hne. unfold Pure.transaction_body, Pure.generate_date.
  apply wp_bind. apply wp_choice; [exact Hne | intros a Ha].
  repeat wp_step side_total.
  eexists. split; [reflexivity|].
  unfold pure_transaction_ok, transaction_fields_ok, inherits. unfold_fields.
  repeat split; try assumption.
  - exists a. split; [exact Ha | split; reflexivity].
  - eexists. split; [|reflexivity]. eexists. split; [apply unit_float_is_unit | reflexivity].
  - date_is_iso.
  - do 2 eexists. split; [eassumption | split; [eassumption | reflexivity]].
Qed.

Lemma defect_transaction_body_spec total accounts i txs r :
  (total = true -> accounts <> []) ->
  wp total (Sampledata.transaction_body accounts i txs)
     (fun txs' _ => exists t, txs' = (txs ++ [t])%list
                      /\ defect_transaction_ok accounts i t) r.
Proof.
  intros Hne. unfold Sampledata.transaction_body, Sampledata.generate_date.
  apply wp_bind. apply wp_choice; [exact Hne | intros a Ha].
  repeat wp_step side_total.
  eexists. split; [reflexivity|].
  unfold defect_transaction_ok, transaction_fields_ok, inherits. unfold_fields.
  split; [match goal with |- context [if ?b then _ else _] => destruct b end; tauto|].
  repeat split; try assumption.
  - exists a. split; [exact Ha | split; reflexivity].
  - eexists. split; [|reflexivity]. eexists. split; [apply unit_float_is_unit | reflexivity].
  - date_is_iso.
  - do 2 eexists. split; [eassumption | split; [eassumption | reflexivity]].
Qed.

Lemma product_pos_nonempty {A : Type} (xs : list A) k i :
  0 <= i < len xs * k -> xs <> [].
Proof. intros H ->. change (len []) with 0 in H. lia. Qed.

Lemma pure_transactions_spec total accounts tpa r :
  wp total (Pure.generate_transactions accounts tpa)
     (fun txs _ => len txs = Z.max 0 (len accounts * tpa)
                   /\ indexed (pure_transaction_ok accounts) txs) r.
Proof.
  unfold Pure.generate_transactions. cbv zeta. apply wp_range_append.
  intros i txs r' Hi _. apply pure_transaction_body_spec.
  intros _. eapply product_pos_nonempty. exact Hi.
Qed.

Lemma defect_transactions_spec total accounts tpa r :
  wp total (Sampledata.generate_transactions accounts tpa)
     (fun txs _ => len txs = Z.max 0 (len accounts * tpa)
                   /\ indexed (defect_transaction_ok accounts) txs) r.
Proof.
  unfold Sampledata.generate_transactions. cbv zeta. apply wp_range_append.
  intros i txs r' Hi _. apply defect_transaction_body_spec.
  intros _. eapply product_pos_nonempty. exact Hi.
Qed.

(** ** The defect variant: customers *)

Definition defect_customer_ok (i : Z) (c : Customer.t) : Prop :=
  (Customer.customer_id c = ("CUST" ++ zfill 6 (str (i + 1)))%string
   \/ Customer.customer_id c = "")
  /\ (In (Customer.first_name c) Sampledata.FIRST_NAMES \/ Customer.first_name c = "")
  /\ (In (Customer.last_name c) Sampledata.LAST_NAMES \/ Customer.last_name c = "")
  /\ (exists f l, In f Sampledata.FIRST_NAMES /\ In l Sampledata.LAST_NAMES
        /\ (In (Customer.email c) (Sampledata.bad_emails f l)
            \/ exists d, In d Sampledata.EMAIL_DOMAINS
                 /\ Customer.email c = Sampledata.good_email f l d))
  /\ (In (Customer.phone c) Sampledata.bad_phones \/ is_phone (Customer.phone c) = true)
  /\ (In (Customer.date_of_birth c) Sampledata.bad_dates
      \/ is_iso_date (Customer.date_of_birth c) = true)
  /\ (In (Customer.country c) Sampledata.COUNTRIES \/ Customer.country c = "")
  /\ In (Customer.kyc_status c) Sampledata.KYC_STATUSES
  /\ is_iso_date (Customer.created_date c) = true
  /\ Customer.last_updated c = "2026-01-22".

Definition defect_email_ok (f l s : string) : Prop :=
  In s (Sampledata.bad_emails f l)
  \/ exists d, In d Sampledata.EMAIL_DOMAINS /\ s = Sampledata.good_email f l d.

Lemma defect_email_spec f l add_issue r :
  wp true (Sampledata.generate_email f l add_issue)
     (fun s _ => defect_email_ok f l s) r.
Proof.
  unfold Sampledata.generate_email. destruct add_issue; repeat wp_step side_total.
  - left. assumption.
  - right. eexists. split; [eassumption | reflexivity].
  - right. eexists. split; [eassumption | reflexivity].
Qed.

Definition defect_phone_ok (s : string) : Prop :=
  In s Sampledata.bad_phones \/ is_phone s = true.

Lemma defect_phone_spec add_issue r :
  wp true (Sampledata.generate_phone add_issue) (fun s _ => defect_phone_ok s) r.
Proof.
  unfold Sampledata.generate_phone. destruct add_issue; repeat wp_step side_total.
  - left. assumption.
  - right. apply is_phone_good; assumption.
  - right. apply is_phone_good; assumption.
Qed.

Definition defect_date_ok (s : string) : Prop :=
  In s Sampledata.bad_dates \/ is_iso_date s = true.

Lemma defect_birth_date_spec add_issue r :
  wp true (Sampledata.generate_date (mk_datetime 1970 1 1) (365 * 40) add_issue)
     (fun s _ => defect_date_ok s) r.
Proof.
  unfold Sampledata.generate_date. destruct add_issue; repeat wp_step side_total.
  - left. assumption.
  - right. date_is_iso.
  - right. date_is_iso.
Qed.

Lemma if_text_or (b : bool) (x : string) :
  (if b then x else "") = x \/ (if b then x else "") = "".
Proof. destruct b; [left | right]; reflexivity. Qed.

Lemma if_text_in (b : bool) (x : string) (pool : list string) :
  In x pool -> In (if b then x else "") pool \/ (if b then x else "") = "".
Proof. intros H. destruct b; [left; exact H | right; reflexivity]. Qed.

Lemma defect_customer_body_spec i cs r :
  wp true (Sampledata.customer_body i cs)
     (fun cs' _ => exists c, cs' = (cs ++ [c])%list /\ defect_customer_ok i c) r.
Proof.
  unfold Sampledata.customer_body.
  apply wp_bind. apply wp_choice; [side_total | intros f Hf].
  apply wp_bind. apply wp_choice; [side_total | intros l Hl].
  do 4 (apply wp_bind; apply wp_random).
  apply wp_bind. eapply wp_conseq; [apply defect_email_spec | intros email ? Hemail].
  apply wp_bind. eapply wp_conseq; [apply defect_phone_spec | intros phone ? Hphone].
  apply wp_bind. eapply wp_conseq; [apply defect_birth_date_spec | intros dob ? Hdob].
  apply wp_bind. apply wp_random. apply wp_bind.
  apply (wp_conseq true _ (fun s _ => In s Sampledata.COUNTRIES \/ s = "")).
  { match goal with |- wp _ (if ?b then _ else _) _ _ => destruct b end.
    - apply wp_choice; [side_total | intros x Hx; left; exact Hx].
    - apply wp_ret. right. reflexivity. }
  intros country ? Hc.
  unfold Sampledata.generate_date. repeat wp_step side_total.
  eexists. split; [reflexivity|]. unfold defect_customer_ok. unfold_fields.
  split; [apply if_text_or|].
  split; [apply if_text_in; exact Hf|].
  split; [apply if_text_in; exact Hl|].
  split; [exists f, l; split; [exact Hf | split; [exact Hl | exact Hemail]]|].
  split; [exact Hphone|].
  split; [exact Hdob|].
  split; [exact Hc|].
  split; [assumption|].
  split; [date_is_iso | reflexivity].
Qed.

Lemma defect_customers_spec count r :
  wp true (Sampledata.generate_customers count)
     (fun cs _ => len cs = Z.max 0 count /\ indexed defect_customer_ok cs) r.
Proof.
  unfold Sampledata.generate_customers. apply wp_range_append.
  intros i cs r' _ _. apply defect_customer_body_spec.
Qed.

(** ** Daily balances *)

(** [random.uniform(-1000, 1000)] computed from the draw [d]. *)
Definition daily_change (d : Z) : pyfloat :=
  add (opp (lit 1000 0)) (mul (sub (lit 1000 0) (opp (lit 1000 0))) (unit_float d)).

Lemma daily_change_is_delta d : is_delta (daily_change d).
Proof. exists (unit_float d). split; [apply unit_float_is_unit | reflexivity]. Qed.

(** The record of day [k] of an account whose running balance is [base]
    and whose change that day is [delta]. *)
Definition balance_record_ok (a : Account.t) (k : Z) (base delta : pyfloat)
  (b : DailyBalance.t) : Prop :=
  DailyBalance.account_id b = Account.account_id a
  /\ DailyBalance.currency b = Account.currency a
  /\ (exists date, add_days Sampledata.TODAY (- k) = Some date
        /\ DailyBalance.balance_date b = strftime date)
  /\ DailyBalance.opening_balance b = format_f 2 base
  /\ DailyBalance.closing_balance b = format_f 2 (add base delta).

(** [walk ds a p k base g final]: the records [g] are those of days [k],
    [k+1], ... of account [a]; the change of each day is computed from
    the draws [ds p], [ds (p+1)], ..., one per record, and the running
    balance goes from [base] to [final]. *)
Inductive walk (ds : nat -> Z) (a : Account.t)
  : nat -> Z -> pyfloat -> list DailyBalance.t -> pyfloat -> Prop :=
| walk_nil p k base : walk ds a p k base [] base
| walk_cons p k base b rest final :
    balance_record_ok a k base (daily_change (ds p)) b ->
    walk ds a (S p) (k + 1) (add base (daily_change (ds p))) rest final ->
    walk ds a p k base (b :: rest) final.

(** The balances of a list of accounts: one walk of [days] records per
    account, in the order of the accounts, the draws taken one after the
    other from position [p] on. *)
Inductive series (ds : nat -> Z) (days : Z)
  : nat -> list Account.t -> list DailyBalance.t -> Prop :=
| series_nil p : series ds days p [] []
| series_cons p a rest g bs base final :
    float_of_string (Account.balance a) = Some base ->
    walk ds a p 0 base g final ->
    len g = Z.max 0 days ->
    series ds days (p + List.length g) rest bs ->
    series ds days p (a :: rest) (g ++ bs)%list.

Definition balance_id_ok (p : Z) (b : DailyBalance.t) : Prop :=
  DailyBalance.balance_id b = ("BAL" ++ zfill 10 (str (p + 1)))%string.

Lemma walk_snoc ds a p k base g final :
  walk ds a p k base g final ->
  forall b,
    balance_record_ok a (k + len g) final (daily_change (ds (p + List.length g)%nat)) b ->
    walk ds a p k base (g ++ [b])%list
         (add final (daily_change (ds (p + List.length g)%nat))).
Proof.
  induction 1 as [p k base | p k base b0 rest final Hb0 Hw IH]; intros b Hb.
  - change (len []) with 0 in Hb. rewrite Z.add_0_r in Hb.
    cbn [List.length] in *. rewrite Nat.add_0_r in *.
    simpl. eapply walk_cons; [exact Hb | apply walk_nil].
  - simpl. eapply walk_cons; [exact Hb0|].
    cbn [List.length] in *.
    replace (p + S (List.length rest))%nat with (S p + List.length rest)%nat in * by lia.
    apply IH.
    replace (k + 1 + len rest) with (k + len (b0 :: rest)); [exact Hb|].
    unfold len. cbn [List.length]. lia.
Qed.

Lemma series_snoc ds days p done bs :
  series ds days p done bs ->
  forall a g base final,
    float_of_string (Account.balance a) = Some base ->
    walk ds a (p + List.length bs) 0 base g final -> len g = Z.max 0 days ->
    series ds days p (done ++ [a])%list (bs ++ g)%list.
Proof.
  induction 1 as [p | p a0 rest g0 bs0 base0 final0 Hf0 Hw0 Hl0 Hs IH];
    intros a g base final Hf Hw Hl.
  - simpl in *. rewrite Nat.add_0_r in Hw. rewrite <- (app_nil_r g).
    eapply series_cons; [exact Hf | exact Hw | exact Hl | apply series_nil].
  - simpl. rewrite <- app_assoc. eapply series_cons; [exact Hf0 | exact Hw0 | exact Hl0 |].
    eapply IH; [exact Hf | | exact Hl].
    rewrite length_app in Hw.
    replace (p + List.length g0 + List.length bs0)%nat
      with (p + (List.length g0 + List.length bs0))%nat by lia.
    exact Hw.
Qed.

Lemma toordinal_TODAY_pure : toordinal Pure.TODAY = 739638.
Proof. reflexivity. Qed.

(** The state of the generator after [n] draws from [r]. *)
Definition after (n : nat) (r r' : Rng) : Prop :=
  draws r' = draws r /\ pos r' = (pos r + n)%nat.

Lemma after_advance n r r' : after n r r' -> after (S n) r (advance r').
Proof. intros [Hd Hp]. split; [exact Hd | simpl; rewrite Hp; lia]. Qed.

Lemma balance_body_spec total a days before base0 day st r0 r :
  (total = true -> days <= 739638) ->
  0 <= day < days ->
  (exists g, fst st = (before ++ g)%list
             /\ walk (draws r0) a (pos r0) 0 base0 g (snd st)
             /\ len g = day /\ indexed balance_id_ok (fst st)
             /\ after (List.length g) r0 r) ->
  wp total (Sampledata.balance_body a day st)
     (fun st' r' => exists g, fst st' = (before ++ g)%list
                    /\ walk (draws r0) a (pos r0) 0 base0 g (snd st')
                    /\ len g = day + 1 /\ indexed balance_id_ok (fst st')
                    /\ after (List.length g) r0 r') r.
Proof.
  intros Hdays Hday [g [Hbs [Hw [Hlen [Hids Hr]]]]].
  destruct st as [balances base]. cbn [fst snd] in *.
  unfold Sampledata.balance_body.
  apply wp_bind. apply wp_lift_option.
  { intros Ht. specialize (Hdays Ht). rewrite add_days_some; [intro H; discriminate H|].
    rewrite toordinal_TODAY. unfold MAXORDINAL. lia. }
  intros date Hdate. apply wp_bind. apply wp_uniform. apply wp_ret.
  cbn [fst snd].
  destruct Hr as [Hd Hp].
  assert (Ed : add (opp (lit 1000 0)) (mul (sub (lit 1000 0) (opp (lit 1000 0)))
                  (unit_float (draws r (pos r))))
               = daily_change (draws r0 (pos r0 + List.length g)%nat))
    by (rewrite Hd, Hp; reflexivity).
  rewrite Ed.
  exists (g ++ [DailyBalance.mk ("BAL" ++ zfill 10 (str (len balances + 1)))
                  (Account.account_id a) (strftime date) (format_f 2 base)
                  (format_f 2 (add base
                     (daily_change (draws r0 (pos r0 + List.length g)%nat))))
                  (Account.currency a)])%list.
  split; [rewrite Hbs, app_assoc; reflexivity|].
  split.
  - apply walk_snoc; [exact Hw|].
    unfold balance_record_ok. unfold_fields. rewrite Hlen.
    repeat split. exists date. split; [exact Hdate | reflexivity].
  - split; [rewrite len_app; change (len [_]) with 1; lia|].
    split; [apply indexed_snoc; [exact Hids | reflexivity]|].
    rewrite length_app. cbn [List.length].
    split; [exact Hd | simpl; rewrite Hp; lia].
Qed.

Lemma account_balances_spec total days a before r :
  (total = true -> days <= 739638 /\ float_of_string (Account.balance a) <> None) ->
  indexed balance_id_ok before ->
  wp total (Sampledata.account_balances days a before)
     (fun bs r' => exists g base final,
          bs = (before ++ g)%list
          /\ float_of_string (Account.balance a) = Some base
          /\ walk (draws r) a (pos r) 0 base g final /\ len g = Z.max 0 days
          /\ indexed balance_id_ok bs
          /\ after (List.length g) r r') r.
Proof.
  intros Htot Hids. unfold Sampledata.account_balances.
  apply wp_bind. apply wp_lift_option; [intros Ht; apply (Htot Ht)|].
  intros base0 Hbase. apply wp_bind.
  pose (Inv := fun (rem : list Z) (st : list DailyBalance.t * pyfloat) (r' : Rng) =>
    exists g, fst st = (before ++ g)%list
      /\ walk (draws r) a (pos r) 0 base0 g (snd st)
      /\ rem = range_from (len g) (List.length rem)
      /\ len g + Z.of_nat (List.length rem) = Z.max 0 days
      /\ indexed balance_id_ok (fst st)
      /\ after (List.length g) r r').
  eapply wp_conseq.
  - apply (wp_for_each_rng total (Sampledata.balance_body a) Inv).
    + intros day rem st r' [g [Hbs [Hw [Hrem [Hlen [Hi Hr]]]]]].
      cbn [List.length range_from] in Hrem. injection Hrem as Hday Hrem'.
      cbn [List.length] in Hlen.
      eapply wp_conseq.
      * apply (balance_body_spec total a days before base0 day st r r').
        -- intros Ht. apply (Htot Ht).
        -- unfold len in *. lia.
        -- exists g. repeat split; try assumption; try apply Hr. symmetry. exact Hday.
      * intros st' r'' [g' [Hbs' [Hw' [Hlen' [Hi' Hr']]]]]. exists g'.
        split; [exact Hbs'|]. split; [exact Hw'|].
        split; [rewrite Hlen', Hday; exact Hrem'|].
        split; [lia|]. split; [exact Hi' | exact Hr'].
    + exists []. cbn [fst snd]. rewrite app_nil_r. unfold range. rewrite length_range_from.
      change (len []) with 0.
      split; [reflexivity|]. split; [apply walk_nil|]. split; [reflexivity|].
      split; [lia|]. split; [exact Hids|].
      split; [reflexivity | simpl; lia].
  - intros st r' [g [Hbs [Hw [_ [Hlen [Hi Hr]]]]]]. apply wp_ret.
    exists g, base0, (snd st). cbn [List.length] in Hlen.
    split; [exact Hbs|]. split; [exact Hbase|]. split; [exact Hw|].
    split; [lia|]. split; [exact Hi | exact Hr].
Qed.

Lemma walk_draws ds ds' a p k base g final :
  ds' = ds -> walk ds a p k base g final -> walk ds' a p k base g final.
Proof. intros ->. exact (fun H => H). Qed.

Lemma defect_daily_balances_spec total accounts days r :
  (total = true ->
     Forall (fun a => float_of_string (Account.balance a) <> None) accounts
     /\ (accounts = [] \/ days <= 739638)) ->
  wp total (Sampledata.generate_daily_balances accounts days)
     (fun bs r' => series (draws r) days (pos r) accounts bs
                   /\ indexed balance_id_ok bs
                   /\ after (List.length bs) r r') r.
Proof.
  intros Htot. unfold Sampledata.generate_daily_balances.
  pose (Inv := fun (rem : list Account.t) (bs : list DailyBalance.t) (r' : Rng) =>
    exists done, accounts = (done ++ rem)%list
      /\ series (draws r) days (pos r) done bs
      /\ indexed balance_id_ok bs
      /\ after (List.length bs) r r').
  eapply wp_conseq.
  - apply (wp_for_each_rng total (Sampledata.account_balances days) Inv).
    + intros a rem bs r' [done [Hacc [Hs [Hi Hr]]]].
      eapply wp_conseq.
      * apply (account_balances_spec total days a bs r'); [|exact Hi].
        intros Ht. destruct (Htot Ht) as [Hall Hd].
        split.
        -- destruct Hd as [Hd|Hd]; [|exact Hd]. rewrite Hd in Hacc.
           destruct done; discriminate Hacc.
        -- rewrite Forall_forall in Hall. apply Hall. rewrite Hacc.
           apply in_or_app. right. left. reflexivity.
      * intros bs' r'' [g [base [final [-> [Hf [Hw [Hl [Hi' Hr']]]]]]]].
        destruct Hr as [Hd Hp]. destruct Hr' as [Hd' Hp'].
        rewrite Hd, Hp in Hw.
        exists (done ++ [a])%list. split; [rewrite <- app_assoc; exact Hacc|].
        split; [eapply series_snoc; eassumption|].
        split; [exact Hi'|].
        rewrite length_app.
        split; [rewrite Hd'; exact Hd | rewrite Hp', Hp; lia].
    + exists []. split; [reflexivity|]. split; [apply series_nil|].
      split; [apply indexed_nil|]. split; [reflexivity | simpl; lia].
  - intros bs r' [done [Hacc [Hs [Hi Hr]]]]. rewrite app_nil_r in Hacc. subst done.
    split; [exact Hs|]. split; [exact Hi | exact Hr].
Qed.

Lemma daily_balances_agree accounts days r :
  Pure.generate_daily_balances accounts days r
  = Sampledata.generate_daily_balances accounts days r.
Proof. reflexivity. Qed.

Lemma pure_daily_balances_spec total accounts days r :
  (total = true ->
     Forall (fun a => float_of_string (Account.balance a) <> None) accounts
     /\ (accounts = [] \/ days <= 739638)) ->
  wp total (Pure.generate_daily_balances accounts days)
     (fun bs r' => series (draws r) days (pos r) accounts bs
                   /\ indexed balance_id_ok bs
                   /\ after (List.length bs) r r') r.
Proof.
  intros Htot. unfold wp. rewrite daily_balances_agree.
  apply (defect_daily_balances_spec total accounts days r Htot).
Qed.

(** ** FX rates *)

(** A rate drawn as [base_rate * random.uniform(0.95, 1.05)]. *)
Definition is_rate_draw (base_rate rate : pyfloat) : Prop :=
  exists x, is_unit x
    /\ rate = mul base_rate (add (lit 95 2) (mul (sub (lit 105 2) (lit 95 2)) x)).

Lemma rate_draw_le base_rate rate :
  In base_rate (map snd Sampledata.base_rates) -> is_rate_draw base_rate rate ->
  mag_le rate (12 * W).
Proof.
  intros Hin [x [Hx ->]].
  assert (H95 : mag_le (lit 95 2) (1 * W)) by (apply lit_frac_le; [lia | simpl; lia | split; [lia | reflexivity]]).
  assert (H105 : mag_le (lit 105 2) (2 * W)) by (apply lit_frac_le; [lia | simpl; lia | split; [lia | reflexivity]]).
  assert (Hv : mag_le (add (lit 95 2) (mul (sub (lit 105 2) (lit 95 2)) x)) (4 * W)).
  { apply (add_le _ _ 1 3); [split; [lia | reflexivity] | exact H95 |].
    apply mul_unit_le; [split; [lia | reflexivity] | | exact Hx].
    unfold sub. apply (add_le _ _ 2 1); [split; [lia | reflexivity] | exact H105 | apply opp_le; exact H95]. }
  assert (Hb : mag_le base_rate (3 * W)).
  { simpl in Hin.
    repeat (destruct Hin as [<-|Hin]; [apply lit_frac_le; [lia | simpl; lia | split; [lia | reflexivity]]|]).
    destruct Hin. }
  apply (mul_le _ _ 3 4); [lia | lia | reflexivity | exact Hb | exact Hv].
Qed.

(** The shape of a rate record; [dated] is what is known of the text of
    its date. *)
Definition pure_fx_ok (dated : string -> Prop) (p : Z) (x : FxRate.t) : Prop :=
  FxRate.rate_id x = ("FX" ++ zfill 8 (str (p + 1)))%string
  /\ FxRate.from_currency x = "USD"
  /\ In (FxRate.to_currency x) (map fst Sampledata.base_rates)
  /\ is_decimal 6 (FxRate.exchange_rate x) = true
  /\ dated (FxRate.rate_date x)
  /\ In (FxRate.source x) Sampledata.RATE_SOURCES.

Definition defect_fx_ok (dated : string -> Prop) (p : Z) (x : FxRate.t) : Prop :=
  FxRate.rate_id x = ("FX" ++ zfill 8 (str (p + 1)))%string
  /\ FxRate.from_currency x = "USD"
  /\ In (FxRate.to_currency x) (map fst Sampledata.base_rates)
  /\ (In (FxRate.exchange_rate x) Sampledata.bad_rates
      \/ is_decimal 6 (FxRate.exchange_rate x) = true)
  /\ dated (FxRate.rate_date x)
  /\ In (FxRate.source x) Sampledata.RATE_SOURCES.

(** Text of the form [YYYY-MM-DD]; any text. *)
Definition iso (s : string) : Prop := is_iso_date s = true.
Definition any_text (s : string) : Prop := True.

Lemma rate_text_decimal base_rate x :
  In base_rate (map snd Sampledata.base_rates) ->
  is_decimal 6
    (format_f 6 (mul base_rate
       (add (lit 95 2) (mul (sub (lit 105 2) (lit 95 2)) (unit_float x))))) = true.
Proof.
  intros Hin. eapply mag_le_is_decimal; [lia|].
  apply (rate_draw_le base_rate); [exact Hin|].
  eexists. split; [apply unit_float_is_unit | reflexivity].
Qed.

Lemma defect_fx_body_spec dated date entry rates r :
  In entry Sampledata.base_rates ->
  dated (strftime date) ->
  wp true (Sampledata.fx_body date entry rates)
     (fun rates' _ => exists x, rates' = (rates ++ [x])%list
                        /\ defect_fx_ok dated (len rates) x) r.
Proof.
  intros Hin Hdate. destruct entry as [currency base_rate].
  unfold Sampledata.fx_body.
  apply wp_bind. apply wp_uniform. apply wp_bind. apply wp_random. apply wp_bind.
  apply (wp_conseq true _ (fun s _ => In s Sampledata.bad_rates \/ is_decimal 6 s = true)).
  { match goal with |- wp _ (if ?b then _ else _) _ _ => destruct b end.
    - apply wp_ret. right. apply rate_text_decimal.
      apply (in_map snd) in Hin. exact Hin.
    - apply wp_choice; [side_total | intros s Hs; left; exact Hs]. }
  intros rate ? Hrate. apply wp_bind. apply wp_choice; [side_total | intros src Hsrc].
  apply wp_ret. eexists. split; [reflexivity|].
  unfold defect_fx_ok. unfold_fields.
  split; [reflexivity|]. split; [reflexivity|].
  split; [apply (in_map fst) in Hin; exact Hin|].
  split; [exact Hrate|]. split; [exact Hdate | exact Hsrc].
Qed.

Lemma pure_fx_body_spec dated date entry rates r :
  In entry Sampledata.base_rates ->
  dated (strftime date) ->
  wp true (Pure.fx_body date entry rates)
     (fun rates' _ => exists x, rates' = (rates ++ [x])%list
                        /\ pure_fx_ok dated (len rates) x) r.
Proof.
  intros Hin Hdate. destruct entry as [currency base_rate].
  unfold Pure.fx_body.
  apply wp_bind. apply wp_uniform. apply wp_bind. apply wp_choice; [side_total | intros src Hsrc].
  apply wp_ret. eexists. split; [reflexivity|].
  unfold pure_fx_ok. unfold_fields.
  split; [reflexivity|]. split; [reflexivity|].
  split; [apply (in_map fst) in Hin; exact Hin|].
  split; [apply rate_text_decimal; apply (in_map snd) in Hin; exact Hin|].
  split; [exact Hdate | exact Hsrc].
Qed.

(** One day of rates: a record per quote currency, appended in order. *)
Lemma wp_fx_entries {S : Type} (body : string * pyfloat -> list S -> M (list S))
  (P : Z -> S -> Prop) rates r :
  (forall entry rs r', In entry Sampledata.base_rates ->
     wp true (body entry rs) (fun rs' _ => exists x, rs' = (rs ++ [x])%list /\ P (len rs) x) r') ->
  indexed P rates ->
  wp true (for_each body Sampledata.base_rates rates)
     (fun rates' _ => len rates' = len rates + 7 /\ indexed P rates') r.
Proof.
  intros Hbody Hidx.
  pose (Inv := fun (rem : list (string * pyfloat)) (rs : list S) =>
    (forall e, In e rem -> In e Sampledata.base_rates)
    /\ len rs + len rem = len rates + 7 /\ indexed P rs).
  eapply wp_conseq.
  - apply (wp_for_each true body Inv).
    + intros e rem rs r' [Hsub [Hlen Hi]].
      eapply wp_conseq; [apply Hbody; apply Hsub; left; reflexivity|].
      intros rs' _ [x [-> Hx]]. split; [intros e' He'; apply Hsub; right; exact He'|].
      split; [rewrite len_app; change (len [x]) with 1; unfold len in *; cbn [List.length] in Hlen; lia|].
      apply indexed_snoc; assumption.
    + split; [intros e He; exact He|]. split; [reflexivity | exact Hidx].
  - intros rs _ [_ [Hlen Hi]]. change (len []) with 0 in Hlen. split; [lia | exact Hi].
Qed.

Lemma wp_fx_days {S : Type} (day_body : Z -> list S -> M (list S))
  (P : Z -> S -> Prop) days r :
  (forall day rs r', 0 <= day < days -> indexed P rs ->
     wp true (day_body day rs)
        (fun rs' _ => len rs' = len rs + 7 /\ indexed P rs') r') ->
  wp true (for_each day_body (range days) [])
     (fun rates _ => len rates = 7 * Z.max 0 days /\ indexed P rates) r.
Proof.
  intros Hbody.
  pose (Inv := fun (rem : list Z) (rs : list S) =>
    (forall d, In d rem -> 0 <= d < days)
    /\ len rs + 7 * len rem = 7 * Z.max 0 days /\ indexed P rs).
  eapply wp_conseq.
  - apply (wp_for_each true day_body Inv).
    + intros d rem rs r' [Hsub [Hlen Hi]].
      eapply wp_conseq; [apply Hbody; [apply Hsub; left; reflexivity | exact Hi]|].
      intros rs' _ [Hl' Hi']. split; [intros d' Hd'; apply Hsub; right; exact Hd'|].
      split; [unfold len in *; cbn [List.length] in Hlen; lia | exact Hi'].
    + split; [|split; [|apply indexed_nil]].
      * intros d Hd. unfold range in Hd. apply In_range_from in Hd. lia.
      * unfold range, len. rewrite length_range_from. cbn [List.length]. lia.
  - intros rs _ [_ [Hlen Hi]]. change (len []) with 0 in Hlen. split; [lia | exact Hi].
Qed.

Lemma fx_date_some day days :
  0 <= day < days -> days <= 739638 ->
  add_days Sampledata.TODAY (- day)
  = Some (fromordinal (toordinal Sampledata.TODAY + - day)).
Proof.
  intros Hday Hdays.
  apply add_days_some. rewrite toordinal_TODAY. unfold MAXORDINAL. lia.
Qed.

(** Up to 374760 days back from TODAY the year has four digits. *)
Lemma recent_date_iso day date :
  0 <= day <= 374760 -> add_days Sampledata.TODAY (- day) = Some date ->
  iso (strftime date).
Proof.
  intros Hday H.
  apply (add_days_iso Sampledata.TODAY (- day) date 739638 (- day) (- day) H);
    [apply toordinal_TODAY | lia | lia].
Qed.

Lemma defect_fx_rates_spec dated days r :
  days <= 739638 ->
  (forall day date, 0 <= day < days ->
     add_days Sampledata.TODAY (- day) = Some date -> dated (strftime date)) ->
  wp true (Sampledata.generate_fx_rates days)
     (fun rates _ => len rates = 7 * Z.max 0 days
                     /\ indexed (defect_fx_ok dated) rates) r.
Proof.
  intros Hdays Hdated. unfold Sampledata.generate_fx_rates. apply wp_fx_days.
  intros day rs r' Hday Hi. unfold Sampledata.fx_day.
  pose proof (fx_date_some day days Hday Hdays) as Hd.
  rewrite Hd. apply wp_bind. apply wp_ret.
  apply wp_fx_entries; [|exact Hi].
  intros entry rs' r'' Hin. apply defect_fx_body_spec; [exact Hin|].
  apply (Hdated day _ Hday Hd).
Qed.

Lemma pure_fx_rates_spec dated days r :
  days <= 739638 ->
  (forall day date, 0 <= day < days ->
     add_days Sampledata.TODAY (- day) = Some date -> dated (strftime date)) ->
  wp true (Pure.generate_fx_rates days)
     (fun rates _ => len rates = 7 * Z.max 0 days
                     /\ indexed (pure_fx_ok dated) rates) r.
Proof.
  intros Hdays Hdated. unfold Pure.generate_fx_rates. apply wp_fx_days.
  intros day rs r' Hday Hi. unfold Pure.fx_day.
  pose proof (fx_date_some day days Hday Hdays) as Hd.
  change Pure.TODAY with Sampledata.TODAY. rewrite Hd. apply wp_bind. apply wp_ret.
  apply (wp_fx_entries (Pure.fx_body (fromordinal (toordinal Sampledata.TODAY + - day)))); [|exact Hi].
  intros entry rs' r'' Hin. apply pure_fx_body_spec; [exact Hin|].
  apply (Hdated day _ Hday Hd).
Qed.

Lemma any_date (days : Z) :
  forall day date, 0 <= day < days ->
    add_days Sampledata.TODAY (- day) = Some date -> any_text (strftime date).
Proof. intros. exact I. Qed.

Lemma recent_dates days :
  days <= 374761 ->
  forall day date, 0 <= day < days ->
    add_days Sampledata.TODAY (- day) = Some date -> iso (strftime date).
Proof. intros Hdays day date Hday H. apply (recent_date_iso day date); [lia | exact H]. Qed.

(** * The claims *)

(** A draw sequence and two accounts used in the examples. *)
Definition sample_rng : Rng := mk_rng (fun n => Z.of_nat n * 2654435761 + 12345) 0.

Definition sample_accounts : list Account.t :=
  [Account.mk "ACC00000001" "CUST000001" "SAVINGS" "1500.25" "EUR" "ACTIVE"
     "2025-03-01" "2026-01-10";
   Account.mk "ACC00000002" "CUST000001" "LOAN" "20.00" "JPY" "CLOSED"
     "2024-11-30" "2026-01-02"].

(** C7. Every transaction of [generate_transactions], in either script,
    carries the account_id and the currency of one and the same record of
    the supplied account collection. *)
Theorem transaction_inherits_account_currency :
  forall accounts transactions_per_account r transactions r',
    (Sampledata.generate_transactions accounts transactions_per_account r
       = Ok (transactions, r')
     \/ Pure.generate_transactions accounts transactions_per_account r
       = Ok (transactions, r')) ->
    forall t, In t transactions ->
      exists a, In a accounts
        /\ Transaction.account_id t = Account.account_id a
        /\ Transaction.currency t = Account.currency a.
Proof.
  intros accounts tpa r txs r' Hrun t Ht.
  assert (Hidx : Forall (inherits accounts) txs).
  { destruct Hrun as [Hrun|Hrun].
    - pose proof (wp_run _ _ _ _ _ _ (defect_transactions_spec false accounts tpa r) Hrun) as [_ Hi].
      apply (indexed_Forall _ _ _ Hi). intros k c _ Hc. apply Hc.
    - pose proof (wp_run _ _ _ _ _ _ (pure_transactions_spec false accounts tpa r) Hrun) as [_ Hi].
      apply (indexed_Forall _ _ _ Hi). intros k c _ Hc. apply Hc. }
  rewrite Forall_forall in Hidx. apply (Hidx t Ht).
Qed.

Lemma transaction_inherits_account_currency_witness :
  exists transactions r',
    Sampledata.generate_transactions sample_accounts 2 sample_rng
      = Ok (transactions, r')
    /\ forall t, In t transactions ->
         exists a, In a sample_accounts
           /\ Transaction.account_id t = Account.account_id a
           /\ Transaction.currency t = Account.currency a.
Proof.
  destruct (Sampledata.generate_transactions sample_accounts 2 sample_rng)
    as [[transactions r']|e] eqn:E.
  - exists transactions, r'. split; [reflexivity|].
    apply (transaction_inherits_account_currency sample_accounts 2 sample_rng transactions r').
    left. exact E.
  - exfalso. revert E. vm_compute. intros E. discriminate E.
Defined.

Lemma range_nonpos n : n <= 0 -> range n = [].
Proof. intros H. unfold range. destruct n; try reflexivity. lia. Qed.

Lemma account_count_empty_finite ratio :
  is_finite ratio = true -> account_count [] ratio = Some 0.
Proof.
  intros H. destruct ratio as [| |b v]; try discriminate H.
  unfold account_count. change (len []) with 0. rewrite of_int_zero, mul_zero_l.
  unfold trunc. rewrite Z.div_0_l by (pose proof W_pos; lia).
  destruct (xorb false b); reflexivity.
Qed.

Lemma accounts_of_count_zero (body : Z -> list Account.t -> M (list Account.t))
  customers ratio r :
  account_count customers ratio = Some 0 ->
  (product <- int_times_float (len customers) ratio ;;
   count <- int_of_float product ;;
   for_each body (range count) [])%py r = Ok ([], r).
Proof.
  unfold account_count, int_times_float. intros H.
  destruct (of_int (len customers)) as [lf|]; [|discriminate H].
  unfold bind, lift_option, ret.
  destruct (mul lf ratio) as [| |s u]; try discriminate H.
  unfold int_of_float, lift_option. rewrite H. reflexivity.
Qed.

(** [0 * ratio] is NaN when [ratio] is NaN or infinite, and [int] of NaN
    is a [ValueError]. *)
Lemma accounts_of_non_finite_ratio
  (body : Z -> list Account.t -> M (list Account.t)) ratio r :
  is_finite ratio = false ->
  (product <- int_times_float (len (@nil Customer.t)) ratio ;;
   count <- int_of_float product ;;
   for_each body (range count) [])%py r = Raise ValueError.
Proof.
  intros H. unfold int_times_float. change (len []) with 0. rewrite of_int_zero.
  unfold bind, lift_option, ret.
  destruct ratio as [|s|s v]; [| |discriminate H].
  - rewrite mul_nan_r. reflexivity.
  - rewrite mul_inf_r. reflexivity.
Qed.

(** C9, as stated, fails for [generate_accounts]: on an empty customer
    list a ratio that is NaN or infinite makes the product
    [0 * ratio] NaN, and [int] raises [ValueError]. *)
Lemma empty_customers_with_non_finite_ratio_raise :
  Sampledata.generate_accounts [] FNan sample_rng = Raise ValueError
  /\ Sampledata.generate_accounts [] (FInf false) sample_rng = Raise ValueError
  /\ Pure.generate_accounts [] FNan sample_rng = Raise ValueError
  /\ Pure.generate_accounts [] (FInf true) sample_rng = Raise ValueError.
Proof. repeat split. Qed.

(** C9, amended.  With a count of zero or less [generate_customers]
    returns the empty list; [generate_transactions] and
    [generate_daily_balances] return the empty list on an empty account
    list, whatever their second argument; [generate_accounts] returns
    the empty list on an empty customer list for every finite ratio.
    None of them raises or consumes a draw.  For a ratio that is NaN or
    infinite [generate_accounts] raises [ValueError] on the empty list. *)
Theorem degenerate_configuration_gives_empty_output :
  (forall count r, count <= 0 ->
     Sampledata.generate_customers count r = Ok ([], r)
     /\ Pure.generate_customers count r = Ok ([], r))
  /\ (forall ratio r, is_finite ratio = true ->
        Sampledata.generate_accounts [] ratio r = Ok ([], r)
        /\ Pure.generate_accounts [] ratio r = Ok ([], r))
  /\ (forall transactions_per_account r,
        Sampledata.generate_transactions [] transactions_per_account r = Ok ([], r)
        /\ Pure.generate_transactions [] transactions_per_account r = Ok ([], r))
  /\ (forall days r,
        Sampledata.generate_daily_balances [] days r = Ok ([], r)
        /\ Pure.generate_daily_balances [] days r = Ok ([], r))
  /\ (forall ratio r, is_finite ratio = false ->
        Sampledata.generate_accounts [] ratio r = Raise ValueError
        /\ Pure.generate_accounts [] ratio r = Raise ValueError).
Proof.
  split; [|split; [|split; [|split]]].
  - intros count r Hc. unfold Sampledata.generate_customers, Pure.generate_customers.
    rewrite (range_nonpos count Hc). split; reflexivity.
  - intros ratio r Hf. pose proof (account_count_empty_finite ratio Hf) as H.
    split; [apply (accounts_of_count_zero (Sampledata.account_body []) [] ratio r H)
           | apply (accounts_of_count_zero (Pure.account_body []) [] ratio r H)].
  - intros tpa r. split; reflexivity.
  - intros days r. split; reflexivity.
  - intros ratio r Hf.
    split; [apply (accounts_of_non_finite_ratio (Sampledata.account_body []) ratio r Hf)
           | apply (accounts_of_non_finite_ratio (Pure.account_body []) ratio r Hf)].
Qed.

Lemma degenerate_configuration_gives_empty_output_witness :
  (-5 <= 0
   /\ Sampledata.generate_customers (-5) sample_rng = Ok ([], sample_rng)
   /\ Pure.generate_customers (-5) sample_rng = Ok ([], sample_rng))
  /\ (is_finite (lit 15 1) = true
      /\ Sampledata.generate_accounts [] (lit 15 1) sample_rng = Ok ([], sample_rng)
      /\ Pure.generate_accounts [] (lit 15 1) sample_rng = Ok ([], sample_rng))
  /\ (Sampledata.generate_transactions [] 10 sample_rng = Ok ([], sample_rng)
      /\ Pure.generate_transactions [] 10 sample_rng = Ok ([], sample_rng))
  /\ (Sampledata.generate_daily_balances [] 30 sample_rng = Ok ([], sample_rng)
      /\ Pure.generate_daily_balances [] 30 sample_rng = Ok ([], sample_rng))
  /\ (is_finite (FInf false) = false
      /\ Sampledata.generate_accounts [] (FInf false) sample_rng = Raise ValueError
      /\ Pure.generate_accounts [] (FInf false) sample_rng = Raise ValueError).
Proof.
  pose proof degenerate_configuration_gives_empty_output as [Hc [Ha [Ht [Hb Hn]]]].
  assert (H1 : -5 <= 0) by lia.
  assert (H2 : is_finite (lit 15 1) = true) by (vm_compute; reflexivity).
  assert (H3 : is_finite (FInf false) = false) by reflexivity.
  split; [split; [exact H1 | apply (Hc (-5) sample_rng H1)]|].
  split; [split; [exact H2 | apply (Ha (lit 15 1) sample_rng H2)]|].
  split; [apply (Ht 10 sample_rng)|].
  split; [apply (Hb 30 sample_rng)|].
  split; [exact H3 | apply (Hn (FInf false) sample_rng H3)].
Defined.

(** The draw sequence of the example for C10: every draw is one half,
    except the draw that decides whether the first account keeps its id. *)
Definition suppressing_rng : Rng :=
  mk_rng (fun n => if Nat.eqb n 17 then 0 else 2 ^ 52) 0.

(** C10. For some outcome of the random source the defect variant
    generates an account that refers to a real customer and has an empty
    account_id, and then a transaction and a daily balance whose
    account_id is empty too. *)
Theorem suppressed_account_id_reaches_children :
  exists r customers r1 accounts r2 transactions r3 balances r4,
    Sampledata.generate_customers 1 r = Ok (customers, r1)
    /\ Sampledata.generate_accounts customers (lit 15 1) r1 = Ok (accounts, r2)
    /\ Sampledata.generate_transactions accounts 1 r2 = Ok (transactions, r3)
    /\ Sampledata.generate_daily_balances accounts 1 r3 = Ok (balances, r4)
    /\ (exists a c, In a accounts /\ In c customers
          /\ Account.account_id a = ""
          /\ Account.customer_id a = Customer.customer_id c)
    /\ (exists t, In t transactions /\ Transaction.account_id t = "")
    /\ (exists b, In b balances /\ DailyBalance.account_id b = "").
Proof.
  exists suppressing_rng. do 8 eexists.
  split; [vm_compute; reflexivity|].
  split; [vm_compute; reflexivity|].
  split; [vm_compute; reflexivity|].
  split; [vm_compute; reflexivity|].
  split; [|split].
  - do 2 eexists. split; [left; reflexivity|]. split; [left; reflexivity|].
    split; reflexivity.
  - eexists. split; [left; reflexivity | reflexivity].
  - eexists. split; [left; reflexivity | reflexivity].
Qed.

Lemma series_len ds days p accounts bs :
  series ds days p accounts bs -> len bs = len accounts * Z.max 0 days.
Proof.
  induction 1 as [p | p a rest g bs base final _ _ Hg _ IH].
  - reflexivity.
  - rewrite len_app, Hg, IH. unfold len. cbn [List.length]. lia.
Qed.

Lemma account_count_exact customers v :
  len customers < 2 ^ 53 -> 0 <= v ->
  representable (len customers * v) -> len customers * v < huge ->
  account_count customers (FFin false v) = Some (len customers * v / W).
Proof.
  intros HC Hv Hrep Hhuge. unfold account_count.
  assert (HC0 : 0 <= len customers) by (unfold len; lia).
  rewrite of_int_exact by lia. pose proof W_pos.
  assert (E : len customers * W * v / W = len customers * v).
  { replace (len customers * W * v) with (len customers * v * W) by ring.
    apply Z.div_mul. lia. }
  rewrite mul_exact; [| nia | exact Hv | | rewrite E; exact Hhuge | rewrite E; exact Hrep].
  - unfold trunc. rewrite E. reflexivity.
  - replace (len customers * W * v) with (len customers * v * W) by ring.
    apply Z.mod_mul. lia.
Qed.

Lemma lit_15_1 : lit 15 1 = FFin false (3 * 2 ^ 1073).
Proof. vm_compute. reflexivity. Qed.

Lemma account_count_default customers :
  len customers < 2 ^ 51 ->
  account_count customers (lit 15 1) = Some (3 * len customers / 2).
Proof.
  intros HC. assert (HC0 : 0 <= len customers) by (unfold len; lia).
  assert (H51 : 2 ^ 53 = 4 * 2 ^ 51) by reflexivity.
  assert (Hp : 0 < 2 ^ 1073) by (apply Z.pow_pos_nonneg; lia).
  rewrite lit_15_1, account_count_exact.
  - f_equal. unfold W. replace (2 ^ 1074) with (2 * 2 ^ 1073) by (rewrite <- Z.pow_succ_r by lia; reflexivity).
    replace (len customers * (3 * 2 ^ 1073)) with (3 * len customers * 2 ^ 1073) by ring.
    apply Z.div_mul_cancel_r; lia.
  - lia.
  - lia.
  - replace (len customers * (3 * 2 ^ 1073)) with (3 * len customers * 2 ^ 1073) by ring.
    apply representable_scaled; lia.
  - unfold huge. replace (2 ^ 2098) with (2 ^ 1025 * 2 ^ 1073) by (rewrite <- Z.pow_add_r by lia; reflexivity).
    assert (2 ^ 53 <= 2 ^ 1025) by (apply Z.pow_le_mono_r; lia). nia.
Qed.

(** Three customers and the ratio 0.3333333333333333. *)
Definition three_customers : list Customer.t :=
  [Customer.mk "CUST000001" "John" "Smith" "john.smith@gmail.com"
     "+1-555-200-1000" "1980-02-29" "USA" "VERIFIED" "2025-06-01" "2026-01-22";
   Customer.mk "CUST000002" "Emma" "Moore" "emma.moore@yahoo.com"
     "+1-321-654-9876" "1975-12-01" "Japan" "PENDING" "2025-09-15" "2026-01-22";
   Customer.mk "CUST000003" "Lisa" "Brown" "lisa.brown@company.com"
     "+1-212-333-4444" "1990-07-04" "UK" "EXPIRED" "2025-12-24" "2026-01-22"].

Definition a_third : pyfloat := lit 3333333333333333 16.

(** C3, as stated, fails where the float product rounds up to an
    integer: 3 * 0.3333333333333333 is 1 - 2^-54, below 1, so
    floor(C * R) is 0; Python rounds the product to 1.0 and
    [generate_accounts] produces one record. *)
Lemma rounded_product_gives_an_extra_account :
  exists v accounts r',
    a_third = FFin false v
    /\ len three_customers * v / W = 0
    /\ Sampledata.generate_accounts three_customers a_third sample_rng
       = Ok (accounts, r')
    /\ len accounts = 1.
Proof.
  do 3 eexists.
  split; [vm_compute; reflexivity|].
  split; [vm_compute; reflexivity|].
  split; [vm_compute; reflexivity|].
  reflexivity.
Qed.

Definition parses (a : Account.t) : Prop :=
  float_of_string (Account.balance a) <> None.

(** What [generate_accounts] does with the value of
    [int(len(customers) * avg_accounts_per_customer)]. *)
Lemma accounts_by_count generate_accounts customers ratio r :
  In generate_accounts [Sampledata.generate_accounts; Pure.generate_accounts] ->
  (forall count, account_count customers ratio = Some count ->
     exists accounts r',
       generate_accounts customers ratio r = Ok (accounts, r')
       /\ len accounts = Z.max 0 count)
  /\ (account_count customers ratio = None ->
      exists e, generate_accounts customers ratio r = Raise e).
Proof.
  intros Hgen. split.
  - intros count Hc.
    assert (Hs : true = true -> account_count customers ratio <> None)
      by (intros _; rewrite Hc; discriminate).
    destruct Hgen as [<-|[<-|[]]].
    + destruct (wp_total_run _ _ _ (defect_accounts_spec true customers ratio r Hs))
        as [accounts [r' [Hrun [c' [Hc' [Hlen _]]]]]].
      exists accounts, r'. split; [exact Hrun|].
      rewrite Hc in Hc'. injection Hc' as <-. exact Hlen.
    + destruct (wp_total_run _ _ _ (pure_accounts_spec true customers ratio r Hs))
        as [accounts [r' [Hrun [c' [Hc' [Hlen _]]]]]].
      exists accounts, r'. split; [exact Hrun|].
      rewrite Hc in Hc'. injection Hc' as <-. exact Hlen.
  - intros Hnone.
    assert (E : forall body : Z -> list Account.t -> M (list Account.t),
              exists e,
                (product <- int_times_float (len customers) ratio ;;
                 count <- int_of_float product ;;
                 for_each body (range count) [])%py r = Raise e).
    { intros body. unfold account_count in Hnone. unfold int_times_float, bind.
      destruct (of_int (len customers)) as [lf|]; [|eexists; reflexivity].
      unfold lift_option, ret, int_of_float.
      destruct (mul lf ratio) as [| s | s u]; [eexists; reflexivity ..|].
      discriminate Hnone. }
    destruct Hgen as [<-|[<-|[]]]; apply E.
Qed.

(** C3, amended.  Row counts, for either script.  [generate_accounts]
    produces int(C * R) records for Python's float product C * R of the
    number of customers and the ratio (none when that is negative), and
    raises when the product has no integer value; int(C * R) is
    floor(C * R) whenever C * R is exactly a float, as it is for the
    default ratio 1.5.  [generate_transactions] produces
    accounts * per-account records, [generate_daily_balances]
    accounts * days and [generate_fx_rates] days * 7, a negative
    parameter counting as zero; balances must be readable as floats, and
    dates are available for at most 739638 days back. *)
Theorem row_counts :
  (forall generate_accounts,
     In generate_accounts [Sampledata.generate_accounts; Pure.generate_accounts] ->
     (forall customers ratio r count,
        account_count customers ratio = Some count ->
        exists accounts r',
          generate_accounts customers ratio r = Ok (accounts, r')
          /\ len accounts = Z.max 0 count)
     /\ (forall customers ratio r,
           account_count customers ratio = None ->
           exists e, generate_accounts customers ratio r = Raise e)
     /\ (forall customers v r,
           len customers < 2 ^ 53 -> 0 <= v ->
           representable (len customers * v) -> len customers * v < huge ->
           exists accounts r',
             generate_accounts customers (FFin false v) r = Ok (accounts, r')
             /\ len accounts = len customers * v / W)
     /\ (forall customers r,
           len customers < 2 ^ 51 ->
           exists accounts r',
             generate_accounts customers (lit 15 1) r = Ok (accounts, r')
             /\ len accounts = 3 * len customers / 2))
  /\ (forall generate_transactions,
        In generate_transactions
           [Sampledata.generate_transactions; Pure.generate_transactions] ->
        forall accounts transactions_per_account r,
          exists transactions r',
            generate_transactions accounts transactions_per_account r
              = Ok (transactions, r')
            /\ len transactions
               = Z.max 0 (len accounts * transactions_per_account))
  /\ (forall generate_daily_balances,
        In generate_daily_balances
           [Sampledata.generate_daily_balances; Pure.generate_daily_balances] ->
        forall accounts days r,
          days <= 739638 -> Forall parses accounts ->
          exists balances r',
            generate_daily_balances accounts days r = Ok (balances, r')
            /\ len balances = len accounts * Z.max 0 days)
  /\ (forall generate_fx_rates,
        In generate_fx_rates [Sampledata.generate_fx_rates; Pure.generate_fx_rates] ->
        forall days r,
          days <= 739638 ->
          exists rates r',
            generate_fx_rates days r = Ok (rates, r')
            /\ len rates = Z.max 0 days * len Sampledata.base_rates).
Proof.
  split; [|split; [|split]].
  - intros gen Hgen. split; [|split; [|split]].
    + intros customers ratio r count Hc.
      apply (proj1 (accounts_by_count gen customers ratio r Hgen) count Hc).
    + intros customers ratio r Hc.
      apply (proj2 (accounts_by_count gen customers ratio r Hgen) Hc).
    + intros customers v r HC Hv Hrep Hhuge.
      destruct (proj1 (accounts_by_count gen customers (FFin false v) r Hgen) _
                  (account_count_exact customers v HC Hv Hrep Hhuge))
        as [accounts [r' [Hrun Hlen]]].
      exists accounts, r'. split; [exact Hrun|]. rewrite Hlen. apply Z.max_r.
      apply Z.div_pos; [unfold len; nia | apply W_pos].
    + intros customers r HC.
      destruct (proj1 (accounts_by_count gen customers (lit 15 1) r Hgen) _
                  (account_count_default customers HC))
        as [accounts [r' [Hrun Hlen]]].
      exists accounts, r'. split; [exact Hrun|]. rewrite Hlen. apply Z.max_r.
      apply Z.div_pos; [unfold len; lia | lia].
  - intros gen [<-|[<-|[]]] accounts tpa r.
    + destruct (wp_total_run _ _ _ (defect_transactions_spec true accounts tpa r))
        as [txs [r' [Hrun [Hlen _]]]].
      exists txs, r'. split; [exact Hrun | exact Hlen].
    + destruct (wp_total_run _ _ _ (pure_transactions_spec true accounts tpa r))
        as [txs [r' [Hrun [Hlen _]]]].
      exists txs, r'. split; [exact Hrun | exact Hlen].
  - intros gen Hgen accounts days r Hdays Hparse.
    assert (Hs : true = true ->
              Forall (fun a => float_of_string (Account.balance a) <> None) accounts
              /\ (accounts = [] \/ days <= 739638))
      by (intros _; split; [exact Hparse | right; exact Hdays]).
    destruct Hgen as [<-|[<-|[]]].
    + destruct (wp_total_run _ _ _ (defect_daily_balances_spec true accounts days r Hs))
        as [bs [r' [Hrun [Hser _]]]].
      exists bs, r'. split; [exact Hrun|]. apply (series_len _ _ _ _ _ Hser).
    + destruct (wp_total_run _ _ _ (pure_daily_balances_spec true accounts days r Hs))
        as [bs [r' [Hrun [Hser _]]]].
      exists bs, r'. split; [exact Hrun|]. apply (series_len _ _ _ _ _ Hser).
  - intros gen [<-|[<-|[]]] days r Hdays.
    + destruct (wp_total_run _ _ _
                  (defect_fx_rates_spec any_text days r Hdays (any_date days)))
        as [rates [r' [Hrun [Hlen _]]]].
      exists rates, r'. split; [exact Hrun|]. rewrite Hlen.
      change (len Sampledata.base_rates) with 7. ring.
    + destruct (wp_total_run _ _ _
                  (pure_fx_rates_spec any_text days r Hdays (any_date days)))
        as [rates [r' [Hrun [Hlen _]]]].
      exists rates, r'. split; [exact Hrun|]. rewrite Hlen.
      change (len Sampledata.base_rates) with 7. ring.
Qed.

Definition sample_customers : list Customer.t :=
  [Customer.mk "CUST000001" "John" "Smith" "john.smith@gmail.com"
     "+1-555-200-1000" "1980-02-29" "USA" "VERIFIED" "2025-06-01" "2026-01-22";
   Customer.mk "CUST000002" "Emma" "Moore" "emma.moore@yahoo.com"
     "+1-321-654-9876" "1975-12-01" "Japan" "PENDING" "2025-09-15" "2026-01-22"].

(** Seven customers, for the ratio 1.1: the product 7 * 1.1 is not
    exactly a float. *)
Definition seven_customers : list Customer.t :=
  (three_customers ++ sample_customers ++ sample_customers)%list.

(** Accounts written by hand; the balances are texts that [float]
    reads although [generate_accounts] never writes them so. *)
Definition odd_accounts : list Account.t :=
  [Account.mk "ACC00000001" "CUST000001" "SAVINGS" "5" "EUR" "ACTIVE"
     "2025-03-01" "2026-01-10";
   Account.mk "ACC00000002" "CUST000002" "LOAN" " 1_0.5e2 " "JPY" "CLOSED"
     "2024-11-30" "2026-01-02"].

Lemma sample_accounts_parse : Forall parses sample_accounts.
Proof.
  repeat constructor; intro H; exfalso; revert H; vm_compute; intros H; discriminate H.
Qed.

Lemma odd_accounts_parse : Forall parses odd_accounts.
Proof.
  repeat constructor; intro H; exfalso; revert H; vm_compute; intros H; discriminate H.
Qed.

Lemma row_counts_witness :
  (account_count seven_customers (lit 11 1) = Some 7
   /\ (exists accounts r',
         Sampledata.generate_accounts seven_customers (lit 11 1) sample_rng
           = Ok (accounts, r')
         /\ len accounts = Z.max 0 7)
   /\ (exists accounts r',
         Pure.generate_accounts seven_customers (lit 11 1) sample_rng
           = Ok (accounts, r')
         /\ len accounts = Z.max 0 7))
  /\ (account_count sample_customers FNan = None
      /\ exists e, Sampledata.generate_accounts sample_customers FNan sample_rng
                   = Raise e)
  /\ (len sample_customers < 2 ^ 53 /\ 0 <= 3 * 2 ^ 1073
      /\ representable (len sample_customers * (3 * 2 ^ 1073))
      /\ len sample_customers * (3 * 2 ^ 1073) < huge
      /\ exists accounts r',
           Sampledata.generate_accounts sample_customers (FFin false (3 * 2 ^ 1073))
             sample_rng = Ok (accounts, r')
           /\ len accounts = len sample_customers * (3 * 2 ^ 1073) / W)
  /\ (len three_customers < 2 ^ 51
      /\ exists accounts r',
           Pure.generate_accounts three_customers (lit 15 1) sample_rng
             = Ok (accounts, r')
           /\ len accounts = 3 * len three_customers / 2)
  /\ (exists transactions r',
        Sampledata.generate_transactions sample_accounts 2 sample_rng
          = Ok (transactions, r')
        /\ len transactions = Z.max 0 (len sample_accounts * 2))
  /\ (3 <= 739638 /\ Forall parses odd_accounts
      /\ (exists balances r',
            Sampledata.generate_daily_balances odd_accounts 3 sample_rng
              = Ok (balances, r')
            /\ len balances = len odd_accounts * Z.max 0 3)
      /\ (exists balances r',
            Pure.generate_daily_balances odd_accounts 3 sample_rng
              = Ok (balances, r')
            /\ len balances = len odd_accounts * Z.max 0 3))
  /\ (2 <= 739638
      /\ (exists rates r',
            Sampledata.generate_fx_rates 2 sample_rng = Ok (rates, r')
            /\ len rates = Z.max 0 2 * len Sampledata.base_rates)
      /\ (exists rates r',
            Pure.generate_fx_rates 2 sample_rng = Ok (rates, r')
            /\ len rates = Z.max 0 2 * len Sampledata.base_rates)).
Proof.
  pose proof row_counts as [Ha [Ht [Hb Hf]]].
  pose proof (Ha Sampledata.generate_accounts (or_introl eq_refl))
    as [Hd1 [Hd2 [Hd3 _]]].
  pose proof (Ha Pure.generate_accounts (or_intror (or_introl eq_refl)))
    as [Hp1 [_ [_ Hp4]]].
  assert (H0 : account_count seven_customers (lit 11 1) = Some 7)
    by (vm_compute; reflexivity).
  assert (Hn : account_count sample_customers FNan = None)
    by (vm_compute; reflexivity).
  assert (H1 : len sample_customers < 2 ^ 53) by (vm_compute; reflexivity).
  assert (H2 : 0 <= 3 * 2 ^ 1073) by (apply Z.leb_le; vm_compute; reflexivity).
  assert (H3 : representable (len sample_customers * (3 * 2 ^ 1073)))
    by (vm_compute; reflexivity).
  assert (H4 : len sample_customers * (3 * 2 ^ 1073) < huge) by (vm_compute; reflexivity).
  assert (H5 : len three_customers < 2 ^ 51) by (vm_compute; reflexivity).
  assert (H6 : 3 <= 739638) by lia.
  assert (H7 : 2 <= 739638) by lia.
  split; [split; [exact H0|]; split;
          [apply (Hd1 seven_customers (lit 11 1) sample_rng 7 H0)
          |apply (Hp1 seven_customers (lit 11 1) sample_rng 7 H0)]|].
  split; [split; [exact Hn | apply (Hd2 sample_customers FNan sample_rng Hn)]|].
  split; [split; [exact H1|]; split; [exact H2|]; split; [exact H3|];
          split; [exact H4|];
          apply (Hd3 sample_customers (3 * 2 ^ 1073) sample_rng H1 H2 H3 H4)|].
  split; [split; [exact H5 | apply (Hp4 three_customers sample_rng H5)]|].
  split; [apply (Ht Sampledata.generate_transactions (or_introl eq_refl)
                    sample_accounts 2 sample_rng)|].
  split; [split; [exact H6|]; split; [exact odd_accounts_parse|]; split;
          [apply (Hb Sampledata.generate_daily_balances (or_introl eq_refl)
                     odd_accounts 3 sample_rng H6 odd_accounts_parse)
          |apply (Hb Pure.generate_daily_balances (or_intror (or_introl eq_refl))
                     odd_accounts 3 sample_rng H6 odd_accounts_parse)]|].
  split; [exact H7|]. split;
    [apply (Hf Sampledata.generate_fx_rates (or_introl eq_refl) 2 sample_rng H7)
    |apply (Hf Pure.generate_fx_rates (or_intror (or_introl eq_refl)) 2 sample_rng H7)].
Defined.

(** ** The random walk of daily balances *)

(** The running [base_balance] of an account after [j] passes of the
    inner loop, when the loop starts reading at draw [p]: each pass adds
    the change [random.uniform(-1000, 1000)] computed from its own draw. *)
Fixpoint running (ds : nat -> Z) (p : nat) (base : pyfloat) (j : nat) : pyfloat :=
  match j with
  | O => base
  | S j' => add (running ds p base j') (daily_change (ds (p + j')%nat))
  end.

Lemma running_shift ds p base j :
  running ds (S p) (add base (daily_change (ds p))) j = running ds p base (S j).
Proof.
  induction j as [|j IH].
  - cbn [running]. rewrite Nat.add_0_r. reflexivity.
  - cbn [running] in *. rewrite IH.
    replace (S p + j)%nat with (p + S j)%nat by lia. reflexivity.
Qed.

Lemma walk_nth ds a p k base g final :
  walk ds a p k base g final ->
  forall j, (j < List.length g)%nat ->
    exists b, nth_error g j = Some b
      /\ balance_record_ok a (k + Z.of_nat j) (running ds p base j)
           (daily_change (ds (p + j)%nat)) b.
Proof.
  induction 1 as [p k base | p k base b0 rest final Hb0 Hw IH]; intros j Hj.
  - cbn [List.length] in Hj. lia.
  - destruct j as [|j].
    + exists b0. split; [reflexivity|].
      cbn [running]. rewrite Nat.add_0_r.
      replace (k + Z.of_nat 0) with k by lia. exact Hb0.
    + cbn [List.length] in Hj.
      destruct (IH j ltac:(lia)) as [b [Hb Hrec]].
      exists b. split; [exact Hb|].
      rewrite running_shift in Hrec.
      replace (S p + j)%nat with (p + S j)%nat in Hrec by lia.
      replace (k + 1 + Z.of_nat j) with (k + Z.of_nat (S j)) in Hrec by lia.
      exact Hrec.
Qed.

Lemma series_nth ds days p accounts bs :
  series ds days p accounts bs ->
  forall i a, nth_error accounts i = Some a ->
    exists base, float_of_string (Account.balance a) = Some base
      /\ forall j, (j < Z.to_nat days)%nat ->
           exists b, nth_error bs (i * Z.to_nat days + j) = Some b
             /\ balance_record_ok a (Z.of_nat j)
                  (running ds (p + i * Z.to_nat days) base j)
                  (daily_change (ds (p + i * Z.to_nat days + j)%nat)) b.
Proof.
  induction 1 as [p | p a0 rest g bs base0 final Hf Hw Hl Hs IH]; intros i a Hi.
  - destruct i; discriminate Hi.
  - assert (Hn : List.length g = Z.to_nat days) by (unfold len in Hl; lia).
    destruct i as [|i].
    + cbn [nth_error] in Hi. injection Hi as <-.
      exists base0. split; [exact Hf|]. intros j Hj.
      destruct (walk_nth _ _ _ _ _ _ _ Hw j ltac:(lia)) as [b [Hb Hrec]].
      exists b. cbn [Nat.mul Nat.add]. rewrite Nat.add_0_r.
      split; [rewrite nth_error_app1 by lia; exact Hb|].
      replace (0 + Z.of_nat j) with (Z.of_nat j) in Hrec by lia. exact Hrec.
    + cbn [nth_error] in Hi.
      destruct (IH i a Hi) as [base [Hbase Hrecs]].
      exists base. split; [exact Hbase|]. intros j Hj.
      destruct (Hrecs j Hj) as [b [Hb Hrec]].
      exists b. split.
      * rewrite nth_error_app2 by (rewrite Hn; cbn [Nat.mul]; lia).
        rewrite Hn.
        replace (S i * Z.to_nat days + j - Z.to_nat days)%nat
          with (i * Z.to_nat days + j)%nat by (cbn [Nat.mul]; lia).
        exact Hb.
      * rewrite Hn in Hrec.
        replace (p + S i * Z.to_nat days)%nat
          with (p + Z.to_nat days + i * Z.to_nat days)%nat by (cbn [Nat.mul]; lia).
        exact Hrec.
Qed.

Lemma series_length ds days p accounts bs :
  series ds days p accounts bs ->
  List.length bs = (List.length accounts * Z.to_nat days)%nat.
Proof.
  intros H. pose proof (series_len _ _ _ _ _ H) as E. unfold len in E. nia.
Qed.

Lemma daily_balances_series generate_daily_balances accounts days r balances r' :
  In generate_daily_balances
     [Sampledata.generate_daily_balances; Pure.generate_daily_balances] ->
  generate_daily_balances accounts days r = Ok (balances, r') ->
  series (draws r) days (pos r) accounts balances.
Proof.
  intros [<-|[<-|[]]] Hrun.
  - apply (wp_run _ _ _ _ _ _ (defect_daily_balances_spec false accounts days r
             ltac:(intro H; discriminate H)) Hrun).
  - apply (wp_run _ _ _ _ _ _ (pure_daily_balances_spec false accounts days r
             ltac:(intro H; discriminate H)) Hrun).
Qed.

Lemma account_balance_texts generate_accounts customers ratio r accounts r' :
  In generate_accounts [Sampledata.generate_accounts; Pure.generate_accounts] ->
  generate_accounts customers ratio r = Ok (accounts, r') ->
  Forall (fun a => is_balance_text (Account.balance a)) accounts.
Proof.
  intros [<-|[<-|[]]] Hrun.
  - pose proof (wp_run _ _ _ _ _ _ (defect_accounts_spec false customers ratio r
                  ltac:(intro H; discriminate H)) Hrun) as [c [_ [_ Hi]]].
    apply (indexed_Forall _ _ _ Hi). intros k a _ [_ [_ Hf]]. apply Hf.
  - pose proof (wp_run _ _ _ _ _ _ (pure_accounts_spec false customers ratio r
                  ltac:(intro H; discriminate H)) Hrun) as [c [_ [_ Hi]]].
    apply (indexed_Forall _ _ _ Hi). intros k a _ [_ [_ Hf]]. apply Hf.
Qed.

Lemma balance_texts_parse accounts :
  Forall (fun a => is_balance_text (Account.balance a)) accounts ->
  Forall parses accounts.
Proof.
  intros H. apply (Forall_impl parses (P := fun a => is_balance_text (Account.balance a))); [|exact H].
  intros a Ha. unfold parses.
  destruct (balance_text_roundtrip _ Ha) as [y [Hy _]]. rewrite Hy. discriminate.
Qed.

(** C2, as stated, fails in its last clause: the first opening balance
    is the balance field read as a float and printed again with two
    decimals, which is another text when the field is not written that
    way.  An account with balance 5 opens at 5.00. *)
Lemma first_opening_balance_is_reformatted :
  exists a balances r' b,
    nth_error odd_accounts 0 = Some a
    /\ Account.balance a = "5"
    /\ Sampledata.generate_daily_balances odd_accounts 1 sample_rng
       = Ok (balances, r')
    /\ Pure.generate_daily_balances odd_accounts 1 sample_rng = Ok (balances, r')
    /\ nth_error balances 0 = Some b
    /\ DailyBalance.account_id b = Account.account_id a
    /\ DailyBalance.opening_balance b = "5.00"
    /\ DailyBalance.opening_balance b <> Account.balance a.
Proof.
  do 4 eexists.
  split; [reflexivity|]. split; [reflexivity|].
  split; [vm_compute; reflexivity|]. split; [vm_compute; reflexivity|].
  split; [reflexivity|]. split; [reflexivity|]. split; [reflexivity|].
  intro H. discriminate H.
Qed.

(** C2, amended.  In either script, for any accounts and [n] = [days]
    records per account: the records of account number [i] are the
    records number [i * n], ..., [i * n + n - 1] of the result, record
    [j] of them dated [j] days before today.  Its opening_balance is the
    running balance after [j] changes and its closing_balance the
    running balance plus the change of that iteration, both printed with
    two decimals; the change is [random.uniform(-1000, 1000)] computed
    from the draw of that iteration, draw number [i * n + j] from the
    start, and the running balance starts from the account's balance
    field read as a float.  So the next record's opening_balance is this
    record's closing_balance, and the first opening_balance is the
    balance field read and printed again; it is the field itself for
    accounts produced by [generate_accounts].  The call returns whenever
    every balance field reads as a float and [days] is at most 739638. *)
Theorem daily_balances_are_chained_random_walks :
  forall generate_daily_balances,
    In generate_daily_balances
       [Sampledata.generate_daily_balances; Pure.generate_daily_balances] ->
    forall accounts days r,
      (forall balances r',
         generate_daily_balances accounts days r = Ok (balances, r') ->
         List.length balances = (List.length accounts * Z.to_nat days)%nat
         /\ forall i a, nth_error accounts i = Some a ->
              exists base,
                float_of_string (Account.balance a) = Some base
                /\ forall j, (j < Z.to_nat days)%nat ->
                     exists b,
                       nth_error balances (i * Z.to_nat days + j) = Some b
                       /\ balance_record_ok a (Z.of_nat j)
                            (running (draws r) (pos r + i * Z.to_nat days) base j)
                            (daily_change
                               (draws r (pos r + i * Z.to_nat days + j)%nat)) b
                       /\ (j = 0%nat ->
                           DailyBalance.opening_balance b = format_f 2 base)
                       /\ (forall b', (S j < Z.to_nat days)%nat ->
                             nth_error balances (i * Z.to_nat days + S j) = Some b' ->
                             DailyBalance.opening_balance b'
                             = DailyBalance.closing_balance b))
      /\ (days <= 739638 -> Forall parses accounts ->
          exists balances r',
            generate_daily_balances accounts days r = Ok (balances, r'))
      /\ (forall generate_accounts customers ratio r0 r1 balances r',
            In generate_accounts
               [Sampledata.generate_accounts; Pure.generate_accounts] ->
            generate_accounts customers ratio r0 = Ok (accounts, r1) ->
            generate_daily_balances accounts days r = Ok (balances, r') ->
            forall i a b,
              nth_error accounts i = Some a ->
              nth_error balances (i * Z.to_nat days) = Some b ->
              (0 < Z.to_nat days)%nat ->
              DailyBalance.opening_balance b = Account.balance a).
Proof.
  intros gen Hgen accounts days r.
  assert (HA : forall balances r',
    gen accounts days r = Ok (balances, r') ->
    forall i a, nth_error accounts i = Some a ->
      exists base, float_of_string (Account.balance a) = Some base
        /\ forall j, (j < Z.to_nat days)%nat ->
             exists b, nth_error balances (i * Z.to_nat days + j) = Some b
               /\ balance_record_ok a (Z.of_nat j)
                    (running (draws r) (pos r + i * Z.to_nat days) base j)
                    (daily_change (draws r (pos r + i * Z.to_nat days + j)%nat)) b).
  { intros balances r' Hrun.
    apply (series_nth _ _ _ _ _ (daily_balances_series gen _ _ _ _ _ Hgen Hrun)). }
  split; [|split].
  - intros balances r' Hrun.
    split; [apply (series_length _ _ _ _ _
                     (daily_balances_series gen _ _ _ _ _ Hgen Hrun))|].
    intros i a Hi. destruct (HA balances r' Hrun i a Hi) as [base [Hbase Hrecs]].
    exists base. split; [exact Hbase|]. intros j Hj.
    destruct (Hrecs j Hj) as [b [Hb Hrec]].
    exists b. split; [exact Hb|]. split; [exact Hrec|]. split.
    + intros ->. destruct Hrec as [_ [_ [_ [Hop _]]]]. exact Hop.
    + intros b' Hj' Hb'. destruct (Hrecs (S j) Hj') as [b2 [Hb2 Hrec2]].
      rewrite Hb' in Hb2. injection Hb2 as <-.
      destruct Hrec as [_ [_ [_ [_ Hcl]]]]. destruct Hrec2 as [_ [_ [_ [Hop _]]]].
      rewrite Hop, Hcl. reflexivity.
  - intros Hdays Hparse.
    assert (Hs : true = true ->
              Forall (fun a => float_of_string (Account.balance a) <> None) accounts
              /\ (accounts = [] \/ days <= 739638))
      by (intros _; split; [exact Hparse | right; exact Hdays]).
    destruct Hgen as [<-|[<-|[]]].
    + destruct (wp_total_run _ _ _ (defect_daily_balances_spec true accounts days r Hs))
        as [bs [r' [Hrun _]]].
      exists bs, r'. exact Hrun.
    + destruct (wp_total_run _ _ _ (pure_daily_balances_spec true accounts days r Hs))
        as [bs [r' [Hrun _]]].
      exists bs, r'. exact Hrun.
  - intros gena customers ratio r0 r1 balances r' Hgena Ha Hrun i a b Hi Hb Hn.
    destruct (HA balances r' Hrun i a Hi) as [base [Hbase Hrecs]].
    destruct (Hrecs 0%nat Hn) as [b0 [Hb0 Hrec]].
    rewrite Nat.add_0_r, Hb in Hb0. injection Hb0 as <-.
    destruct Hrec as [_ [_ [_ [Hop _]]]]. rewrite Hop. cbn [running].
    pose proof (account_balance_texts gena customers ratio r0 accounts r1 Hgena Ha)
      as Htexts.
    rewrite Forall_forall in Htexts.
    destruct (balance_text_roundtrip _ (Htexts a (nth_error_In _ _ Hi)))
      as [y [Hy [Hfmt _]]].
    rewrite Hbase in Hy. injection Hy as <-. exact Hfmt.
Qed.

Lemma daily_balances_are_chained_random_walks_witness :
  (exists a balances r',
     nth_error odd_accounts 1 = Some a
     /\ Sampledata.generate_daily_balances odd_accounts 3 sample_rng
        = Ok (balances, r')
     /\ List.length balances = (List.length odd_accounts * Z.to_nat 3)%nat
     /\ exists base,
          float_of_string (Account.balance a) = Some base
          /\ (1 < Z.to_nat 3)%nat
          /\ exists b,
               nth_error balances (1 * Z.to_nat 3 + 1) = Some b
               /\ balance_record_ok a (Z.of_nat 1)
                    (running (draws sample_rng) (pos sample_rng + 1 * Z.to_nat 3)
                       base 1)
                    (daily_change
                       (draws sample_rng
                          (pos sample_rng + 1 * Z.to_nat 3 + 1)%nat)) b
               /\ (forall b', (2 < Z.to_nat 3)%nat ->
                     nth_error balances (1 * Z.to_nat 3 + 2) = Some b' ->
                     DailyBalance.opening_balance b'
                     = DailyBalance.closing_balance b))
  /\ (3 <= 739638 /\ Forall parses odd_accounts
      /\ exists balances r',
           Pure.generate_daily_balances odd_accounts 3 sample_rng
           = Ok (balances, r'))
  /\ (exists accounts r1 balances r',
        Pure.generate_accounts sample_customers (lit 15 1) sample_rng
        = Ok (accounts, r1)
        /\ Pure.generate_daily_balances accounts 3 r1 = Ok (balances, r')
        /\ forall i a b,
             nth_error accounts i = Some a ->
             nth_error balances (i * Z.to_nat 3) = Some b ->
             (0 < Z.to_nat 3)%nat ->
             DailyBalance.opening_balance b = Account.balance a).
Proof.
  assert (Hd : 3 <= 739638) by lia.
  split; [|split].
  - destruct (daily_balances_are_chained_random_walks
                Sampledata.generate_daily_balances (or_introl eq_refl)
                odd_accounts 3 sample_rng) as [HA [HB _]].
    destruct (HB Hd odd_accounts_parse) as [balances [r' Hrun]].
    destruct (HA balances r' Hrun) as [Hlen Hrecs].
    destruct (nth_error odd_accounts 1) as [a|] eqn:Ea; [|discriminate Ea].
    destruct (Hrecs 1%nat a Ea) as [base [Hbase Hj]].
    assert (H1 : (1 < Z.to_nat 3)%nat) by (vm_compute; lia).
    destruct (Hj 1%nat H1) as [b [Hb [Hrec [_ Hnext]]]].
    exists a, balances, r'. split; [reflexivity|]. split; [exact Hrun|].
    split; [exact Hlen|]. exists base. split; [exact Hbase|]. split; [exact H1|].
    exists b. split; [exact Hb|]. split; [exact Hrec | exact Hnext].
  - destruct (daily_balances_are_chained_random_walks
                Pure.generate_daily_balances (or_intror (or_introl eq_refl))
                odd_accounts 3 sample_rng) as [_ [HB _]].
    split; [exact Hd|]. split; [exact odd_accounts_parse|].
    apply (HB Hd odd_accounts_parse).
  - destruct (Pure.generate_accounts sample_customers (lit 15 1) sample_rng)
      as [[accounts r1]|e] eqn:Ea;
      [|exfalso; revert Ea; vm_compute; intros Ea; discriminate Ea].
    destruct (daily_balances_are_chained_random_walks
                Pure.generate_daily_balances (or_intror (or_introl eq_refl))
                accounts 3 r1) as [_ [HB HC]].
    assert (Hparse : Forall parses accounts).
    { apply balance_texts_parse.
      apply (account_balance_texts Pure.generate_accounts _ _ _ _ _
               (or_intror (or_introl eq_refl)) Ea). }
    destruct (HB Hd Hparse) as [balances [r' Hrun]].
    exists accounts, r1, balances, r'. split; [reflexivity|]. split; [exact Hrun|].
    apply (HC Pure.generate_accounts sample_customers (lit 15 1) sample_rng r1
              balances r' (or_intror (or_introl eq_refl)) Ea Hrun).
Defined.

(** The hand-written accounts over three days, from the sample draws:
    the texts written, and the running balance they print. *)
Lemma odd_account_walk :
  exists balances r',
    Sampledata.generate_daily_balances odd_accounts 3 sample_rng = Ok (balances, r')
    /\ map DailyBalance.opening_balance balances
       = ["5.00"; "-995.00"; "-1995.00"; "1050.00"; "50.00"; "-950.00"]
    /\ map DailyBalance.closing_balance balances
       = ["-995.00"; "-1995.00"; "-2995.00"; "50.00"; "-950.00"; "-1949.99"]
    /\ map DailyBalance.closing_balance (skipn 3 balances)
       = map (fun j => format_f 2
                (running (draws sample_rng) 3 (lit 1050 0) (S j))) [0; 1; 2]%nat
    /\ map DailyBalance.balance_date balances
       = ["2026-01-22"; "2026-01-21"; "2026-01-20";
          "2026-01-22"; "2026-01-21"; "2026-01-20"].
Proof.
  do 2 eexists. split; [vm_compute; reflexivity|].
  split; [vm_compute; reflexivity|]. split; [vm_compute; reflexivity|].
  split; vm_compute; reflexivity.
Qed.

(** ** The clean variant: references and formats *)
















(** ** Orphan identifiers *)

(** The id of a customer is decided by the fourth draw of its record. *)
Lemma defect_customer_id_by_draw i cs r :
  wp true (Sampledata.customer_body i cs)
     (fun cs' r' =>
        draws r' = draws r
        /\ exists c, cs' = (cs ++ [c])%list
             /\ Customer.customer_id c
                = if gtb (unit_float (draws r (3 + pos r))) (lit 1 2)
                  then ("CUST" ++ zfill 6 (str (i + 1)))%string else "") r.
Proof.
  unfold Sampledata.customer_body, Sampledata.generate_email, Sampledata.generate_phone,
    Sampledata.generate_date.
  apply wp_bind. apply wp_choice; [side_total | intros f Hf].
  apply wp_bind. apply wp_choice; [side_total | intros l Hl].
  apply wp_bind. apply wp_random.
  match goal with |- context [and_then ?b _] => destruct b end.
  all: repeat wp_step side_total.
  all: split; [reflexivity | eexists; split; [reflexivity | reflexivity]].
Qed.

(** A draw sequence whose every draw is one half: no defect branch is
    taken. *)
Definition quiet_rng : Rng := mk_rng (fun _ => 2 ^ 52) 0.

Lemma half_keeps_id : gtb (unit_float (2 ^ 52)) (lit 1 2) = true.
Proof. vm_compute. reflexivity. Qed.

Lemma quiet_customers_have_ids count :
  0 <= count ->
  exists customers r',
    Sampledata.generate_customers count quiet_rng = Ok (customers, r')
    /\ forall i, 0 <= i < count ->
         exists c, In c customers
           /\ Customer.customer_id c = ("CUST" ++ zfill 6 (str (i + 1)))%string.
Proof.
  intros Hcount.
  pose (Inv := fun (rem : list Z) (cs : list Customer.t) (r : Rng) =>
    (forall k, draws r k = 2 ^ 52)
    /\ forall i, 0 <= i < count ->
         In i rem
         \/ exists c, In c cs
              /\ Customer.customer_id c = ("CUST" ++ zfill 6 (str (i + 1)))%string).
  assert (H : wp true (Sampledata.generate_customers count)
                (fun cs r' => Inv [] cs r') quiet_rng).
  { unfold Sampledata.generate_customers.
    apply (wp_for_each_rng true Sampledata.customer_body Inv).
    - intros x rem cs r [Hconst Hcov].
      eapply wp_conseq; [apply defect_customer_id_by_draw|].
      intros cs' r' [Hdraws [c [-> Hid]]]. rewrite Hconst, half_keeps_id in Hid.
      split; [intros k; rewrite Hdraws; apply Hconst|].
      intros i Hi. destruct (Hcov i Hi) as [[<-|Hin]|[c' [Hin Hc']]].
      + right. exists c. split; [apply in_or_app; right; left; reflexivity | exact Hid].
      + left. exact Hin.
      + right. exists c'. split; [apply in_or_app; left; exact Hin | exact Hc'].
    - split; [intros k; reflexivity|]. intros i Hi. left.
      unfold range. apply In_range_from. lia. }
  destruct (wp_total_run _ _ _ H) as [customers [r' [Hrun [_ Hcov]]]].
  exists customers, r'. split; [exact Hrun|].
  intros i Hi. destruct (Hcov i Hi) as [[]|Hc]. exact Hc.
Qed.

Lemma orphan_id_900000 :
  Sampledata.orphan_id 900000 = ("CUST" ++ zfill 6 (str (899999 + 1)))%string.
Proof. vm_compute. reflexivity. Qed.

(** A draw sequence whose every draw is zero: [random()] gives 0.0, so
    the orphan branch is taken, and [randint(900000, 999999)] gives
    900000. *)
Definition orphan_rng : Rng := mk_rng (fun _ => 0) 0.

Lemma one_orphan_account customers :
  len customers = 900000 ->
  exists a ra,
    Sampledata.generate_accounts customers (lit 15 7) orphan_rng = Ok ([a], ra)
    /\ Account.customer_id a = Sampledata.orphan_id 900000.
Proof.
  intros Hlen. unfold Sampledata.generate_accounts. rewrite Hlen.
  eexists. eexists. split; [vm_compute; reflexivity | vm_compute; reflexivity].
Qed.

(** C4.  The code at the failing input: with 900000 customers, on
    draws that inject no defect, the last customer has the id
    CUST900000; an account whose first draw gives [random()] = 0.0 takes
    the orphan branch, [randint(900000, 999999)] gives 900000 on the next
    draw, and the account carries that same id.  The orphan reference
    resolves to a real customer, against the comment in
    [generate_accounts] that such accounts reference invalid customers. *)
Theorem orphan_id_matches_customer_900000 :
  exists customers rc accounts ra a c,
    Sampledata.generate_customers 900000 quiet_rng = Ok (customers, rc)
    /\ Sampledata.generate_accounts customers (lit 15 7) orphan_rng
       = Ok (accounts, ra)
    /\ ltb (unit_float (draws orphan_rng (pos orphan_rng))) (lit 5 2) = true
    /\ In a accounts /\ In c customers
    /\ Account.customer_id a = Sampledata.orphan_id 900000
    /\ Customer.customer_id c = Account.customer_id a.
Proof.
  destruct (quiet_customers_have_ids 900000 ltac:(lia)) as [customers [rc [Hrun Hids]]].
  pose proof (wp_run _ _ _ _ _ _ (defect_customers_spec 900000 quiet_rng) Hrun)
    as [Hlen _].
  destruct (one_orphan_account customers Hlen) as [a [ra [Ha Hid]]].
  destruct (Hids 899999 ltac:(lia)) as [c [Hin Hc]].
  exists customers, rc, [a], ra, a, c.
  split; [exact Hrun|]. split; [exact Ha|]. split; [vm_compute; reflexivity|].
  split; [left; reflexivity|].
  split; [exact Hin|]. split; [exact Hid|].
  rewrite Hc, Hid. symmetry. apply orphan_id_900000.
Qed.

(** ** Defect branch and clean branch of the field generators *)

(** [add_issue and random.random() < p], read off the draw the call
    starts from: whether the call takes its defect branch. *)
Definition takes_defect_branch (add_issue : bool) (p : pyfloat) (r : Rng) : bool :=
  (add_issue && ltb (unit_float (draws r (pos r))) p)%bool.

Lemma email_branches first_name last_name add_issue r :
  wp false (Sampledata.generate_email first_name last_name add_issue)
     (fun v _ =>
        if takes_defect_branch add_issue (lit 15 2) r
        then In v (Sampledata.bad_emails first_name last_name)
        else exists domain, In domain Sampledata.EMAIL_DOMAINS
               /\ v = Sampledata.good_email first_name last_name domain) r.
Proof.
  unfold Sampledata.generate_email, takes_defect_branch.
  destruct add_issue; cbn [andb and_then].
  - apply wp_bind. apply wp_bind. apply wp_random. apply wp_ret.
    destruct (ltb (unit_float (draws r (pos r))) (lit 15 2)).
    + apply wp_choice; [side_partial | intros v Hv; exact Hv].
    + apply wp_bind. apply wp_choice; [side_partial | intros d Hd].
      apply wp_ret. exists d. split; [exact Hd | reflexivity].
  - apply wp_bind. apply wp_ret.
    apply wp_bind. apply wp_choice; [side_partial | intros d Hd].
    apply wp_ret. exists d. split; [exact Hd | reflexivity].
Qed.

Lemma phone_branches add_issue r :
  wp false (Sampledata.generate_phone add_issue)
     (fun v _ =>
        if takes_defect_branch add_issue (lit 10 2) r
        then In v Sampledata.bad_phones
        else exists a b c, v = Sampledata.good_phone a b c) r.
Proof.
  unfold Sampledata.generate_phone, takes_defect_branch.
  assert (Hclean : forall r0,
    wp false (a <- randint 200 999 ;; b <- randint 200 999 ;;
              c <- randint 1000 9999 ;; ret (Sampledata.good_phone a b c))%py
       (fun v _ => exists a b c, v = Sampledata.good_phone a b c) r0).
  { intros r0. apply wp_bind. apply wp_randint; [side_partial | intros a _].
    apply wp_bind. apply wp_randint; [side_partial | intros b _].
    apply wp_bind. apply wp_randint; [side_partial | intros c _].
    apply wp_ret. exists a, b, c. reflexivity. }
  destruct add_issue; cbn [andb and_then].
  - apply wp_bind. apply wp_bind. apply wp_random. apply wp_ret.
    destruct (ltb (unit_float (draws r (pos r))) (lit 10 2)).
    + apply wp_choice; [side_partial | intros v Hv; exact Hv].
    + apply Hclean.
  - apply wp_bind. apply wp_ret. apply Hclean.
Qed.

Lemma date_branches base_date days_range add_issue r :
  wp false (Sampledata.generate_date base_date days_range add_issue)
     (fun v _ =>
        if takes_defect_branch add_issue (lit 5 2) r
        then In v Sampledata.bad_dates
        else exists offset date,
               - days_range <= offset <= days_range
               /\ add_days base_date offset = Some date
               /\ v = strftime date) r.
Proof.
  unfold Sampledata.generate_date, takes_defect_branch.
  assert (Hclean : forall r0,
    wp false (offset <- randint (- days_range) days_range ;;
              date <- lift_option OverflowError (add_days base_date offset) ;;
              ret (strftime date))%py
       (fun v _ => exists offset date,
               - days_range <= offset <= days_range
               /\ add_days base_date offset = Some date
               /\ v = strftime date) r0).
  { intros r0. apply wp_bind. apply wp_randint; [side_partial | intros o Ho].
    apply wp_bind. apply wp_lift_option; [side_partial | intros d Hd].
    apply wp_ret. exists o, d. split; [exact Ho|]. split; [exact Hd | reflexivity]. }
  destruct add_issue; cbn [andb and_then].
  - apply wp_bind. apply wp_bind. apply wp_random. apply wp_ret.
    destruct (ltb (unit_float (draws r (pos r))) (lit 5 2)).
    + apply wp_choice; [side_partial | intros v Hv; exact Hv].
    + apply Hclean.
  - apply wp_bind. apply wp_ret. apply Hclean.
Qed.

Lemma bad_email_not_good first_name last_name domain v :
  In v (Sampledata.bad_emails first_name last_name) ->
  v <> Sampledata.good_email first_name last_name domain.
Proof.
  unfold Sampledata.bad_emails, Sampledata.good_email.
  intros [<- | [<- | [<- | [<- | []]]]] E.
  - apply string_app_inv_head in E. discriminate E.
  - apply string_app_inv_head in E. apply string_app_inv_head in E.
    apply (f_equal String.length) in E. rewrite string_app_length in E.
    simpl in E. lia.
  - apply string_app_inv_head in E. discriminate E.
  - apply (f_equal String.length) in E.
    rewrite !string_app_length in E. simpl in E. lia.
Qed.

Lemma bad_phone_not_good a b c v :
  In v Sampledata.bad_phones -> v <> Sampledata.good_phone a b c.
Proof.
  unfold Sampledata.bad_phones, Sampledata.good_phone.
  intros [<- | [<- | [<- | [<- | []]]]] E; discriminate E.
Qed.

Lemma toordinal_future : toordinal (mk_datetime 2099 12 31) = 766644.
Proof. vm_compute. reflexivity. Qed.

(** The text of a date is a calendar date [YYYY-MM-DD] from the year
    1000 on, and has at least 7 and at most 9 characters before. *)
Lemma strftime_shape d :
  valid_date d ->
  is_iso_date (strftime d) = true
  \/ (7 <= String.length (strftime d) <= 9)%nat.
Proof.
  intros V. destruct (Z_lt_le_dec (year d) 1000) as [Hy|Hy].
  - right. rewrite (length_strftime d V). pose proof V as [Hy' _].
    pose proof (length_str_le (year d) 3
                  ltac:(change (10 ^ Z.of_nat 3) with 1000; lia) ltac:(lia)) as L.
    assert (L0 : String.length (str (year d)) <> 0%nat).
    { intros E. apply (str_nonempty (year d)); [lia|].
      destruct (str (year d)); [reflexivity | discriminate E]. }
    lia.
  - left. apply is_iso_date_strftime; assumption.
Qed.

Lemma bad_date_not_good base_date days_range offset date v :
  ~ (toordinal base_date - days_range <= 766644 <= toordinal base_date + days_range) ->
  - days_range <= offset <= days_range ->
  add_days base_date offset = Some date ->
  In v Sampledata.bad_dates -> v <> strftime date.
Proof.
  intros Hwin Ho Hd Hv E.
  apply add_days_inv in Hd. destruct Hd as [Hr ->].
  destruct (fromordinal_spec _ Hr) as [V _].
  pose proof (strftime_shape _ V) as Hshape. rewrite <- E in Hshape.
  unfold Sampledata.bad_dates in Hv.
  destruct Hv as [<- | [<- | [<- | [<- | []]]]].
  - destruct Hshape as [Hiso|Hlen];
      [exfalso; revert Hiso; vm_compute; intros Hiso; discriminate Hiso
      | cbn [String.length] in Hlen; lia].
  - destruct Hshape as [Hiso|Hlen];
      [exfalso; revert Hiso; vm_compute; intros Hiso; discriminate Hiso
      | cbn [String.length] in Hlen; lia].
  - assert (H : 766644 = toordinal base_date + offset).
    { apply strftime_fromordinal_inj; [unfold MAXORDINAL; lia | exact Hr |].
      rewrite <- E. vm_compute. reflexivity. }
    lia.
  - destruct Hshape as [Hiso|Hlen];
      [exfalso; revert Hiso; vm_compute; intros Hiso; discriminate Hiso
      | cbn [String.length] in Hlen; lia].
Qed.

(** No value returned by a call of [gen] that takes its defect branch is
    returned by a call that takes the clean branch. *)
Definition never_shared (gen : bool -> M string) (p : pyfloat) : Prop :=
  forall b1 b2 r1 r2 v1 v2 r1' r2',
    gen b1 r1 = Ok (v1, r1') -> takes_defect_branch b1 p r1 = true ->
    gen b2 r2 = Ok (v2, r2') -> takes_defect_branch b2 p r2 = false ->
    v1 <> v2.

Definition future_base : datetime := mk_datetime 2099 12 31.
Definition defect_draws : Rng := mk_rng (fun n => if Nat.eqb n 1 then 2 else 0) 0.

(** C6, as stated, fails for [generate_date]: with the base date
    2099-12-31 and a range of 0 days the clean branch returns
    2099-12-31, one of the literals of the defect branch. *)
Lemma future_date_is_defect_and_clean :
  ~ never_shared (Sampledata.generate_date future_base 0) (lit 5 2).
Proof.
  intros H.
  apply (H true true defect_draws quiet_rng "2099-12-31" "2099-12-31"
           (mk_rng (draws defect_draws) 2) (mk_rng (draws quiet_rng) 2));
    vm_compute; reflexivity.
Qed.

(** C6, amended.  For [generate_email] and [generate_phone], with any
    arguments, and for [generate_date] whenever 2099-12-31 is not within
    [days_range] days of the base date, a value returned through the
    defect branch is never returned through the clean branch. *)
Theorem defect_values_disjoint_from_clean_values :
  forall first_name last_name base_date days_range,
    ~ (toordinal base_date - days_range <= 766644
       <= toordinal base_date + days_range) ->
    never_shared (Sampledata.generate_email first_name last_name) (lit 15 2)
    /\ never_shared Sampledata.generate_phone (lit 10 2)
    /\ never_shared (Sampledata.generate_date base_date days_range) (lit 5 2).
Proof.
  intros first_name last_name base_date days_range Hwin.
  split; [|split]; intros b1 b2 r1 r2 v1 v2 r1' r2' E1 T1 E2 T2.
  - pose proof (wp_run _ _ _ _ _ _ (email_branches first_name last_name b1 r1) E1) as H1.
    pose proof (wp_run _ _ _ _ _ _ (email_branches first_name last_name b2 r2) E2) as H2.
    cbv beta in H1, H2. rewrite T1 in H1. rewrite T2 in H2.
    destruct H2 as [d [_ ->]]. apply bad_email_not_good. exact H1.
  - pose proof (wp_run _ _ _ _ _ _ (phone_branches b1 r1) E1) as H1.
    pose proof (wp_run _ _ _ _ _ _ (phone_branches b2 r2) E2) as H2.
    cbv beta in H1, H2. rewrite T1 in H1. rewrite T2 in H2.
    destruct H2 as [a [b [c ->]]]. apply bad_phone_not_good. exact H1.
  - pose proof (wp_run _ _ _ _ _ _ (date_branches base_date days_range b1 r1) E1) as H1.
    pose proof (wp_run _ _ _ _ _ _ (date_branches base_date days_range b2 r2) E2) as H2.
    cbv beta in H1, H2. rewrite T1 in H1. rewrite T2 in H2.
    destruct H2 as [o [d [Ho [Hd ->]]]].
    apply (bad_date_not_good base_date days_range o d); assumption.
Qed.

Lemma defect_values_disjoint_from_clean_values_witness :
  ~ (toordinal Sampledata.TODAY - 365 <= 766644 <= toordinal Sampledata.TODAY + 365)
  /\ exists v1 v2 r1' r2',
       Sampledata.generate_date Sampledata.TODAY 365 true defect_draws = Ok (v1, r1')
       /\ takes_defect_branch true (lit 5 2) defect_draws = true
       /\ Sampledata.generate_date Sampledata.TODAY 365 true quiet_rng = Ok (v2, r2')
       /\ takes_defect_branch true (lit 5 2) quiet_rng = false
       /\ v1 <> v2.
Proof.
  assert (Hwin : ~ (toordinal Sampledata.TODAY - 365 <= 766644
                    <= toordinal Sampledata.TODAY + 365))
    by (rewrite toordinal_TODAY; lia).
  split; [exact Hwin|].
  destruct (Sampledata.generate_date Sampledata.TODAY 365 true defect_draws)
    as [[v1 r1']|e1] eqn:E1; [|exfalso; revert E1; vm_compute; intros E1; discriminate E1].
  destruct (Sampledata.generate_date Sampledata.TODAY 365 true quiet_rng)
    as [[v2 r2']|e2] eqn:E2; [|exfalso; revert E2; vm_compute; intros E2; discriminate E2].
  assert (T1 : takes_defect_branch true (lit 5 2) defect_draws = true)
    by (vm_compute; reflexivity).
  assert (T2 : takes_defect_branch true (lit 5 2) quiet_rng = false)
    by (vm_compute; reflexivity).
  exists v1, v2, r1', r2'.
  split; [reflexivity|]. split; [exact T1|]. split; [reflexivity|]. split; [exact T2|].
  destruct (defect_values_disjoint_from_clean_values "John" "Smith"
              Sampledata.TODAY 365 Hwin) as [_ [_ Hdate]].
  exact (Hdate true true defect_draws quiet_rng v1 v2 r1' r2' E1 T1 E2 T2).
Defined.

(** ** Serialization *)

(** The lines of the given rows, one after the other. *)
Definition rows_text (rows : list (list string)) : string :=
  fold_right (fun fields rest => (csv_row fields ++ rest)%string) "" rows.

(** The values of a record in the order of the columns. *)
Definition values_of (fieldnames : list string) (row : dict) : list string :=
  map (fun key => match get row key with Some v => v | None => "" end) fieldnames.

Lemma dict_to_list_values fieldnames row fields :
  dict_to_list fieldnames row = Ok fields -> fields = values_of fieldnames row.
Proof.
  unfold dict_to_list, values_of.
  destruct (forallb _ row); intros H; [injection H as <-; reflexivity | discriminate H].
Qed.

Lemma writerows_returns fieldnames data written :
  snd (writerows fieldnames data written) = Ok tt ->
  fst (writerows fieldnames data written)
  = (written ++ rows_text (map (values_of fieldnames) data))%string
  /\ Forall (fun row => dict_to_list fieldnames row = Ok (values_of fieldnames row)) data.
Proof.
  revert written. induction data as [|row rest IH]; intros written H.
  - simpl. rewrite string_app_nil_r. split; [reflexivity | constructor].
  - simpl in H |- *. destruct (dict_to_list fieldnames row) as [fields|e] eqn:E.
    + destruct (IH _ H) as [Htext Hrest]. rewrite Htext.
      pose proof (dict_to_list_values _ _ _ E) as ->.
      rewrite string_app_assoc. split; [reflexivity|].
      constructor; [exact E | exact Hrest].
    + simpl in H. discriminate H.
Qed.

Lemma get_store fs path text : read (store fs path text) path = Some text.
Proof. unfold read, store. simpl. rewrite String.eqb_refl. reflexivity. Qed.

Lemma filter_filter {A : Type} (f : A -> bool) xs :
  filter f (filter f xs) = filter f xs.
Proof.
  induction xs as [|x xs IH]; [reflexivity|]. simpl.
  destruct (f x) eqn:E; simpl; [rewrite E, IH; reflexivity | exact IH].
Qed.

Lemma store_store fs path text :
  store (store fs path text) path text = store fs path text.
Proof.
  unfold store. simpl. rewrite String.eqb_refl. simpl.
  rewrite filter_filter. reflexivity.
Qed.

Section WriteCsv.

Variable dir : string.

(** [write_csv] of either script, the output directory left open. *)
Definition write_csv_in (filename : string) (data : list dict)
  (fieldnames : list string) (fs : files) : files * result unit :=
  let filepath := (dir ++ "/" ++ filename)%string in
  let '(text, outcome) := writerows fieldnames data (writeheader fieldnames) in
  (store fs filepath text, outcome).

Lemma write_csv_in_unfold filename data fieldnames fs :
  write_csv_in filename data fieldnames fs
  = (store fs (dir ++ "/" ++ filename)
       (fst (writerows fieldnames data (writeheader fieldnames))),
     snd (writerows fieldnames data (writeheader fieldnames))).
Proof.
  unfold write_csv_in.
  destruct (writerows fieldnames data (writeheader fieldnames)); reflexivity.
Qed.

Lemma write_csv_in_spec filename data fieldnames fs fs' :
  let path := (dir ++ "/" ++ filename)%string in
  let once := write_csv_in filename data fieldnames fs in
  read (fst once) path
  = read (fst (write_csv_in filename data fieldnames fs')) path
  /\ snd once = snd (write_csv_in filename data fieldnames fs')
  /\ write_csv_in filename data fieldnames (fst once) = once
  /\ (snd once = Ok tt ->
      read (fst once) path
      = Some (csv_row fieldnames
              ++ rows_text (map (values_of fieldnames) data))%string).
Proof.
  cbv zeta. rewrite !write_csv_in_unfold. cbn [fst snd].
  rewrite !get_store, store_store.
  split; [reflexivity|]. split; [reflexivity|]. split; [reflexivity|].
  intros H. apply writerows_returns in H. destruct H as [-> _]. reflexivity.
Qed.

End WriteCsv.

(** The text [write_csv] writes for [data] under the header
    [fieldnames]: the header line, then one line per record, in the
    order of the collection, the record's values in column order. *)
Definition csv_text (fieldnames : list string) (data : list dict) : string :=
  (csv_row fieldnames ++ rows_text (map (values_of fieldnames) data))%string.

(** Every key of the record is a column. *)
Definition keys_within (fieldnames : list string) (row : dict) : Prop :=
  forall key, In key (map fst row) -> In key fieldnames.

Lemma mem_In keys key : mem keys key = true <-> In key keys.
Proof.
  unfold mem. rewrite existsb_exists. split.
  - intros [k [Hk E]]. apply String.eqb_eq in E. subst k. exact Hk.
  - intros H. exists key. split; [exact H | apply String.eqb_refl].
Qed.

Lemma dict_to_list_within fieldnames row :
  keys_within fieldnames row ->
  dict_to_list fieldnames row = Ok (values_of fieldnames row).
Proof.
  intros H. unfold dict_to_list.
  replace (forallb (fun kv => mem fieldnames (fst kv)) row) with true; [reflexivity|].
  symmetry. apply forallb_forall. intros kv Hkv. apply mem_In. apply H.
  apply in_map. exact Hkv.
Qed.

Lemma dict_to_list_unknown fieldnames row :
  ~ keys_within fieldnames row -> dict_to_list fieldnames row = Raise ValueError.
Proof.
  intros H. unfold dict_to_list.
  destruct (forallb (fun kv => mem fieldnames (fst kv)) row) eqn:E; [|reflexivity].
  exfalso. apply H. intros key Hkey. apply in_map_iff in Hkey.
  destruct Hkey as [kv [<- Hkv]]. apply mem_In.
  rewrite forallb_forall in E. apply (E kv Hkv).
Qed.

Lemma dict_to_list_ok_within fieldnames row fields :
  dict_to_list fieldnames row = Ok fields -> keys_within fieldnames row.
Proof.
  unfold dict_to_list.
  destruct (forallb (fun kv => mem fieldnames (fst kv)) row) eqn:E;
    [|intros H; discriminate H].
  intros _ key Hkey. apply in_map_iff in Hkey.
  destruct Hkey as [kv [<- Hkv]]. apply mem_In.
  rewrite forallb_forall in E. apply (E kv Hkv).
Qed.

Lemma writerows_total fieldnames data written :
  Forall (keys_within fieldnames) data ->
  writerows fieldnames data written
  = ((written ++ rows_text (map (values_of fieldnames) data))%string, Ok tt).
Proof.
  revert written. induction data as [|row rest IH]; intros written H.
  - simpl. rewrite string_app_nil_r. reflexivity.
  - inversion H as [|row' rest' Hrow Hrest]; subst. simpl.
    rewrite (dict_to_list_within _ _ Hrow).
    rewrite (IH _ Hrest), string_app_assoc. reflexivity.
Qed.

Lemma writerows_ok_within fieldnames data written :
  snd (writerows fieldnames data written) = Ok tt ->
  Forall (keys_within fieldnames) data.
Proof.
  revert written. induction data as [|row rest IH]; intros written H.
  - constructor.
  - simpl in H. destruct (dict_to_list fieldnames row) as [fields|e] eqn:E.
    + constructor; [apply (dict_to_list_ok_within _ _ _ E) | apply (IH _ H)].
    + simpl in H. discriminate H.
Qed.

Lemma writerows_stops fieldnames before row after written :
  Forall (keys_within fieldnames) before ->
  ~ keys_within fieldnames row ->
  writerows fieldnames (before ++ row :: after) written
  = ((written ++ rows_text (map (values_of fieldnames) before))%string,
     Raise ValueError).
Proof.
  intros Hbefore Hrow. revert written.
  induction Hbefore as [|b rest Hb _ IH]; intros written.
  - simpl. rewrite (dict_to_list_unknown _ _ Hrow), string_app_nil_r. reflexivity.
  - simpl. rewrite (dict_to_list_within _ _ Hb), IH, string_app_assoc. reflexivity.
Qed.

Lemma write_csv_in_total dir filename data fieldnames fs :
  Forall (keys_within fieldnames) data ->
  write_csv_in dir filename data fieldnames fs
  = (store fs (dir ++ "/" ++ filename) (csv_text fieldnames data), Ok tt).
Proof.
  intros H. rewrite write_csv_in_unfold, (writerows_total _ _ _ H). reflexivity.
Qed.

Lemma get_filter_other (fs : files) p q :
  String.eqb p q = false ->
  get (filter (fun f => negb (String.eqb (fst f) p)) fs) q = get fs q.
Proof.
  intros Hpq. induction fs as [|[k v] fs IH]; [reflexivity|]. simpl.
  destruct (String.eqb k p) eqn:Ekp; simpl.
  - apply String.eqb_eq in Ekp. subst k. rewrite Hpq. exact IH.
  - destruct (String.eqb k q); [reflexivity | exact IH].
Qed.

Lemma read_store_other fs p t q :
  String.eqb p q = false -> read (store fs p t) q = read fs q.
Proof.
  intros Hpq. unfold read, store. simpl. rewrite Hpq. apply get_filter_other. exact Hpq.
Qed.

(** What [write_csv] does, the output directory left open. *)
Lemma write_csv_in_facts dir filename data fieldnames fs :
  let path := (dir ++ "/" ++ filename)%string in
  let once := write_csv_in dir filename data fieldnames fs in
  (forall fs',
     read (fst once) path
     = read (fst (write_csv_in dir filename data fieldnames fs')) path
     /\ snd once = snd (write_csv_in dir filename data fieldnames fs'))
  /\ write_csv_in dir filename data fieldnames (fst once) = once
  /\ (Forall (keys_within fieldnames) data ->
      once = (store fs path (csv_text fieldnames data), Ok tt)
      /\ read (fst once) path = Some (csv_text fieldnames data))
  /\ (snd once = Ok tt -> Forall (keys_within fieldnames) data)
  /\ (forall before row after,
        data = (before ++ row :: after)%list ->
        Forall (keys_within fieldnames) before ->
        ~ keys_within fieldnames row ->
        snd once = Raise ValueError
        /\ read (fst once) path = Some (csv_text fieldnames before))
  /\ (forall other, other <> path -> read (fst once) other = read fs other).
Proof.
  cbv zeta. split; [|split; [|split; [|split; [|split]]]].
  - intros fs'. rewrite !write_csv_in_unfold. cbn [fst snd]. rewrite !get_store.
    split; reflexivity.
  - rewrite !write_csv_in_unfold. cbn [fst snd]. rewrite store_store. reflexivity.
  - intros H. rewrite (write_csv_in_total dir filename data fieldnames fs H).
    cbn [fst]. rewrite get_store. split; reflexivity.
  - rewrite write_csv_in_unfold. cbn [snd]. apply writerows_ok_within.
  - intros before row after -> Hbefore Hrow.
    rewrite write_csv_in_unfold, (writerows_stops _ _ _ after _ Hbefore Hrow).
    cbn [fst snd]. rewrite get_store. split; reflexivity.
  - intros other Hother. rewrite write_csv_in_unfold. cbn [fst].
    apply read_store_other. apply String.eqb_neq. intros E. apply Hother.
    symmetry. exact E.
Qed.

Definition sample_rows : list dict :=
  [[("id", "1"); ("name", "Doe, Jane")]; [("id", "2"); ("name", "")]].

Definition stray_rows : list dict :=
  [[("id", "1")]; [("id", "2"); ("note", "x")]; [("id", "3")]].

(** C8, as stated, fails for a collection in which a record has a key
    that is not a column: [csv.DictWriter] raises [ValueError] at that
    record, and the file holds the header and the one record before it,
    not one row for each of the three records. *)
Lemma record_with_unknown_key_stops_the_writer :
  List.length stray_rows = 3%nat
  /\ snd (Sampledata.write_csv "t.csv" stray_rows ["id"] []) = Raise ValueError
  /\ read (fst (Sampledata.write_csv "t.csv" stray_rows ["id"] []))
          "sample_data/t.csv"
     = Some ("id" ++ line_end ++ "1" ++ line_end)%string
  /\ snd (Pure.write_csv "t.csv" stray_rows ["id"] []) = Raise ValueError
  /\ read (fst (Pure.write_csv "t.csv" stray_rows ["id"] []))
          "pure_sample_data/t.csv"
     = Some ("id" ++ line_end ++ "1" ++ line_end)%string.
Proof. repeat split. Qed.

(** C8, amended.  In either script, for a collection and a list of
    column names: the content written by [write_csv] and its outcome
    depend on the records and the column names only, not on what the
    output directory held before (there is no random state among the
    arguments); writing the same collection a second time leaves the
    directory as it was after the first; no other file is touched.
    When every key of every record is a column, and only then, the
    writer returns normally, and the content is then the header line,
    the column names in the given order, followed by one line per
    record, in the order of the collection, with the record's values in
    column order.  Otherwise it raises [ValueError] at the first record
    with a key that is not a column, having written the header and the
    lines of the records before it. *)
Theorem write_csv_is_deterministic_and_idempotent :
  forall write_csv dir,
    In (write_csv, dir)
       [(Sampledata.write_csv, Sampledata.OUTPUT_DIR);
        (Pure.write_csv, Pure.OUTPUT_DIR)] ->
    forall filename data fieldnames fs,
      let path := (dir ++ "/" ++ filename)%string in
      let once := write_csv filename data fieldnames fs in
      (forall fs',
         read (fst once) path
         = read (fst (write_csv filename data fieldnames fs')) path
         /\ snd once = snd (write_csv filename data fieldnames fs'))
      /\ write_csv filename data fieldnames (fst once) = once
      /\ (Forall (keys_within fieldnames) data ->
          once = (store fs path (csv_text fieldnames data), Ok tt)
          /\ read (fst once) path = Some (csv_text fieldnames data))
      /\ (snd once = Ok tt -> Forall (keys_within fieldnames) data)
      /\ (forall before row after,
            data = (before ++ row :: after)%list ->
            Forall (keys_within fieldnames) before ->
            ~ keys_within fieldnames row ->
            snd once = Raise ValueError
            /\ read (fst once) path = Some (csv_text fieldnames before))
      /\ (forall other, other <> path -> read (fst once) other = read fs other).
Proof.
  intros write_csv dir [E|[E|[]]] filename data fieldnames fs;
    injection E as <- <-.
  - apply (write_csv_in_facts Sampledata.OUTPUT_DIR filename data fieldnames fs).
  - apply (write_csv_in_facts Pure.OUTPUT_DIR filename data fieldnames fs).
Qed.

Ltac within_columns :=
  let key := fresh "key" in
  let Hk := fresh "Hk" in
  intros key Hk; simpl in Hk |- *;
  repeat (destruct Hk as [<-|Hk]; [tauto|]); destruct Hk.

Lemma sample_rows_within : Forall (keys_within ["id"; "name"]) sample_rows.
Proof.
  repeat (apply Forall_cons; [within_columns|]). apply Forall_nil.
Qed.

Lemma first_stray_row_within : Forall (keys_within ["id"]) [[("id", "1")]].
Proof.
  repeat (apply Forall_cons; [within_columns|]). apply Forall_nil.
Qed.

Lemma second_stray_row_not_within :
  ~ keys_within ["id"] [("id", "2"); ("note", "x")].
Proof.
  intros H. specialize (H "note" (or_intror (or_introl eq_refl))).
  simpl in H. destruct H as [H|[]]. discriminate H.
Qed.

Lemma write_csv_is_deterministic_and_idempotent_witness :
  (Forall (keys_within ["id"; "name"]) sample_rows
   /\ Sampledata.write_csv "t.csv" sample_rows ["id"; "name"] []
      = (store [] "sample_data/t.csv" (csv_text ["id"; "name"] sample_rows), Ok tt)
   /\ Pure.write_csv "t.csv" sample_rows ["id"; "name"] []
      = (store [] "pure_sample_data/t.csv" (csv_text ["id"; "name"] sample_rows),
         Ok tt)
   /\ read (fst (Pure.write_csv "t.csv" sample_rows ["id"; "name"] []))
           "pure_sample_data/t.csv"
      = Some (csv_text ["id"; "name"] sample_rows))
  /\ (snd (Pure.write_csv "t.csv" sample_rows ["id"; "name"] []) = Ok tt
      /\ Forall (keys_within ["id"; "name"]) sample_rows)
  /\ (stray_rows = ([[("id", "1")]] ++ [("id", "2"); ("note", "x")] :: [[("id", "3")]])%list
      /\ Forall (keys_within ["id"]) [[("id", "1")]]
      /\ ~ keys_within ["id"] [("id", "2"); ("note", "x")]
      /\ snd (Sampledata.write_csv "t.csv" stray_rows ["id"] []) = Raise ValueError
      /\ read (fst (Pure.write_csv "t.csv" stray_rows ["id"] []))
              "pure_sample_data/t.csv"
         = Some (csv_text ["id"] [[("id", "1")]]))
  /\ ("sample_data/u.csv" <> "sample_data/t.csv"
      /\ read (fst (Sampledata.write_csv "t.csv" sample_rows ["id"; "name"]
                      [("sample_data/u.csv", "kept")]))
              "sample_data/u.csv"
         = read [("sample_data/u.csv", "kept")] "sample_data/u.csv").
Proof.
  pose proof (write_csv_is_deterministic_and_idempotent
                Sampledata.write_csv Sampledata.OUTPUT_DIR (or_introl eq_refl)) as HS.
  pose proof (write_csv_is_deterministic_and_idempotent
                Pure.write_csv Pure.OUTPUT_DIR (or_intror (or_introl eq_refl))) as HP.
  cbv zeta in HS, HP.
  assert (Hok : snd (Pure.write_csv "t.csv" sample_rows ["id"; "name"] []) = Ok tt)
    by reflexivity.
  assert (Hsplit : stray_rows
                   = ([[("id", "1")]] ++ [("id", "2"); ("note", "x")] :: [[("id", "3")]])%list)
    by reflexivity.
  assert (Hne : "sample_data/u.csv" <> "sample_data/t.csv")
    by (intros E; discriminate E).
  split; [|split; [|split]].
  - destruct (HS "t.csv" sample_rows ["id"; "name"] []) as [_ [_ [H3 _]]].
    destruct (HP "t.csv" sample_rows ["id"; "name"] []) as [_ [_ [P3 _]]].
    split; [exact sample_rows_within|].
    split; [exact (proj1 (H3 sample_rows_within))|].
    split; [exact (proj1 (P3 sample_rows_within))
           | exact (proj2 (P3 sample_rows_within))].
  - destruct (HP "t.csv" sample_rows ["id"; "name"] []) as [_ [_ [_ [P4 _]]]].
    split; [exact Hok | exact (P4 Hok)].
  - destruct (HS "t.csv" stray_rows ["id"] []) as [_ [_ [_ [_ [H5 _]]]]].
    destruct (HP "t.csv" stray_rows ["id"] []) as [_ [_ [_ [_ [P5 _]]]]].
    split; [exact Hsplit|]. split; [exact first_stray_row_within|].
    split; [exact second_stray_row_not_within|].
    split; [exact (proj1 (H5 _ _ _ Hsplit first_stray_row_within
                            second_stray_row_not_within))
           | exact (proj2 (P5 _ _ _ Hsplit first_stray_row_within
                             second_stray_row_not_within))].
  - destruct (HS "t.csv" sample_rows ["id"; "name"]
                [("sample_data/u.csv", "kept")]) as [_ [_ [_ [_ [_ H6]]]]].
    split; [exact Hne | exact (H6 "sample_data/u.csv" Hne)].
Defined.

(** The text written for the two sample records: the value with a comma
    is quoted. *)
Lemma sample_rows_text :
  csv_text ["id"; "name"] sample_rows
  = ("id,name" ++ line_end ++ "1," ++ String dquote "Doe, Jane"
       ++ String dquote line_end ++ "2," ++ line_end)%string.
Proof. reflexivity. Qed.

(** ** The entry points *)













Section FiveFiles.

Variable dir : string.






End FiveFiles.



(** ** The two variants side by side *)

(** *** The defect variant with its rates left open *)

(** The probabilities written as literals in [Sampledata.py]. *)
Record rates : Type := mk_rates {
  issue_rate : pyfloat;
  missing_customer_id_rate : pyfloat;
  missing_first_name_rate : pyfloat;
  missing_last_name_rate : pyfloat;
  missing_country_rate : pyfloat;
  bad_email_rate : pyfloat;
  bad_phone_rate : pyfloat;
  bad_date_rate : pyfloat;
  orphan_rate : pyfloat;
  missing_account_id_rate : pyfloat;
  missing_transaction_id_rate : pyfloat;
  bad_rate_rate : pyfloat
}.


(** Every probability set to zero. *)
Definition zero_rates : rates :=
  mk_rates (lit 0 0) (lit 0 0) (lit 0 0) (lit 0 0) (lit 0 0) (lit 0 0)
    (lit 0 0) (lit 0 0) (lit 0 0) (lit 0 0) (lit 0 0) (lit 0 0).

Section AtRates.

Variable p : rates.

Definition generate_email_at (first_name last_name : string) (add_issue : bool)
  : M string :=
  (hit <- and_then add_issue (x <- random ;; ret (ltb x (bad_email_rate p))) ;;
   if hit then choice (Sampledata.bad_emails first_name last_name)
   else domain <- choice Sampledata.EMAIL_DOMAINS ;;
        ret (Sampledata.good_email first_name last_name domain))%py.

Definition generate_phone_at (add_issue : bool) : M string :=
  (hit <- and_then add_issue (x <- random ;; ret (ltb x (bad_phone_rate p))) ;;
   if hit then choice Sampledata.bad_phones
   else a <- randint 200 999 ;;
        b <- randint 200 999 ;;
        c <- randint 1000 9999 ;;
        ret (Sampledata.good_phone a b c))%py.

Definition generate_date_at (base_date : datetime) (days_range : Z)
  (add_issue : bool) : M string :=
  (hit <- and_then add_issue (x <- random ;; ret (ltb x (bad_date_rate p))) ;;
   if hit then choice Sampledata.bad_dates
   else offset <- randint (- days_range) days_range ;;
        date <- lift_option OverflowError (add_days base_date offset) ;;
        ret (strftime date))%py.

Definition customer_body_at (i : Z) (customers : list Customer.t)
  : M (list Customer.t) :=
  (let customer_id := ("CUST" ++ zfill 6 (str (i + 1)))%string in
   first_name <- choice Sampledata.FIRST_NAMES ;;
   last_name <- choice Sampledata.LAST_NAMES ;;
   x <- random ;;
   let add_issues := ltb x (issue_rate p) in
   x_id <- random ;;
   x_first <- random ;;
   x_last <- random ;;
   email <- generate_email_at first_name last_name add_issues ;;
   phone <- generate_phone_at add_issues ;;
   date_of_birth <- generate_date_at (mk_datetime 1970 1 1) (365 * 40) add_issues ;;
   x_country <- random ;;
   country <- (if gtb x_country (missing_country_rate p)
               then choice Sampledata.COUNTRIES else ret "") ;;
   kyc_status <- choice Sampledata.KYC_STATUSES ;;
   created_date <- generate_date_at Sampledata.TODAY 365 false ;;
   let customer :=
     Customer.mk
       (if gtb x_id (missing_customer_id_rate p) then customer_id else "")
       (if gtb x_first (missing_first_name_rate p) then first_name else "")
       (if gtb x_last (missing_last_name_rate p) then last_name else "")
       email phone date_of_birth country kyc_status created_date
       (strftime Sampledata.TODAY) in
   ret (customers ++ [customer])%list)%py.

Definition generate_customers_at (count : Z) : M (list Customer.t) :=
  for_each customer_body_at (range count) [].









End AtRates.



(** *** Runs that agree *)


















(** *** Where the decision draws sit *)

(** One iteration of the defect variant reads [length layout] draws, one
    per slot: a draw that the pure variant reads too, as its draw
    number [q] of the iteration, or the draw of a decision, which
    injects a defect when [random() < rate] holds ([Below]) or when
    [random() > rate] fails ([Above]). *)
Inductive slot : Type :=
| Shared (q : nat)
| Below (rate : rates -> pyfloat)
| Above (rate : rates -> pyfloat).

(** The draw [d] read at a slot injects no defect. *)
Definition quiet (p : rates) (s : slot) (d : Z) : Prop :=
  match s with
  | Shared _ => True
  | Below rate => ltb (unit_float d) (rate p) = false
  | Above rate => gtb (unit_float d) (rate p) = true
  end.

(** [synced p layout width n rp rd]: over the next [n] iterations, each
    reading [width] draws of [rp] in the pure variant and
    [length layout] draws of [rd] in the defect variant, the shared
    draws are the same and no decision draw of [rd] injects a defect at
    the rates [p]. *)
Definition synced (p : rates) (layout : list slot) (width n : nat)
  (rp rd : Rng) : Prop :=
  forall k j, (k < n)%nat -> (j < List.length layout)%nat ->
    match nth j layout (Shared 0) with
    | Shared q =>
        draws rd (j + (List.length layout * k + pos rd))
        = draws rp (q + (width * k + pos rp))
    | s => quiet p s (draws rd (j + (List.length layout * k + pos rd)))
    end.




Lemma synced_fewer p layout width n m rp rd :
  (m <= n)%nat -> synced p layout width n rp rd -> synced p layout width m rp rd.
Proof. intros Hm H k j Hk Hj. apply H; [lia | exact Hj]. Qed.




(** *** One iteration of each generator *)

Definition customer_layout : list slot :=
  [Shared 0; Shared 1; Below issue_rate; Above missing_customer_id_rate;
   Above missing_first_name_rate; Above missing_last_name_rate;
   Shared 2; Shared 3; Shared 4; Shared 5; Shared 6;
   Above missing_country_rate; Shared 7; Shared 8; Shared 9]%nat.
Definition account_layout : list slot :=
  [Below orphan_rate; Shared 0; Above missing_account_id_rate;
   Shared 1; Shared 2; Shared 3; Shared 4; Shared 5; Shared 6]%nat.
Definition transaction_layout : list slot :=
  [Shared 0; Above missing_transaction_id_rate;
   Shared 1; Shared 2; Shared 3; Shared 4; Shared 5; Shared 6]%nat.
Definition fx_layout : list slot := [Shared 0; Below bad_rate_rate; Shared 1]%nat.
Definition balance_layout : list slot := [Shared 0]%nat.




Ltac slot Hs j :=
  let H := fresh "Hslot" in
  pose proof (Hs 0%nat j ltac:(lia) ltac:(cbn; lia)) as H;
  cbn [nth List.length Nat.add Nat.mul quiet customer_layout account_layout
       transaction_layout fx_layout balance_layout] in H.






(** *** The generators *)











(** *** Several generators in a row *)

(** A phase: the layout of an iteration, the number of draws the pure
    variant reads in it, and the number of iterations. *)
Definition phase : Type := (list slot * nat * nat)%type.






(** *** Draw sequences that are synced *)

(** From the pure variant's draws [ds] to draws for the defect variant:
    the draw [filler i] is inserted at every decision slot [i]. *)
Definition pad_phase (layout : list slot) (width : nat) (filler ds : nat -> Z)
  (i : nat) : Z :=
  match nth (i mod List.length layout) layout (Shared 0) with
  | Shared q => ds (q + width * (i / List.length layout))%nat
  | _ => filler i
  end.

Fixpoint pad_phases (phases : list phase) (filler ds : nat -> Z) : nat -> Z :=
  match phases with
  | [] => ds
  | (layout, width, n) :: rest =>
      fun i =>
        if (i <? List.length layout * n)%nat
        then pad_phase layout width filler ds i
        else pad_phases rest
               (fun j => filler (List.length layout * n + j)%nat)
               (fun j => ds (width * n + j)%nat)
               (i - List.length layout * n)
  end.

Definition pad (phases : list phase) (filler : nat -> Z) (r : Rng) : Rng :=
  mk_rng (pad_phases phases filler (fun j => draws r (j + pos r)%nat)) 0.

(** The draw [d] injects no defect at any decision of the layout. *)
Definition harmless (p : rates) (layout : list slot) (d : Z) : Prop :=
  Forall (fun s => quiet p s d) layout.

Lemma harmless_nth p layout d j :
  harmless p layout d -> (j < List.length layout)%nat ->
  quiet p (nth j layout (Shared 0)) d.
Proof.
  intros H Hj. unfold harmless in H. rewrite Forall_forall in H.
  apply H. apply nth_In. exact Hj.
Qed.





(** The slot of the defect variant that holds the pure variant's draw
    number [q]. *)
Fixpoint slot_of (layout : list slot) (q : nat) : nat :=
  match layout with
  | [] => 0
  | Shared q' :: rest => if Nat.eqb q' q then 0 else S (slot_of rest q)
  | _ :: rest => S (slot_of rest q)
  end.

(** The shared slots of the layout hold the draws 0, ..., [width - 1] of
    the pure variant, each once. *)
Definition well_formed (layout : list slot) (width : nat) : bool :=
  forallb (fun j => match nth j layout (Shared 0) with
                    | Shared q => ((q <? width) && (slot_of layout q =? j))%nat
                    | _ => true
                    end) (seq 0 (List.length layout))
  && forallb (fun q => (slot_of layout q <? List.length layout)%nat) (seq 0 width).









Lemma layouts_well_formed :
  well_formed customer_layout 10 = true
  /\ well_formed account_layout 7 = true
  /\ well_formed transaction_layout 7 = true
  /\ well_formed balance_layout 1 = true
  /\ well_formed fx_layout 2 = true.
Proof. repeat split. Qed.



(** *** The field generators *)



(** *** Rates of zero *)



Lemma zero_draw_not_harmless :
  ~ harmless zero_rates customer_layout 0.
Proof.
  intros H. pose proof (harmless_nth _ _ _ 3%nat H ltac:(cbn; lia)) as Hq.
  revert Hq. vm_compute. intros Hq. discriminate Hq.
Qed.






(** Even on draws that are otherwise synced, a rate of zero does not
    switch a decision [random() > 0] off: the draw that gives 0.0 blanks
    the customer id. *)
Lemma zero_rate_blanks_id_on_zero_draw :
  exists pure_customers zero_customers r1 r2,
    Pure.generate_customers 1 sample_rng = Ok (pure_customers, r1)
    /\ generate_customers_at zero_rates 1
         (pad [(customer_layout, 10%nat, 1%nat)] (fun _ => 0) sample_rng)
       = Ok (zero_customers, r2)
    /\ map Customer.customer_id pure_customers = ["CUST000001"]
    /\ map Customer.customer_id zero_customers = [""].
Proof.
  do 4 eexists.
  split; [vm_compute; reflexivity|]. split; [vm_compute; reflexivity|].
  split; reflexivity.
Qed.


(** The draws of the examples: the sample draws for the pure variant,
    and for the defect variant the same draws with three quarters, or
    one half, inserted at each decision. *)
Definition three_quarters : Z := 3 * 2 ^ 51.



(** The customers of the two variants on the sample draws, the defect
    variant reading three quarters at each decision. *)
Lemma synced_customers_example :
  exists customers r1 r2,
    Pure.generate_customers 2 sample_rng = Ok (customers, r1)
    /\ generate_customers_at zero_rates 2
         (pad [(customer_layout, 10%nat, Z.to_nat 2)] (fun _ => three_quarters)
            sample_rng)
       = Ok (customers, r2)
    /\ Sampledata.generate_customers 2
         (pad [(customer_layout, 10%nat, Z.to_nat 2)] (fun _ => three_quarters)
            sample_rng)
       = Ok (customers, r2)
    /\ map Customer.customer_id customers = ["CUST000001"; "CUST000002"]
    /\ map Customer.phone customers = ["+1-628-389-9150"; "+1-638-399-9760"].
Proof.
  do 3 eexists.
  split; [vm_compute; reflexivity|]. split; [vm_compute; reflexivity|].
  split; [vm_compute; reflexivity|]. split; vm_compute; reflexivity.
Qed.

(** * Further properties of the generators *)

(** ** Sequence numbers make identifiers unique *)

Lemma padded_ids_injective prefix w i j :
  0 <= i -> 0 <= j ->
  (prefix ++ zfill w (str i))%string = (prefix ++ zfill w (str j))%string -> i = j.
Proof.
  intros Hi Hj E. apply string_app_inv_head in E.
  pose proof (int_of_digits_zfill w i Hi) as H1.
  rewrite E, (int_of_digits_zfill w j Hj) in H1. injection H1 as H1. lia.
Qed.

Lemma indexed_ids_unique {R : Type} (id : R -> string) prefix w (xs : list R) :
  indexed (fun k x => id x = (prefix ++ zfill w (str (k + 1)))%string) xs ->
  NoDup (map id xs).
Proof.
  intros Hi. apply NoDup_nth_error. intros i j Hlt E.
  rewrite length_map in Hlt. rewrite !nth_error_map in E.
  destruct (nth_error xs i) as [x|] eqn:Ex;
    [|apply nth_error_None in Ex; lia].
  destruct (nth_error xs j) as [y|] eqn:Ey; [|discriminate E].
  simpl in E. injection E as E.
  rewrite (Hi _ _ Ex), (Hi _ _ Ey) in E.
  apply padded_ids_injective in E; lia.
Qed.

Lemma indexed_impl {R : Type} (P Q : Z -> R -> Prop) xs :
  indexed P xs -> (forall k x, P k x -> Q k x) -> indexed Q xs.
Proof. intros H HPQ k x Hk. apply HPQ. apply H. exact Hk. Qed.

(** X1.  The defect variant's [generate_customers] never raises: for
    every count and every draw sequence it returns max(0, count)
    records, and in the record of sequence number [k] every field is
    either clean or one of the defects the source lists: the id is
    CUST and [k+1] padded to six digits, or empty; a name or the
    country is from its pool, or empty; email, phone and date of birth
    are clean or one of the listed bad values; kyc_status and the two
    system dates are always clean. *)
Theorem defect_customers_are_clean_or_listed_defects :
  forall count r,
    exists customers r',
      Sampledata.generate_customers count r = Ok (customers, r')
      /\ len customers = Z.max 0 count
      /\ forall k c, nth_error customers k = Some c ->
           defect_customer_ok (Z.of_nat k) c.
Proof.
  intros count r.
  destruct (wp_total_run _ _ _ (defect_customers_spec count r))
    as [customers [r' [Hrun [Hlen Hi]]]].
  exists customers, r'. split; [exact Hrun|]. split; [exact Hlen | exact Hi].
Qed.

(** X2.  In the pure variant identifiers never repeat: the customer ids
    of [generate_customers], the account ids of [generate_accounts] and
    the transaction ids of [generate_transactions] are pairwise
    distinct, since each is a prefix and the padded sequence number. *)
Theorem pure_ids_are_unique :
  (forall count r customers r',
     Pure.generate_customers count r = Ok (customers, r') ->
     NoDup (map Customer.customer_id customers))
  /\ (forall customers ratio r accounts r',
        Pure.generate_accounts customers ratio r = Ok (accounts, r') ->
        NoDup (map Account.account_id accounts))
  /\ (forall accounts per_account r transactions r',
        Pure.generate_transactions accounts per_account r = Ok (transactions, r') ->
        NoDup (map Transaction.transaction_id transactions)).
Proof.
  split; [|split].
  - intros count r customers r' Hrun.
    pose proof (wp_run _ _ _ _ _ _ (pure_customers_spec count r) Hrun) as [_ Hi].
    apply (indexed_ids_unique Customer.customer_id "CUST" 6).
    apply (indexed_impl _ _ _ Hi). intros k x Hx. apply Hx.
  - intros customers ratio r accounts r' Hrun.
    pose proof (wp_run _ _ _ _ _ _ (pure_accounts_spec false customers ratio r
                  ltac:(intro H; discriminate H)) Hrun) as [n [_ [_ Hi]]].
    apply (indexed_ids_unique Account.account_id "ACC" 8).
    apply (indexed_impl _ _ _ Hi). intros k x Hx. apply Hx.
  - intros accounts n r transactions r' Hrun.
    pose proof (wp_run _ _ _ _ _ _ (pure_transactions_spec false accounts n r) Hrun)
      as [_ Hi].
    apply (indexed_ids_unique Transaction.transaction_id "TXN" 10).
    apply (indexed_impl _ _ _ Hi). intros k x Hx. apply Hx.
Qed.

Lemma pure_ids_are_unique_witness :
  exists customers r1 accounts r2 transactions r3,
    Pure.generate_customers 3 sample_rng = Ok (customers, r1)
    /\ Pure.generate_accounts customers (lit 15 1) r1 = Ok (accounts, r2)
    /\ Pure.generate_transactions accounts 2 r2 = Ok (transactions, r3)
    /\ NoDup (map Customer.customer_id customers)
    /\ NoDup (map Account.account_id accounts)
    /\ NoDup (map Transaction.transaction_id transactions).
Proof.
  destruct (wp_total_run _ _ _ (pure_customers_spec 3 sample_rng))
    as [customers [r1 [Ec [Hlc _]]]].
  assert (Hcount : account_count customers (lit 15 1) = Some 4).
  { rewrite account_count_default by (rewrite Hlc; reflexivity).
    rewrite Hlc. reflexivity. }
  destruct (proj1 (accounts_by_count Pure.generate_accounts customers (lit 15 1) r1
                     (or_intror (or_introl eq_refl))) 4 Hcount)
    as [accounts [r2 [Ea _]]].
  destruct (wp_total_run _ _ _ (pure_transactions_spec true accounts 2 r2))
    as [transactions [r3 [Et _]]].
  destruct pure_ids_are_unique as [Hc [Ha Ht]].
  exists customers, r1, accounts, r2, transactions, r3.
  split; [exact Ec|]. split; [exact Ea|]. split; [exact Et|].
  split; [exact (Hc 3 sample_rng customers r1 Ec)|].
  split; [exact (Ha customers (lit 15 1) r1 accounts r2 Ea)
         | exact (Ht accounts 2 r2 transactions r3 Et)].
Defined.

(** ** Amounts stay between the bounds of [random.uniform] *)

Lemma int_lit_nonneg n : 0 <= n -> int_lit n = lit n 0.
Proof.
  intros Hn. unfold int_lit, lit.
  destruct (n <? 0) eqn:E; [apply Z.ltb_lt in E; lia | reflexivity].
Qed.

Lemma int_lit_neg n : 0 < n -> int_lit (- n) = opp (lit n 0).
Proof.
  intros Hn. unfold int_lit, lit.
  destruct (- n <? 0) eqn:E; [|apply Z.ltb_ge in E; lia].
  rewrite Z.opp_involutive. reflexivity.
Qed.

Lemma symmetric_draw_within n a x :
  0 < n < 2 ^ 50 -> is_unit x ->
  a = add (opp (lit n 0)) (mul (sub (lit n 0) (opp (lit n 0))) x) ->
  within a (- n) n.
Proof.
  intros Hn Hx ->.
  rewrite <- (int_lit_neg n) by lia. rewrite <- (int_lit_nonneg n) by lia.
  apply uniform_within; [lia | lia | exact Hx].
Qed.

Lemma balance_draw_within b : is_balance_draw b -> within b 0 100000.
Proof.
  intros [x [Hx ->]].
  rewrite <- (int_lit_nonneg 0), <- (int_lit_nonneg 100000) by lia.
  apply uniform_within; [lia | lia | exact Hx].
Qed.

Lemma amount_draw_within a : is_amount_draw a -> within a (-10000) 10000.
Proof.
  intros [x [Hx Ha]]. apply (symmetric_draw_within 10000 a x); [lia | exact Hx | exact Ha].
Qed.

Lemma delta_within d : is_delta d -> within d (-1000) 1000.
Proof.
  intros [x [Hx Hd]]. apply (symmetric_draw_within 1000 d x); [lia | exact Hx | exact Hd].
Qed.

(** X3.  In either script the balance of every generated account is the
    two-decimal text of a float between 0 and 100000, the amount of
    every generated transaction is the two-decimal text of a float
    between -10000 and 10000, and the daily change computed from any
    draw lies between -1000 and 1000: the rounding in
    a + (b - a) * random() never carries the value outside the bounds. *)
Theorem balances_and_amounts_within_bounds :
  (forall generate_accounts,
     In generate_accounts [Sampledata.generate_accounts; Pure.generate_accounts] ->
     forall customers ratio r accounts r',
       generate_accounts customers ratio r = Ok (accounts, r') ->
       forall a, In a accounts ->
         exists b, Account.balance a = format_f 2 b /\ within b 0 100000)
  /\ (forall generate_transactions,
        In generate_transactions
           [Sampledata.generate_transactions; Pure.generate_transactions] ->
        forall accounts per_account r transactions r',
          generate_transactions accounts per_account r = Ok (transactions, r') ->
          forall t, In t transactions ->
            exists x, Transaction.amount t = format_f 2 x /\ within x (-10000) 10000)
  /\ (forall d, within (daily_change d) (-1000) 1000).
Proof.
  split; [|split].
  - intros gen Hgen customers ratio r accounts r' Hrun a Ha.
    pose proof (account_balance_texts gen customers ratio r accounts r' Hgen Hrun) as HF.
    rewrite Forall_forall in HF. destruct (HF a Ha) as [b [Hb Htext]].
    exists b. split; [exact Htext | apply balance_draw_within; exact Hb].
  - intros gen Hgen accounts n r txs r' Hrun t Ht.
    assert (HF : Forall (fun t => is_amount_text (Transaction.amount t)) txs).
    { destruct Hgen as [<-|[<-|[]]].
      - pose proof (wp_run _ _ _ _ _ _ (defect_transactions_spec false accounts n r) Hrun)
          as [_ Hi].
        apply (indexed_Forall _ _ _ Hi). intros k x _ [_ [_ Hf]].
        unfold transaction_fields_ok in Hf. tauto.
      - pose proof (wp_run _ _ _ _ _ _ (pure_transactions_spec false accounts n r) Hrun)
          as [_ Hi].
        apply (indexed_Forall _ _ _ Hi). intros k x _ [_ [_ Hf]].
        unfold transaction_fields_ok in Hf. tauto. }
    rewrite Forall_forall in HF. destruct (HF t Ht) as [x [Hx Htext]].
    exists x. split; [exact Htext | apply amount_draw_within; exact Hx].
  - intros d. apply delta_within. apply daily_change_is_delta.
Qed.

Lemma balances_and_amounts_within_bounds_witness :
  exists accounts r1 transactions r2,
    Pure.generate_accounts sample_customers (lit 15 1) sample_rng = Ok (accounts, r1)
    /\ Sampledata.generate_transactions accounts 2 r1 = Ok (transactions, r2)
    /\ (forall a, In a accounts ->
          exists b, Account.balance a = format_f 2 b /\ within b 0 100000)
    /\ (forall t, In t transactions ->
          exists x, Transaction.amount t = format_f 2 x /\ within x (-10000) 10000).
Proof.
  assert (Hcount : account_count sample_customers (lit 15 1) = Some 3)
    by (vm_compute; reflexivity).
  destruct (proj1 (accounts_by_count Pure.generate_accounts sample_customers
                     (lit 15 1) sample_rng (or_intror (or_introl eq_refl))) 3 Hcount)
    as [accounts [r1 [Ea _]]].
  destruct (wp_total_run _ _ _ (defect_transactions_spec true accounts 2 r1))
    as [transactions [r2 [Et _]]].
  destruct balances_and_amounts_within_bounds as [Ha [Ht _]].
  exists accounts, r1, transactions, r2.
  split; [exact Ea|]. split; [exact Et|].
  split; [exact (Ha Pure.generate_accounts (or_intror (or_introl eq_refl))
                    sample_customers (lit 15 1) sample_rng accounts r1 Ea)
         | exact (Ht Sampledata.generate_transactions (or_introl eq_refl)
                     accounts 2 r1 transactions r2 Et)].
Defined.

(** ** Identifiers of balances and rates *)

(** X4.  Balance ids and FX rate ids carry the running length of the
    output list, so in either script they are pairwise distinct, also
    across accounts and across days. *)
Theorem balance_and_rate_ids_are_unique :
  (forall generate_daily_balances,
     In generate_daily_balances
        [Sampledata.generate_daily_balances; Pure.generate_daily_balances] ->
     forall accounts days r balances r',
       generate_daily_balances accounts days r = Ok (balances, r') ->
       NoDup (map DailyBalance.balance_id balances))
  /\ (forall generate_fx_rates,
        In generate_fx_rates [Sampledata.generate_fx_rates; Pure.generate_fx_rates] ->
        forall days r rates r',
          days <= 739638 ->
          generate_fx_rates days r = Ok (rates, r') ->
          NoDup (map FxRate.rate_id rates)).
Proof.
  split.
  - intros gen Hgen accounts days r balances r' Hrun.
    apply (indexed_ids_unique DailyBalance.balance_id "BAL" 10).
    destruct Hgen as [<-|[<-|[]]].
    + apply (wp_run _ _ _ _ _ _ (defect_daily_balances_spec false accounts days r
               ltac:(intro H; discriminate H)) Hrun).
    + apply (wp_run _ _ _ _ _ _ (pure_daily_balances_spec false accounts days r
               ltac:(intro H; discriminate H)) Hrun).
  - intros gen Hgen days r rates r' Hdays Hrun.
    apply (indexed_ids_unique FxRate.rate_id "FX" 8).
    destruct Hgen as [<-|[<-|[]]].
    + pose proof (wp_run _ _ _ _ _ _
                    (defect_fx_rates_spec any_text days r Hdays (any_date days)) Hrun)
        as [_ Hi].
      apply (indexed_impl _ _ _ Hi). intros k x Hx. apply Hx.
    + pose proof (wp_run _ _ _ _ _ _
                    (pure_fx_rates_spec any_text days r Hdays (any_date days)) Hrun)
        as [_ Hi].
      apply (indexed_impl _ _ _ Hi). intros k x Hx. apply Hx.
Qed.

Lemma balance_and_rate_ids_are_unique_witness :
  exists balances r1 rates r2,
    1 <= 739638
    /\ Pure.generate_daily_balances odd_accounts 2 sample_rng = Ok (balances, r1)
    /\ Sampledata.generate_fx_rates 1 r1 = Ok (rates, r2)
    /\ NoDup (map DailyBalance.balance_id balances)
    /\ NoDup (map FxRate.rate_id rates).
Proof.
  assert (Hs : true = true ->
            Forall (fun a => float_of_string (Account.balance a) <> None) odd_accounts
            /\ (odd_accounts = [] \/ 2 <= 739638))
    by (intros _; split; [exact odd_accounts_parse | right; lia]).
  destruct (wp_total_run _ _ _ (pure_daily_balances_spec true odd_accounts 2 sample_rng Hs))
    as [balances [r1 [Eb _]]].
  destruct (wp_total_run _ _ _
              (defect_fx_rates_spec any_text 1 r1 ltac:(lia) (any_date 1)))
    as [rates [r2 [Ef _]]].
  destruct balance_and_rate_ids_are_unique as [Hb Hf].
  assert (H1 : 1 <= 739638) by lia.
  exists balances, r1, rates, r2. split; [exact H1|]. split; [exact Eb|].
  split; [exact Ef|].
  split; [exact (Hb Pure.generate_daily_balances (or_intror (or_introl eq_refl))
                    odd_accounts 2 sample_rng balances r1 Eb)
         | exact (Hf Sampledata.generate_fx_rates (or_introl eq_refl)
                     1 r1 rates r2 H1 Ef)].
Defined.

(** ** The defect variant: accounts and transactions *)

(** X5.  In the defect variant of [generate_accounts] and
    [generate_transactions] only the identifier (and, for accounts, the
    customer reference) can be defective: the id of the record of
    sequence number [k] is the prefix and [k+1] padded, or empty; an
    account refers to a supplied customer or carries an orphan id;
    a transaction always copies id and currency of a supplied account;
    every other field is clean, as in the pure variant. *)
Theorem defect_accounts_and_transactions_shape :
  (forall customers ratio r accounts r',
     Sampledata.generate_accounts customers ratio r = Ok (accounts, r') ->
     forall k a, nth_error accounts k = Some a ->
       defect_account_ok customers (Z.of_nat k) a)
  /\ (forall accounts per_account r transactions r',
        Sampledata.generate_transactions accounts per_account r
          = Ok (transactions, r') ->
        forall k t, nth_error transactions k = Some t ->
          defect_transaction_ok accounts (Z.of_nat k) t).
Proof.
  split.
  - intros customers ratio r accounts r' Hrun.
    pose proof (wp_run _ _ _ _ _ _ (defect_accounts_spec false customers ratio r
                  ltac:(intro H; discriminate H)) Hrun) as [n [_ [_ Hi]]].
    exact Hi.
  - intros accounts n r transactions r' Hrun.
    pose proof (wp_run _ _ _ _ _ _ (defect_transactions_spec false accounts n r) Hrun)
      as [_ Hi].
    exact Hi.
Qed.

Lemma defect_accounts_and_transactions_shape_witness :
  exists accounts r1 transactions r2,
    Sampledata.generate_accounts sample_customers (lit 15 1) sample_rng
      = Ok (accounts, r1)
    /\ Sampledata.generate_transactions accounts 2 r1 = Ok (transactions, r2)
    /\ (forall k a, nth_error accounts k = Some a ->
          defect_account_ok sample_customers (Z.of_nat k) a)
    /\ (forall k t, nth_error transactions k = Some t ->
          defect_transaction_ok accounts (Z.of_nat k) t).
Proof.
  assert (Hcount : account_count sample_customers (lit 15 1) = Some 3)
    by (vm_compute; reflexivity).
  destruct (proj1 (accounts_by_count Sampledata.generate_accounts sample_customers
                     (lit 15 1) sample_rng (or_introl eq_refl)) 3 Hcount)
    as [accounts [r1 [Ea _]]].
  destruct (wp_total_run _ _ _ (defect_transactions_spec true accounts 2 r1))
    as [transactions [r2 [Et _]]].
  destruct defect_accounts_and_transactions_shape as [Ha Ht].
  exists accounts, r1, transactions, r2.
  split; [exact Ea|]. split; [exact Et|].
  split; [exact (Ha sample_customers (lit 15 1) sample_rng accounts r1 Ea)
         | exact (Ht accounts 2 r1 transactions r2 Et)].
Defined.

(** ** FX rates *)

(** X6.  [generate_fx_rates] returns for every number of days up to
    739638 (the days between 0001-01-01 and TODAY), and then 7 records
    per day; the record at position [k] has the id FX and [k+1] padded
    to eight digits, quotes USD against one of the seven currencies and
    names one of the three sources; up to 374761 days its date is a
    calendar date YYYY-MM-DD.  In the pure variant the rate is always a
    text with six decimals; in the defect variant it is that or one of
    the three listed bad values. *)
Theorem fx_rates_shape :
  forall days r,
    days <= 739638 ->
    (exists rates r',
       Pure.generate_fx_rates days r = Ok (rates, r')
       /\ len rates = 7 * Z.max 0 days
       /\ (forall k x, nth_error rates k = Some x ->
             pure_fx_ok any_text (Z.of_nat k) x)
       /\ (days <= 374761 ->
           forall k x, nth_error rates k = Some x -> pure_fx_ok iso (Z.of_nat k) x))
    /\ (exists rates r',
          Sampledata.generate_fx_rates days r = Ok (rates, r')
          /\ len rates = 7 * Z.max 0 days
          /\ (forall k x, nth_error rates k = Some x ->
                defect_fx_ok any_text (Z.of_nat k) x)
          /\ (days <= 374761 ->
              forall k x, nth_error rates k = Some x ->
                defect_fx_ok iso (Z.of_nat k) x)).
Proof.
  intros days r Hdays. split.
  - destruct (wp_total_run _ _ _
                (pure_fx_rates_spec any_text days r Hdays (any_date days)))
      as [rates [r' [Hrun [Hlen Hi]]]].
    exists rates, r'. split; [exact Hrun|]. split; [exact Hlen|].
    split; [exact Hi|]. intros Hrecent.
    apply (wp_run _ _ _ _ _ _
             (pure_fx_rates_spec iso days r Hdays (recent_dates days Hrecent)) Hrun).
  - destruct (wp_total_run _ _ _
                (defect_fx_rates_spec any_text days r Hdays (any_date days)))
      as [rates [r' [Hrun [Hlen Hi]]]].
    exists rates, r'. split; [exact Hrun|]. split; [exact Hlen|].
    split; [exact Hi|]. intros Hrecent.
    apply (wp_run _ _ _ _ _ _
             (defect_fx_rates_spec iso days r Hdays (recent_dates days Hrecent)) Hrun).
Qed.

Lemma fx_rates_shape_witness :
  90 <= 739638 /\ 90 <= 374761
  /\ (exists rates r',
        Pure.generate_fx_rates 90 sample_rng = Ok (rates, r')
        /\ len rates = 7 * Z.max 0 90
        /\ forall k x, nth_error rates k = Some x -> pure_fx_ok iso (Z.of_nat k) x)
  /\ (exists rates r',
        Sampledata.generate_fx_rates 90 sample_rng = Ok (rates, r')
        /\ len rates = 7 * Z.max 0 90
        /\ forall k x, nth_error rates k = Some x -> defect_fx_ok iso (Z.of_nat k) x).
Proof.
  assert (H : 90 <= 739638) by lia.
  assert (H' : 90 <= 374761) by lia.
  split; [exact H|]. split; [exact H'|].
  destruct (fx_rates_shape 90 sample_rng H)
    as [[rp [rp' [Ep [Lp [_ Hp]]]]] [rd [rd' [Ed [Ld [_ Hd]]]]]].
  split; [exists rp, rp'; split; [exact Ep|]; split; [exact Lp | exact (Hp H')]
         | exists rd, rd'; split; [exact Ed|]; split; [exact Ld | exact (Hd H')]].
Defined.

(** The record of one quote currency on one day. *)
Definition fx_of (date : datetime) (entry : string * pyfloat) (x : FxRate.t) : Prop :=
  FxRate.from_currency x = "USD"
  /\ FxRate.to_currency x = fst entry
  /\ FxRate.rate_date x = strftime date.

Lemma wp_for_each_append {A R : Type} total (body : A -> list R -> M (list R))
  (P : A -> R -> Prop) (xs : list A) :
  (forall x rs r, In x xs ->
     wp total (body x rs) (fun rs' _ => exists y, rs' = (rs ++ [y])%list /\ P x y) r) ->
  forall rs r,
    wp total (for_each body xs rs)
       (fun rs' _ => exists g, rs' = (rs ++ g)%list /\ Forall2 P xs g) r.
Proof.
  induction xs as [|x xs IH]; intros Hbody rs r.
  - apply wp_ret. exists []. split; [symmetry; apply app_nil_r | constructor].
  - simpl. apply wp_bind.
    eapply wp_conseq; [apply Hbody; left; reflexivity|].
    intros rs' r' [y [-> Hy]].
    eapply wp_conseq; [apply IH; intros x' rs0 r0 Hx'; apply Hbody; right; exact Hx'|].
    intros rs'' _ [g [-> Hg]]. exists (y :: g).
    split; [rewrite <- app_assoc; reflexivity | constructor; assumption].
Qed.

Lemma wp_for_each_groups {A R : Type} total (body : A -> list R -> M (list R))
  (P : A -> list R -> Prop) (xs : list A) :
  (forall x rs r, In x xs ->
     wp total (body x rs) (fun rs' _ => exists g, rs' = (rs ++ g)%list /\ P x g) r) ->
  forall rs r,
    wp total (for_each body xs rs)
       (fun rs' _ => exists groups,
                       rs' = (rs ++ List.concat groups)%list /\ Forall2 P xs groups) r.
Proof.
  induction xs as [|x xs IH]; intros Hbody rs r.
  - apply wp_ret. exists []. split; [symmetry; apply app_nil_r | constructor].
  - simpl. apply wp_bind.
    eapply wp_conseq; [apply Hbody; left; reflexivity|].
    intros rs' r' [g [-> Hg]].
    eapply wp_conseq; [apply IH; intros x' rs0 r0 Hx'; apply Hbody; right; exact Hx'|].
    intros rs'' _ [groups [-> Hgroups]]. exists (g :: groups).
    split; [simpl; rewrite <- app_assoc; reflexivity | constructor; assumption].
Qed.

Lemma pure_fx_body_of date entry rates r :
  wp false (Pure.fx_body date entry rates)
     (fun rates' _ => exists x, rates' = (rates ++ [x])%list /\ fx_of date entry x) r.
Proof.
  destruct entry as [currency base_rate]. unfold Pure.fx_body.
  repeat wp_step side_partial.
  eexists. split; [reflexivity|]. split; [reflexivity|]. split; reflexivity.
Qed.

Lemma defect_fx_body_of date entry rates r :
  wp false (Sampledata.fx_body date entry rates)
     (fun rates' _ => exists x, rates' = (rates ++ [x])%list /\ fx_of date entry x) r.
Proof.
  destruct entry as [currency base_rate]. unfold Sampledata.fx_body.
  repeat wp_step side_partial.
  all: eexists; split; [reflexivity|]; split; [reflexivity|]; split; reflexivity.
Qed.

(** The records of one day: one per quote currency, in the order of
    [base_rates], all dated that day. *)
Definition fx_day_group (day : Z) (g : list FxRate.t) : Prop :=
  exists date, add_days Sampledata.TODAY (- day) = Some date
    /\ Forall2 (fx_of date) Sampledata.base_rates g.

(** X7.  In either script the output of [generate_fx_rates] is one
    group per day, day 0 (TODAY) first; each group holds exactly one
    record per quote currency, in the order EUR, GBP, JPY, CAD, AUD,
    CHF, CNY of [base_rates], each quoting USD against that currency
    and dated that day. *)
Theorem fx_rates_are_grouped_by_day :
  forall generate_fx_rates,
    In generate_fx_rates [Sampledata.generate_fx_rates; Pure.generate_fx_rates] ->
    forall days r rates r',
      generate_fx_rates days r = Ok (rates, r') ->
      exists groups,
        rates = List.concat groups
        /\ Forall2 fx_day_group (range days) groups.
Proof.
  intros gen Hgen days r rates r' Hrun.
  assert (H : wp false (gen days)
                (fun rs _ => exists groups, rs = ([] ++ List.concat groups)%list
                               /\ Forall2 fx_day_group (range days) groups) r).
  { destruct Hgen as [<-|[<-|[]]].
    - unfold Sampledata.generate_fx_rates. apply wp_for_each_groups.
      intros day rs r0 _. unfold Sampledata.fx_day.
      apply wp_bind. apply wp_lift_option; [side_partial | intros date Hdate].
      eapply wp_conseq;
        [apply (wp_for_each_append false (Sampledata.fx_body date) (fx_of date));
         intros entry rs1 r1 _; apply defect_fx_body_of|].
      intros rs' _ [g [-> Hg]]. exists g. split; [reflexivity|].
      exists date. split; [exact Hdate | exact Hg].
    - unfold Pure.generate_fx_rates. apply wp_for_each_groups.
      intros day rs r0 _. unfold Pure.fx_day.
      apply wp_bind. apply wp_lift_option; [side_partial | intros date Hdate].
      eapply wp_conseq;
        [apply (wp_for_each_append false (Pure.fx_body date) (fx_of date));
         intros entry rs1 r1 _; apply pure_fx_body_of|].
      intros rs' _ [g [-> Hg]]. exists g. split; [reflexivity|].
      exists date. split; [exact Hdate | exact Hg]. }
  apply (wp_run _ _ _ _ _ _ H Hrun).
Qed.

Lemma fx_rates_are_grouped_by_day_witness :
  (exists rates r' groups,
     Pure.generate_fx_rates 2 sample_rng = Ok (rates, r')
     /\ rates = List.concat groups
     /\ Forall2 fx_day_group (range 2) groups)
  /\ (exists rates r' groups,
        Sampledata.generate_fx_rates 2 sample_rng = Ok (rates, r')
        /\ rates = List.concat groups
        /\ Forall2 fx_day_group (range 2) groups).
Proof.
  destruct (wp_total_run _ _ _
              (pure_fx_rates_spec any_text 2 sample_rng ltac:(lia) (any_date 2)))
    as [rp [rp' [Ep _]]].
  destruct (wp_total_run _ _ _
              (defect_fx_rates_spec any_text 2 sample_rng ltac:(lia) (any_date 2)))
    as [rd [rd' [Ed _]]].
  destruct (fx_rates_are_grouped_by_day Pure.generate_fx_rates
              (or_intror (or_introl eq_refl)) 2 sample_rng rp rp' Ep)
    as [gp [Hcp HFp]].
  destruct (fx_rates_are_grouped_by_day Sampledata.generate_fx_rates
              (or_introl eq_refl) 2 sample_rng rd rd' Ed)
    as [gd [Hcd HFd]].
  split; [exists rp, rp', gp | exists rd, rd', gd];
    (split; [assumption|]; split; assumption).
Defined.

(** ** The entry points *)



(** ** Orphaned accounts *)

Lemma wp_randint_draw total a b (Q : Z -> Rng -> Prop) r :
  (total = true -> a <= b) ->
  (a <= b -> Q (a + draws r (pos r) mod (b - a + 1)) (advance r)) ->
  wp total (randint a b) Q r.
Proof.
  intros Hab HQ. unfold randint. destruct (b <? a) eqn:E.
  - unfold wp, raise. destruct total;
      [apply Z.ltb_lt in E; specialize (Hab eq_refl); lia | reflexivity].
  - apply Z.ltb_ge in E. apply wp_bind. unfold randbelow. apply wp_bind.
    apply wp_next_draw. apply wp_ret. apply wp_ret. apply HQ. exact E.
Qed.

(** What the draws decide of the account of sequence number [i], whose
    iteration starts reading at draw [p]: the first draw decides between
    an orphan reference, numbered by the second draw, and a customer of
    the list; the third draw decides whether the account keeps its id. *)
Definition account_by_draw (customers : list Customer.t) (ds : nat -> Z)
  (p : nat) (i : Z) (a : Account.t) : Prop :=
  (if ltb (unit_float (ds p)) (lit 5 2)
   then Account.customer_id a
        = Sampledata.orphan_id (900000 + ds (S p) mod 100000)
   else exists c, In c customers
          /\ Account.customer_id a = Customer.customer_id c)
  /\ Account.account_id a
     = (if gtb (unit_float (ds (S (S p)))) (lit 1 2)
        then ("ACC" ++ zfill 8 (str (i + 1)))%string else "").

Lemma defect_account_by_draw total customers i accts r :
  (total = true -> customers <> []) ->
  wp total (Sampledata.account_body customers i accts)
     (fun accts' r' =>
        after 9 r r'
        /\ exists a, accts' = (accts ++ [a])%list
             /\ account_by_draw customers (draws r) (pos r) i a) r.
Proof.
  intros Hne. unfold Sampledata.account_body, Sampledata.generate_date.
  apply wp_bind. apply wp_random. apply wp_bind.
  destruct (ltb (unit_float (draws r (pos r))) (lit 5 2)) eqn:Eorphan.
  - apply wp_bind. apply wp_randint_draw; [side_total | intros _].
    apply wp_ret.
    repeat wp_step side_total.
    all: (split; [split; [reflexivity | cbn [pos advance]; lia]|]).
    all: eexists; (split; [reflexivity|]); unfold account_by_draw; unfold_fields.
    all: rewrite Eorphan; cbn [draws pos advance] in *.
    all: split; [reflexivity|].
    all: reflexivity.
  - apply wp_bind. apply wp_choice; [exact Hne | intros c Hc]. apply wp_ret.
    repeat wp_step side_total.
    all: (split; [split; [reflexivity | cbn [pos advance]; lia]|]).
    all: eexists; (split; [reflexivity|]); unfold account_by_draw; unfold_fields.
    all: rewrite Eorphan; cbn [draws pos advance] in *.
    all: split; [exists c; split; [exact Hc | reflexivity]|].
    all: reflexivity.
Qed.

(** A loop that appends one record per pass, each pass reading [c]
    draws. *)
Lemma wp_range_append_draws {R : Type} total (body : Z -> list R -> M (list R))
  (c : nat) (P : (nat -> Z) -> nat -> Z -> R -> Prop) (n : Z) r :
  (forall i cs r0, 0 <= i < n -> len cs = i ->
     wp total (body i cs)
        (fun cs' r1 => after c r0 r1
           /\ exists x, cs' = (cs ++ [x])%list /\ P (draws r0) (pos r0) i x) r0) ->
  wp total (for_each body (range n) [])
     (fun cs r' =>
        len cs = Z.max 0 n /\ after (c * List.length cs) r r'
        /\ forall k x, nth_error cs k = Some x ->
             P (draws r) (pos r + c * k)%nat (Z.of_nat k) x) r.
Proof.
  intros Hbody.
  pose (Inv := fun (rem : list Z) (cs : list R) (r' : Rng) =>
     rem = range_from (len cs) (List.length rem)
     /\ len cs + Z.of_nat (List.length rem) = Z.max 0 n
     /\ after (c * List.length cs) r r'
     /\ forall k x, nth_error cs k = Some x ->
          P (draws r) (pos r + c * k)%nat (Z.of_nat k) x).
  eapply wp_conseq.
  - apply (wp_for_each_rng total body Inv).
    + intros i rem cs r0 [Hrem [Hlen [[Hd Hp] Hidx]]].
      cbn [List.length range_from] in Hrem. injection Hrem as Hi Hrem'.
      eapply wp_conseq.
      * apply Hbody; [|symmetry; exact Hi]. cbn [List.length] in Hlen.
        unfold len in *. lia.
      * cbv beta. intros cs' r1 [[Hd1 Hp1] [x [-> Hx]]]. unfold Inv.
        rewrite len_app. change (len [x]) with 1.
        split; [exact Hrem'|]. split; [cbn [List.length] in Hlen; lia|].
        split.
        -- split; [rewrite Hd1; exact Hd|].
           rewrite Hp1, Hp, length_app. cbn [List.length]. lia.
        -- intros k y Hk.
           destruct (Nat.lt_ge_cases k (List.length cs)) as [Hlt|Hge].
           ++ rewrite nth_error_app1 in Hk by exact Hlt. apply Hidx. exact Hk.
           ++ rewrite nth_error_app2 in Hk by exact Hge.
              destruct (k - List.length cs)%nat as [|j] eqn:E;
                [|destruct j; discriminate Hk].
              cbn [nth_error] in Hk. injection Hk as <-.
              replace k with (List.length cs) by lia.
              rewrite Hd, Hp, Hi in Hx. exact Hx.
    + unfold Inv, range. rewrite length_range_from. change (len []) with 0.
      split; [reflexivity|]. split; [lia|].
      split; [split; [reflexivity | cbn [List.length]; lia]|].
      intros k x Hk. destruct k; discriminate Hk.
  - cbv beta. intros cs r' [_ [Hlen [Ha Hidx]]]. cbn [List.length] in Hlen.
    split; [lia|]. split; [exact Ha | exact Hidx].
Qed.

Lemma defect_accounts_by_draw customers ratio r :
  wp false (Sampledata.generate_accounts customers ratio)
     (fun accts r' =>
        after (9 * List.length accts) r r'
        /\ forall k a, nth_error accts k = Some a ->
             account_by_draw customers (draws r) (pos r + 9 * k)%nat (Z.of_nat k) a) r.
Proof.
  unfold Sampledata.generate_accounts.
  unfold wp. rewrite <- bind_assoc_run. fold (wp false
    (bind (bind (int_times_float (len customers) ratio) (fun product => int_of_float product))
          (fun count => for_each (Sampledata.account_body customers) (range count) []))
    (fun accts r' =>
        after (9 * List.length accts) r r'
        /\ forall k a, nth_error accts k = Some a ->
             account_by_draw customers (draws r) (pos r + 9 * k)%nat (Z.of_nat k) a) r).
  apply wp_bind. apply wp_account_count; [intros H; discriminate H|].
  intros count Hcount.
  eapply wp_conseq.
  - apply (wp_range_append_draws false (Sampledata.account_body customers) 9
             (fun ds p i a => account_by_draw customers ds p i a)).
    intros i accts r0 _ _. apply defect_account_by_draw. intros H; discriminate H.
  - cbv beta. intros accts r' [_ H]. exact H.
Qed.

Lemma padded_number_differs i n :
  0 <= i -> 0 <= n -> i <> n ->
  ("CUST" ++ zfill 6 (str i))%string <> Sampledata.orphan_id n.
Proof.
  intros Hi Hn Hne E. unfold Sampledata.orphan_id in E.
  apply string_app_inv_head in E.
  pose proof (int_of_digits_zfill 6 i Hi) as H1.
  rewrite E, (int_of_digits_str n Hn) in H1. injection H1 as H1. lia.
Qed.

(** X9.  In the defect variant's [generate_accounts] every account
    reads nine draws.  The first of them decides the customer
    reference: when it gives [random() < 0.05] the reference is the
    orphan id CUST and 900000 plus the second draw modulo 100000,
    otherwise it is the id of a supplied customer; the third decides
    whether the account keeps its id.  For customers produced by
    [generate_customers] with a count of at most 899999 the orphan id
    of an account that takes the orphan branch is the id of no
    customer. *)
Theorem orphan_accounts_are_decided_by_the_draws :
  forall customers ratio r accounts r',
    Sampledata.generate_accounts customers ratio r = Ok (accounts, r') ->
    (forall k a, nth_error accounts k = Some a ->
       account_by_draw customers (draws r) (pos r + 9 * k)%nat (Z.of_nat k) a)
    /\ (draws r' = draws r /\ pos r' = (pos r + 9 * List.length accounts)%nat)
    /\ (forall count rc rc',
          count <= 899999 ->
          Sampledata.generate_customers count rc = Ok (customers, rc') ->
          forall k a,
            nth_error accounts k = Some a ->
            ltb (unit_float (draws r (pos r + 9 * k)%nat)) (lit 5 2) = true ->
            Account.customer_id a
            = Sampledata.orphan_id
                (900000 + draws r (S (pos r + 9 * k)) mod 100000)
            /\ forall c, In c customers ->
                 Customer.customer_id c <> Account.customer_id a).
Proof.
  intros customers ratio r accounts r' Hrun.
  pose proof (wp_run _ _ _ _ _ _ (defect_accounts_by_draw customers ratio r) Hrun)
    as [Hafter Hby].
  split; [exact Hby|]. split; [exact Hafter|].
  intros count rc rc' Hcount Hc k a Hk Horphan.
  destruct (Hby k a Hk) as [Href _]. rewrite Horphan in Href.
  split; [exact Href|].
  intros c Hin. rewrite Href.
  pose proof (wp_run _ _ _ _ _ _ (defect_customers_spec count rc) Hc) as [Hlen Hi].
  assert (HF : Forall (fun c => forall n, 900000 <= n <= 999999 ->
                         Customer.customer_id c <> Sampledata.orphan_id n) customers).
  { apply (indexed_Forall _ _ _ Hi). intros j x Hj [[Hid|Hid] _] m Hm; rewrite Hid.
    - apply padded_number_differs; lia.
    - intro E. discriminate E. }
  rewrite Forall_forall in HF. apply (HF c Hin).
  pose proof (Z.mod_pos_bound (draws r (S (pos r + 9 * k))) 100000 ltac:(lia)). lia.
Qed.

(** Draws for the example: the first draw gives [random()] = 0.0, every
    other draw one half. *)
Definition first_orphan_rng : Rng :=
  mk_rng (fun n => if Nat.eqb n 0 then 0 else 2 ^ 52) 0.

Lemma orphan_accounts_are_decided_by_the_draws_witness :
  exists customers rc' accounts r' a,
    3 <= 899999
    /\ Sampledata.generate_customers 3 quiet_rng = Ok (customers, rc')
    /\ map Customer.customer_id customers = ["CUST000001"; "CUST000002"; "CUST000003"]
    /\ Sampledata.generate_accounts customers (lit 15 1) first_orphan_rng
       = Ok (accounts, r')
    /\ nth_error accounts 0 = Some a
    /\ ltb (unit_float (draws first_orphan_rng (pos first_orphan_rng + 9 * 0)%nat))
           (lit 5 2) = true
    /\ Account.customer_id a
       = Sampledata.orphan_id
           (900000 + draws first_orphan_rng
                       (S (pos first_orphan_rng + 9 * 0)) mod 100000)
    /\ (forall c, In c customers ->
          Customer.customer_id c <> Account.customer_id a)
    /\ (forall k a', nth_error accounts k = Some a' ->
          account_by_draw customers (draws first_orphan_rng)
            (pos first_orphan_rng + 9 * k)%nat (Z.of_nat k) a').
Proof.
  destruct (Sampledata.generate_customers 3 quiet_rng) as [[customers rc']|e] eqn:Ec;
    [|exfalso; revert Ec; vm_compute; intros Ec; discriminate Ec].
  assert (Hids : map Customer.customer_id customers
                 = ["CUST000001"; "CUST000002"; "CUST000003"]).
  { revert Ec. vm_compute. intros Ec. injection Ec as <- _. reflexivity. }
  pose proof (wp_run _ _ _ _ _ _ (defect_customers_spec 3 quiet_rng) Ec) as [Hlc _].
  assert (Hcount : account_count customers (lit 15 1) = Some 4).
  { rewrite account_count_default by (rewrite Hlc; reflexivity).
    rewrite Hlc. reflexivity. }
  destruct (proj1 (accounts_by_count Sampledata.generate_accounts customers (lit 15 1)
                     first_orphan_rng (or_introl eq_refl)) 4 Hcount)
    as [accounts [r' [Ea Hla]]].
  destruct accounts as [|a rest]; [discriminate Hla|].
  assert (H3 : 3 <= 899999) by lia.
  assert (Hdraw : ltb (unit_float (draws first_orphan_rng
                                     (pos first_orphan_rng + 9 * 0)%nat)) (lit 5 2)
                  = true) by (vm_compute; reflexivity).
  destruct (orphan_accounts_are_decided_by_the_draws customers (lit 15 1)
              first_orphan_rng (a :: rest) r' Ea) as [Hby [_ Horphan]].
  destruct (Horphan 3 quiet_rng rc' H3 Ec 0%nat a eq_refl Hdraw) as [Hid Hno].
  exists customers, rc', (a :: rest), r', a.
  split; [exact H3|]. split; [reflexivity|]. split; [exact Hids|].
  split; [exact Ea|]. split; [reflexivity|]. split; [exact Hdraw|].
  split; [exact Hid|]. split; [exact Hno | exact Hby].
Defined.

(** ** The number of accounts *)

(** X10.  The number of accounts is the truncated float product:
    whenever [generate_accounts] returns, it returns
    max(0, int(len(customers) * ratio)) records, so a negative ratio
    gives none.  A ratio that is not a number raises [ValueError]
    (int(nan)); an infinite ratio raises [OverflowError] (int(inf)) when
    there are customers and [ValueError] when there are none (0 * inf is
    nan).  Both scripts; fewer than 2^53 customers. *)
Theorem account_count_is_the_truncated_product :
  forall generate_accounts,
    In generate_accounts [Sampledata.generate_accounts; Pure.generate_accounts] ->
    forall customers r,
      len customers < 2 ^ 53 ->
      (forall ratio accounts r',
         generate_accounts customers ratio r = Ok (accounts, r') ->
         exists count, account_count customers ratio = Some count
                       /\ len accounts = Z.max 0 count)
      /\ generate_accounts customers FNan r = Raise ValueError
      /\ (forall s, customers <> [] ->
            generate_accounts customers (FInf s) r = Raise OverflowError)
      /\ (forall s, customers = [] ->
            generate_accounts customers (FInf s) r = Raise ValueError).
Proof.
  intros gen Hgen customers r Hlen.
  assert (Hnn : 0 <= len customers) by (unfold len; lia).
  assert (Hof : of_int (len customers) = Some (FFin false (len customers * W)))
    by (apply of_int_exact; lia).
  split.
  { intros ratio accounts r' Hrun. destruct Hgen as [<-|[<-|[]]].
    - pose proof (wp_run _ _ _ _ _ _ (defect_accounts_spec false customers ratio r
                    ltac:(intro H; discriminate H)) Hrun) as [n [Hn [Hl _]]].
      exists n. split; assumption.
    - pose proof (wp_run _ _ _ _ _ _ (pure_accounts_spec false customers ratio r
                    ltac:(intro H; discriminate H)) Hrun) as [n [Hn [Hl _]]].
      exists n. split; assumption. }
  assert (Hnan : forall body : Z -> list Account.t -> M (list Account.t),
            (product <- int_times_float (len customers) FNan ;;
             count <- int_of_float product ;;
             for_each body (range count) [])%py r = Raise ValueError).
  { intros body. unfold int_times_float, bind, lift_option, ret. rewrite Hof.
    rewrite mul_nan_r. reflexivity. }
  assert (Hinf : forall (body : Z -> list Account.t -> M (list Account.t)) s,
            (product <- int_times_float (len customers) (FInf s) ;;
             count <- int_of_float product ;;
             for_each body (range count) [])%py r
            = if len customers * W =? 0 then Raise ValueError else Raise OverflowError).
  { intros body s. unfold int_times_float, bind, lift_option, ret. rewrite Hof.
    rewrite mul_inf_r. destruct (len customers * W =? 0); reflexivity. }
  pose proof W_pos as HW.
  split; [|split].
  - destruct Hgen as [<-|[<-|[]]]; apply Hnan.
  - intros s Hne.
    assert (E : (len customers * W =? 0) = false).
    { apply Z.eqb_neq. destruct customers; [congruence|].
      unfold len. cbn [List.length]. nia. }
    destruct Hgen as [<-|[<-|[]]].
    + unfold Sampledata.generate_accounts. rewrite Hinf, E. reflexivity.
    + unfold Pure.generate_accounts. rewrite Hinf, E. reflexivity.
  - intros s ->.
    destruct Hgen as [<-|[<-|[]]].
    + unfold Sampledata.generate_accounts. rewrite Hinf. reflexivity.
    + unfold Pure.generate_accounts. rewrite Hinf. reflexivity.
Qed.

Lemma account_count_is_the_truncated_product_witness :
  len sample_customers < 2 ^ 53
  /\ (exists accounts r' count,
        Pure.generate_accounts seven_customers (opp (lit 11 1)) sample_rng
        = Ok (accounts, r')
        /\ account_count seven_customers (opp (lit 11 1)) = Some count
        /\ len accounts = Z.max 0 count)
  /\ Sampledata.generate_accounts sample_customers FNan sample_rng = Raise ValueError
  /\ Pure.generate_accounts sample_customers FNan sample_rng = Raise ValueError
  /\ (sample_customers <> []
      /\ Sampledata.generate_accounts sample_customers (FInf false) sample_rng
         = Raise OverflowError)
  /\ Pure.generate_accounts [] (FInf true) sample_rng = Raise ValueError.
Proof.
  assert (H : len sample_customers < 2 ^ 53) by (vm_compute; reflexivity).
  assert (H7 : len seven_customers < 2 ^ 53) by (vm_compute; reflexivity).
  assert (H0 : len (@nil Customer.t) < 2 ^ 53) by (vm_compute; reflexivity).
  assert (Hne : sample_customers <> []) by (intro E; discriminate E).
  split; [exact H|].
  destruct (account_count_is_the_truncated_product Sampledata.generate_accounts
              (or_introl eq_refl) sample_customers sample_rng H) as [_ [Hnan [Hinf _]]].
  destruct (account_count_is_the_truncated_product Pure.generate_accounts
              (or_intror (or_introl eq_refl)) sample_customers sample_rng H)
    as [_ [Hnan' _]].
  destruct (account_count_is_the_truncated_product Pure.generate_accounts
              (or_intror (or_introl eq_refl)) seven_customers sample_rng H7)
    as [Hcount _].
  destruct (account_count_is_the_truncated_product Pure.generate_accounts
              (or_intror (or_introl eq_refl)) [] sample_rng H0)
    as [_ [_ [_ Hempty]]].
  split.
  { destruct (Pure.generate_accounts seven_customers (opp (lit 11 1)) sample_rng)
      as [[accounts r']|e] eqn:E;
      [|exfalso; revert E; vm_compute; intros E; discriminate E].
    destruct (Hcount (opp (lit 11 1)) accounts r' E) as [count [Hc Hl]].
    exists accounts, r', count. split; [reflexivity|]. split; [exact Hc | exact Hl]. }
  split; [exact Hnan|]. split; [exact Hnan'|].
  split; [split; [exact Hne | exact (Hinf false Hne)]|].
  exact (Hempty true eq_refl).
Defined.

